(** * Wind-turbine blade inspection: GSD inference and blade geometry

    A shallow embedding of the measurement core of the inspection viewer:

    - [lib/exiftool-utils.ts]      [findDistanceInExif], [validateExifData]
    - [lib/image-validation.ts]    [validateTurbineImages],
      [validateSingleImage], [getMeasurementReadyImages],
      [getImagesNeedingReprocessing]
    - [app/api/upload/route.ts]    [extractBladeDistance],
      [calculateDistanceStatistics], [getCameraSpecs],
      [calculateGSDForTurbine], [extractBladeAndSide] and the per-file loop
      of [POST]
    - [app/lib/blade-utils.ts]     [calculateBladeMetrics],
      [calculateImagePosition], [getBladeCoverage], [calculateRulerIntervals],
      [calculateEstimatedGSD], [validateBladeData],
      [findClosestImageToAltitude], [getBladeInspectionStats]
    - [app/hooks/use-enhanced-turbine.ts]  the filtered images and the
      navigation by blade position
    - the [CarouselMeasurement] component: [safeNumber], [calculateDistance],
      and the blade context the carousel hands to it

    Numbers.  A JavaScript number is an IEEE-754 binary64 value.  Three
    readings of it are used, each where it fits the code:

    - [Q], exact rationals, for the universally quantified statements about
      blade-utils, the validators and the viewer: their inputs are typed
      [number] fields of images decoded from JSON (always finite), and the
      arithmetic is read without rounding;
    - [number], rationals extended with NaN and the two infinities, for the
      upload route, the EXIF resolvers and the measurement component, whose
      values come out of [parseFloat] and of unguarded divisions;
    - [float], the kernel's binary64, to replay blade-utils on concrete
      inputs with the rounding the program really performs.

    The first functions of blade-utils are written once, over the interface
    [Arith], and read at [Q] and at [float]. *)

From Stdlib Require Import QArith ZArith List Bool Ascii String Lia Lqa.
From Stdlib Require Import Qminmax Qabs Qround Sorted Permutation.
From Stdlib Require Import Floats.PrimFloat Uint63.
From stdpp Require Import gmap strings pretty.
Import ListNotations.

Local Open Scope Q_scope.
Local Open Scope string_scope.
Local Open Scope list_scope.

(* ===================================================================== *)
(** ** Arithmetic interface *)
(* ===================================================================== *)

(** What blade-utils asks of a number.  [lit] reads a decimal literal or an
    array length; [falsy] is [ToBoolean n = false] (zero or NaN). *)
Class Arith (N : Type) := {
  lit : Q -> N;
  add : N -> N -> N;
  sub : N -> N -> N;
  mul : N -> N -> N;
  div : N -> N -> N;
  ltb : N -> N -> bool;
  leb : N -> N -> bool;
  falsy : N -> bool;
  Math_max : N -> N -> N;
  Math_min : N -> N -> N
}.

Definition gtb {N} `{Arith N} (a b : N) : bool := ltb b a.
Definition geb {N} `{Arith N} (a b : N) : bool := leb b a.

Definition of_nat {N} `{Arith N} (n : nat) : N := lit (inject_Z (Z.of_nat n)).

Declare Scope js_scope.
Delimit Scope js_scope with js.
Infix "+" := add : js_scope.
Infix "-" := sub : js_scope.
Infix "*" := mul : js_scope.
Infix "/" := div : js_scope.
Infix "<?" := ltb : js_scope.
Infix "<=?" := leb : js_scope.
Infix ">?" := gtb (at level 70) : js_scope.
Infix ">=?" := geb (at level 70) : js_scope.

(** *** Exact rationals *)

Definition Qltb (a b : Q) : bool := negb (Qle_bool b a).

#[export] Instance ArithQ : Arith Q := {|
  lit := fun q => q;
  add := Qplus;
  sub := Qminus;
  mul := Qmult;
  div := Qdiv;
  ltb := Qltb;
  leb := Qle_bool;
  falsy := fun q => Qeq_bool q 0;
  Math_max := Qmax;
  Math_min := Qmin
|}.

(** *** binary64 *)

Definition float_of_Z (z : Z) : float :=
  match z with
  | Z0 => PrimFloat.zero
  | Zpos _ => PrimFloat.of_uint63 (Uint63.of_Z z)
  | Zneg p => PrimFloat.opp (PrimFloat.of_uint63 (Uint63.of_Z (Zpos p)))
  end.

(** A decimal literal [a/b] with [a] and [b] below 2^53 is the correctly
    rounded quotient of two exact integers, which is how the literal is read. *)
Definition float_lit (q : Q) : float :=
  PrimFloat.div (float_of_Z (Qnum q)) (float_of_Z (Zpos (Qden q))).

(** [Math.max]: NaN if an argument is NaN; of two zeros, their sum, which is
    [+0] unless both are [-0]. *)
Definition float_max (a b : float) : float :=
  if PrimFloat.is_nan a || PrimFloat.is_nan b then PrimFloat.nan
  else if PrimFloat.ltb a b then b
  else if PrimFloat.ltb b a then a
  else if PrimFloat.is_zero a then PrimFloat.add a b
  else a.

Definition float_min (a b : float) : float :=
  PrimFloat.opp (float_max (PrimFloat.opp a) (PrimFloat.opp b)).

#[export] Instance ArithFloat : Arith float := {|
  lit := float_lit;
  add := PrimFloat.add;
  sub := PrimFloat.sub;
  mul := PrimFloat.mul;
  div := PrimFloat.div;
  ltb := PrimFloat.ltb;
  leb := PrimFloat.leb;
  falsy := fun x => PrimFloat.is_zero x || PrimFloat.is_nan x;
  Math_max := float_max;
  Math_min := float_min
|}.

(* ===================================================================== *)
(** ** Arrays *)
(* ===================================================================== *)

(** [Array.prototype.sort(cmp)]: a stable sort; an element moves behind
    another only when the comparator is positive (a NaN result counts as 0). *)
Section ArraySort.
Context {A N : Type} `{Arith N}.
Variable cmp : A -> A -> N.

Fixpoint sort_insert (x : A) (l : list A) : list A :=
  match l with
  | [] => [x]
  | y :: l' =>
      if (cmp x y >? lit 0)%js then y :: sort_insert x l' else x :: y :: l'
  end.

Definition Array_sort (l : list A) : list A := fold_right sort_insert [] l.

End ArraySort.

(** [arr[i]] for an index inside the array; [d] stands for [undefined]. *)
Definition at_index {A} (l : list A) (i : nat) (d : A) : A := nth i l d.

(* ===================================================================== *)
(** ** Data model ([types/index.d.ts]) *)
(* ===================================================================== *)

Inductive Blade := BladeA | BladeB | BladeC.
Inductive Side := TE | PS | LE | SS.
Inductive Confidence := high | medium | low.

Definition Blade_eqb (a b : Blade) : bool :=
  match a, b with
  | BladeA, BladeA | BladeB, BladeB | BladeC, BladeC => true
  | _, _ => false
  end.

Definition Side_eqb (a b : Side) : bool :=
  match a, b with
  | TE, TE | PS, PS | LE, LE | SS, SS => true
  | _, _ => false
  end.

Definition Confidence_eqb (a b : Confidence) : bool :=
  match a, b with
  | high, high | medium, medium | low, low => true
  | _, _ => false
  end.

Record Point := { px : Q; py : Q }.

Record GSDData (N : Type) := {
  gsd_width : N;
  gsd_height : N;
  gsd_cm_per_pixel : N;
  flight_height : N;
  distance_to_blade : N;
  altitude_source : string;
  distance_source : string;
  distance_confidence : Confidence
}.
Arguments gsd_width {N}.
Arguments gsd_height {N}.
Arguments gsd_cm_per_pixel {N}.
Arguments flight_height {N}.
Arguments distance_to_blade {N}.
Arguments altitude_source {N}.
Arguments distance_source {N}.
Arguments distance_confidence {N}.

Record CameraSpecs (N : Type) := {
  make : string;
  model : string;
  focal_length : N;
  sensor_width : N;
  sensor_height : N
}.
Arguments make {N}.
Arguments model {N}.
Arguments focal_length {N}.
Arguments sensor_width {N}.
Arguments sensor_height {N}.

(** The fields of [TurbineImage] the measurement core reads or writes; the
    identifier, the two URLs and the date are presentation data.  [gsd] is
    optional because every reader goes through [img.gsd?.]. *)
Record TurbineImage (N : Type) := {
  name : string;
  width : N;
  height : N;
  blade : Blade;
  side : Side;
  camera : option (CameraSpecs N);
  gsd : option (GSDData N)
}.
Arguments name {N}.
Arguments width {N}.
Arguments height {N}.
Arguments blade {N}.
Arguments side {N}.
Arguments camera {N}.
Arguments gsd {N}.

Record BladeMetrics (N : Type) := {
  lengthMeters : N;
  lengthPixels : N;
  minAltitude : N;
  maxAltitude : N;
  altitudeRange : N;
  totalImages : nat;
  averageSpacing : N;
  pixelsPerMeter : N
}.
Arguments lengthMeters {N}.
Arguments lengthPixels {N}.
Arguments minAltitude {N}.
Arguments maxAltitude {N}.
Arguments altitudeRange {N}.
Arguments totalImages {N}.
Arguments averageSpacing {N}.
Arguments pixelsPerMeter {N}.

Record ImagePosition (N : Type) := {
  altitudeFromBase : N;
  percentageFromBase : N;
  positionPixels : N;
  imageIndex : nat;
  relativePosition : N
}.
Arguments altitudeFromBase {N}.
Arguments percentageFromBase {N}.
Arguments positionPixels {N}.
Arguments imageIndex {N}.
Arguments relativePosition {N}.

(* ===================================================================== *)
(** ** blade-utils *)
(* ===================================================================== *)

Section BladeUtils.
Context {N : Type} `{Arith N}.

(** [v || d] for a number that may be [undefined]. *)
Definition or_else (v : option N) (d : N) : N :=
  match v with
  | Some x => if falsy x then d else x
  | None => d
  end.

(** [img.gsd?.flight_height] *)
Definition gsd_flight_height (img : TurbineImage N) : option N :=
  option_map flight_height (gsd img).

(** [images.map(img => img.gsd?.flight_height || 0).filter(alt => alt > 0)] *)
Definition positiveAltitudes (images : list (TurbineImage N)) : list N :=
  List.filter (fun alt => (alt >? lit 0)%js)
    (List.map (fun img => or_else (gsd_flight_height img) (lit 0)) images).

(** ... [.sort((a, b) => a - b)] *)
Definition sortedAltitudes (images : list (TurbineImage N)) : list N :=
  Array_sort (fun a b => (a - b)%js) (positiveAltitudes images).

Definition calculateBladeMetrics
    (images : list (TurbineImage N)) (pixelsPerMeter : N) : BladeMetrics N :=
  if Nat.eqb (length images) 0 then
    {| lengthMeters := lit 0; lengthPixels := lit 0; minAltitude := lit 0;
       maxAltitude := lit 0; altitudeRange := lit 0; totalImages := 0;
       averageSpacing := lit 0; pixelsPerMeter := pixelsPerMeter |}
  else
    let altitudes := sortedAltitudes images in
    if Nat.eqb (length altitudes) 0 then
      {| lengthMeters := lit 0; lengthPixels := lit 0; minAltitude := lit 0;
         maxAltitude := lit 0; altitudeRange := lit 0;
         totalImages := length images;
         averageSpacing := lit 0; pixelsPerMeter := pixelsPerMeter |}
    else
      let minAltitude := at_index altitudes 0 (lit 0) in
      let maxAltitude := at_index altitudes (length altitudes - 1) (lit 0) in
      let altitudeRange := (maxAltitude - minAltitude)%js in
      let lengthMeters := altitudeRange in
      let lengthPixels :=
        Math_max (lit 200) (Math_min (lit 500) (lengthMeters * pixelsPerMeter)%js) in
      let averageSpacing :=
        if Nat.ltb 1 (length altitudes)
        then (altitudeRange / of_nat (length altitudes - 1))%js
        else lit 0 in
      {| lengthMeters := lengthMeters; lengthPixels := lengthPixels;
         minAltitude := minAltitude; maxAltitude := maxAltitude;
         altitudeRange := altitudeRange; totalImages := length images;
         averageSpacing := averageSpacing; pixelsPerMeter := pixelsPerMeter |}.

(** The default argument [pixelsPerMeter = 3]. *)
Definition calculateBladeMetrics_default (images : list (TurbineImage N))
  : BladeMetrics N :=
  calculateBladeMetrics images (lit 3).

Definition calculateImagePosition
    (image : TurbineImage N) (bladeMetrics : BladeMetrics N) : ImagePosition N :=
  let currentAltitude :=
    or_else (gsd_flight_height image) (minAltitude bladeMetrics) in
  let altitudeFromBase := (currentAltitude - minAltitude bladeMetrics)%js in
  let percentageFromBase :=
    if (altitudeRange bladeMetrics >? lit 0)%js
    then ((altitudeFromBase / altitudeRange bladeMetrics) * lit 100)%js
    else lit 0 in
  let relativePosition :=
    if (altitudeRange bladeMetrics >? lit 0)%js
    then (altitudeFromBase / altitudeRange bladeMetrics)%js
    else lit 0 in
  let positionPixels :=
    (lengthPixels bladeMetrics - relativePosition * lengthPixels bladeMetrics)%js in
  {| altitudeFromBase := altitudeFromBase;
     percentageFromBase := percentageFromBase;
     positionPixels :=
       Math_max (lit 4)
         (Math_min (lengthPixels bladeMetrics - lit 4)%js positionPixels);
     imageIndex := 0;
     relativePosition := relativePosition |}.

Record Gap := { gap_start : N; gap_end : N; gap_size : N }.
Record DensityBin := { bin_altitude : N; imageCount : nat }.

Record Coverage := {
  totalCoverage : N;
  gaps : list Gap;
  densityMap : list DensityBin;
  qualityScore : N
}.

(** The loop [for (let i = 1; i < altitudes.length; i++)] over consecutive
    entries [altitudes[i - 1]], [altitudes[i]]. *)
Fixpoint findGaps (gapThreshold : N) (altitudes : list N) : list Gap :=
  match altitudes with
  | prev :: (cur :: _) as rest =>
      let gap := (cur - prev)%js in
      (if (gap >? gapThreshold)%js
       then [{| gap_start := prev; gap_end := cur; gap_size := gap |}]
       else []) ++ findGaps gapThreshold rest
  | _ => []
  end.

(** The bounds of bin [i] in the loop [for (let i = 0; i < binCount; i++)],
    and its filter [alt >= binStart && alt < binEnd]. *)
Definition binStart (minAltitude binSize : N) (i : nat) : N :=
  (minAltitude + of_nat i * binSize)%js.

Definition binEnd (minAltitude binSize : N) (i : nat) : N :=
  (binStart minAltitude binSize i + binSize)%js.

Definition inBin (minAltitude binSize : N) (i : nat) (alt : N) : bool :=
  (alt >=? binStart minAltitude binSize i)%js
  && (alt <? binEnd minAltitude binSize i)%js.

(** One turn of that loop. *)
Definition densityBin (altitudes : list N) (minAltitude binSize : N) (i : nat)
  : DensityBin :=
  let binCenter := (binStart minAltitude binSize i + binSize / lit 2)%js in
  {| bin_altitude := binCenter;
     imageCount :=
       length (List.filter (inBin minAltitude binSize i) altitudes) |}.

(** [Math.min(20, Math.max(5, Math.floor(altitudes.length / 2)))] *)
Definition binCountOf (altitudes : list N) : nat :=
  Nat.min 20 (Nat.max 5 (length altitudes / 2)).

Definition getBladeCoverage (images : list (TurbineImage N)) : Coverage :=
  if Nat.eqb (length images) 0 then
    {| totalCoverage := lit 0; gaps := []; densityMap := []; qualityScore := lit 0 |}
  else
    let altitudes := sortedAltitudes images in
    if Nat.eqb (length altitudes) 0 then
      {| totalCoverage := lit 0; gaps := []; densityMap := [];
         qualityScore := lit 0 |}
    else
      let minAltitude := at_index altitudes 0 (lit 0) in
      let maxAltitude := at_index altitudes (length altitudes - 1) (lit 0) in
      let totalRange := (maxAltitude - minAltitude)%js in
      let totalCoverage := if (totalRange >? lit 0)%js then lit 100 else lit 0 in
      let gaps :=
        if Nat.ltb 1 (length altitudes) then
          let avgSpacing := (totalRange / of_nat (length altitudes - 1))%js in
          let gapThreshold := (avgSpacing * lit 2.5)%js in
          findGaps gapThreshold altitudes
        else [] in
      let binCount := binCountOf altitudes in
      let binSize := (totalRange / of_nat binCount)%js in
      let densityMap :=
        List.map (densityBin altitudes minAltitude binSize) (seq 0 binCount) in
      let qualityScore := lit 100 in
      let gapPenalty :=
        if (totalRange >? lit 0)%js
        then ((fold_left (fun sum gap => (sum + gap_size gap)%js) gaps (lit 0)
               / totalRange) * lit 50)%js
        else lit 0 in
      let qualityScore := (qualityScore - gapPenalty)%js in
      let avgDensity :=
        if (totalRange >? lit 0)%js
        then (of_nat (length altitudes) / totalRange)%js
        else lit 0 in
      let qualityScore :=
        if (avgDensity <? lit 0.1)%js then (qualityScore - lit 30)%js
        else qualityScore in
      let qualityScore :=
        if Nat.leb 20 (length altitudes) then (qualityScore + lit 10)%js
        else qualityScore in
      let qualityScore := Math_max (lit 0) (Math_min (lit 100) qualityScore) in
      {| totalCoverage := totalCoverage; gaps := gaps;
         densityMap := densityMap; qualityScore := qualityScore |}.

Record EstimatedGSD := {
  gsdWidthCmPerPx : N;
  gsdHeightCmPerPx : N;
  gsdAvgCmPerPx : N
}.

Definition calculateEstimatedGSD
    (distanceToBladeM focalLengthMm sensorWidthMm sensorHeightMm
     imageWidthPx imageHeightPx : N) : EstimatedGSD :=
  let gsdWidthMPerPx :=
    ((sensorWidthMm * distanceToBladeM) / (focalLengthMm * imageWidthPx))%js in
  let gsdHeightMPerPx :=
    ((sensorHeightMm * distanceToBladeM) / (focalLengthMm * imageHeightPx))%js in
  let gsdWidthCmPerPx := (gsdWidthMPerPx * lit 100)%js in
  let gsdHeightCmPerPx := (gsdHeightMPerPx * lit 100)%js in
  let gsdAvgCmPerPx := ((gsdWidthCmPerPx + gsdHeightCmPerPx) / lit 2)%js in
  {| gsdWidthCmPerPx := gsdWidthCmPerPx;
     gsdHeightCmPerPx := gsdHeightCmPerPx;
     gsdAvgCmPerPx := gsdAvgCmPerPx |}.

End BladeUtils.

Arguments Gap N : clear implicits.
Arguments DensityBin N : clear implicits.
Arguments Coverage N : clear implicits.
Arguments EstimatedGSD N : clear implicits.

(* ===================================================================== *)
(** ** Numbers with NaN and infinities *)
(* ===================================================================== *)

(** The values of the upload route: exact rationals, NaN and the two
    infinities, combined by the IEEE-754 rules for special values (the sign
    of zero is not tracked: a quotient by zero takes the numerator's sign). *)
Inductive number :=
| NaN
| Infinity (negative : bool)
| Num (q : Q).

Definition Qsign_neg (q : Q) : bool := Qltb q 0.

Definition n_add (a b : number) : number :=
  match a, b with
  | NaN, _ | _, NaN => NaN
  | Infinity s, Infinity t => if Bool.eqb s t then Infinity s else NaN
  | Infinity s, Num _ | Num _, Infinity s => Infinity s
  | Num x, Num y => Num (x + y)
  end.

Definition n_opp (a : number) : number :=
  match a with
  | NaN => NaN
  | Infinity s => Infinity (negb s)
  | Num x => Num (- x)
  end.

Definition n_sub (a b : number) : number := n_add a (n_opp b).

Definition n_mul (a b : number) : number :=
  match a, b with
  | NaN, _ | _, NaN => NaN
  | Infinity s, Infinity t => Infinity (xorb s t)
  | Infinity s, Num x | Num x, Infinity s =>
      if Qeq_bool x 0 then NaN else Infinity (xorb s (Qsign_neg x))
  | Num x, Num y => Num (x * y)
  end.

Definition n_div (a b : number) : number :=
  match a, b with
  | NaN, _ | _, NaN => NaN
  | Infinity _, Infinity _ => NaN
  | Infinity s, Num y => Infinity (xorb s (Qsign_neg y))
  | Num _, Infinity _ => Num 0
  | Num x, Num y =>
      if Qeq_bool y 0
      then (if Qeq_bool x 0 then NaN else Infinity (Qsign_neg x))
      else Num (x / y)
  end.

Definition n_ltb (a b : number) : bool :=
  match a, b with
  | NaN, _ | _, NaN => false
  | Infinity s, Infinity t => s && negb t
  | Infinity s, Num _ => s
  | Num _, Infinity t => negb t
  | Num x, Num y => Qltb x y
  end.

Definition n_eqb (a b : number) : bool :=
  match a, b with
  | Infinity s, Infinity t => Bool.eqb s t
  | Num x, Num y => Qeq_bool x y
  | _, _ => false
  end.

Definition n_leb (a b : number) : bool := n_ltb a b || n_eqb a b.

Definition isNaN (a : number) : bool :=
  match a with NaN => true | _ => false end.

Definition n_falsy (a : number) : bool :=
  match a with
  | NaN => true
  | Infinity _ => false
  | Num x => Qeq_bool x 0
  end.

Definition n_max (a b : number) : number :=
  if isNaN a || isNaN b then NaN else if n_ltb a b then b else a.

Definition n_min (a b : number) : number :=
  if isNaN a || isNaN b then NaN else if n_ltb b a then b else a.

#[export] Instance ArithNumber : Arith number := {|
  lit := Num;
  add := n_add;
  sub := n_sub;
  mul := n_mul;
  div := n_div;
  ltb := n_ltb;
  leb := n_leb;
  falsy := n_falsy;
  Math_max := n_max;
  Math_min := n_min
|}.

(** What the model takes from the JavaScript runtime as given: the square
    root of a non-negative rational and the decimal text of a number. *)
Class JsRuntime := {
  rt_sqrt : Q -> Q;
  rt_toString : Q -> string
}.

Definition Math_sqrt `{JsRuntime} (a : number) : number :=
  match a with
  | NaN => NaN
  | Infinity s => if s then NaN else Infinity false
  | Num x => if Qsign_neg x then NaN else Num (rt_sqrt x)
  end.

(** [Math.pow(x, 2)] *)
Definition Math_pow2 (a : number) : number := n_mul a a.

(* ===================================================================== *)
(** ** Strings *)
(* ===================================================================== *)

(** Strings are read as sequences of ASCII characters: [isAscii] says that
    a string is one.  On such a string [toLowerCase] and [toUpperCase] are
    those of JavaScript; on other characters JavaScript follows the Unicode
    case mappings, which this model does not have. *)

Definition is_digit (c : ascii) : bool :=
  let n := nat_of_ascii c in (48 <=? n)%nat && (n <=? 57)%nat.

(** [\s] and the white space [trim] and [parseFloat] skip. *)
Definition is_space (c : ascii) : bool :=
  let n := nat_of_ascii c in
  (n =? 32)%nat || ((9 <=? n)%nat && (n <=? 13)%nat).

Definition char_is (a c : ascii) : bool := Ascii.eqb a c.

Definition lower (c : ascii) : ascii :=
  let n := nat_of_ascii c in
  if (65 <=? n)%nat && (n <=? 90)%nat then ascii_of_nat (n + 32) else c.

Definition upper (c : ascii) : ascii :=
  let n := nat_of_ascii c in
  if (97 <=? n)%nat && (n <=? 122)%nat then ascii_of_nat (n - 32) else c.

Definition chars (s : string) : list ascii := list_ascii_of_string s.
Definition text (l : list ascii) : string := string_of_list_ascii l.

Definition toLowerCase (s : string) : string := text (List.map lower (chars s)).
Definition toUpperCase (s : string) : string := text (List.map upper (chars s)).

Definition isAscii (s : string) : bool :=
  forallb (fun c => (nat_of_ascii c <? 128)%nat) (chars s).

Fixpoint drop_prefix (eqc : ascii -> ascii -> bool) (p s : list ascii)
  : option (list ascii) :=
  match p, s with
  | [], _ => Some s
  | a :: p', c :: s' => if eqc a c then drop_prefix eqc p' s' else None
  | _ :: _, [] => None
  end.

Fixpoint includes_chars (p s : list ascii) : bool :=
  match drop_prefix Ascii.eqb p s with
  | Some _ => true
  | None => match s with [] => false | _ :: s' => includes_chars p s' end
  end.

(** [s.includes(p)] *)
Definition includes (s p : string) : bool := includes_chars (chars p) (chars s).

Fixpoint drop_while (p : ascii -> bool) (s : list ascii) : list ascii :=
  match s with
  | c :: s' => if p c then drop_while p s' else s
  | [] => []
  end.

(** [s.trim()] *)
Definition trim (s : string) : string :=
  text (rev (drop_while is_space (rev (drop_while is_space (chars s))))).

Definition is_empty (s : string) : bool :=
  match s with EmptyString => true | _ => false end.

(** *** Regular expressions

    A backtracking matcher for the fragment the patterns of the two distance
    resolvers are written in.  Literal text is compared without case (every
    pattern with letters carries the [i] flag); there is one capture group. *)
Inductive regex :=
| REps
| RChar (p : ascii -> bool)
| RLit (s : string)
| RSeq (r1 r2 : regex)
| RAlt (r1 r2 : regex)
| ROpt (r : regex)
| RStar (r : regex)
| RGroup (r : regex)
| RBegin
| REnd.

Definition rcont := list ascii -> option (list ascii) -> option (list ascii).

Definition char_eq_ci (a c : ascii) : bool := Ascii.eqb (lower a) (lower c).

Definition or_try {A} (x y : option A) : option A :=
  match x with Some _ => x | None => y end.

(** [rmatch r n0 s cap k]: match [r] at the front of [s], the rest of an
    input of length [n0], and go on with [k]; alternatives are tried in
    order and quantifiers are greedy, as the specification of [RegExp]
    prescribes.  An iteration of a star has to consume input. *)
Fixpoint rmatch (r : regex) (n0 : nat) (s : list ascii)
    (cap : option (list ascii)) (k : rcont) {struct r} : option (list ascii) :=
  match r with
  | REps => k s cap
  | RChar p =>
      match s with
      | c :: s' => if p c then k s' cap else None
      | [] => None
      end
  | RLit t =>
      match drop_prefix char_eq_ci (chars t) s with
      | Some s' => k s' cap
      | None => None
      end
  | RSeq r1 r2 => rmatch r1 n0 s cap (fun s' cap' => rmatch r2 n0 s' cap' k)
  | RAlt r1 r2 => or_try (rmatch r1 n0 s cap k) (rmatch r2 n0 s cap k)
  | ROpt r1 => or_try (rmatch r1 n0 s cap k) (k s cap)
  | RStar r1 =>
      (fix loop (fuel : nat) (s : list ascii) (cap : option (list ascii))
         : option (list ascii) :=
         match fuel with
         | O => k s cap
         | S fuel' =>
             or_try
               (rmatch r1 n0 s cap
                  (fun s' cap' =>
                     if (length s' <? length s)%nat then loop fuel' s' cap'
                     else None))
               (k s cap)
         end) (length s) s cap
  | RGroup r1 =>
      rmatch r1 n0 s cap
        (fun s' _ => k s' (Some (firstn (length s - length s') s)))
  | RBegin => if (length s =? n0)%nat then k s cap else None
  | REnd => match s with [] => k s cap | _ :: _ => None end
  end.

(** The leftmost match: every start position in turn. *)
Fixpoint rsearch (r : regex) (n0 : nat) (s : list ascii) : option (list ascii) :=
  match rmatch r n0 s None (fun _ cap => Some (default [] cap)) with
  | Some c => Some c
  | None => match s with [] => None | _ :: s' => rsearch r n0 s' end
  end.

(** [s.match(r)], read at [match[1]]: [None] when there is no match. *)
Definition String_match (s : string) (r : regex) : option string :=
  option_map text (rsearch r (length (chars s)) (chars s)).

Definition rseq (rs : list regex) : regex := fold_right RSeq REps rs.
Definition ralt (ws : list string) : regex :=
  match ws with
  | [] => REps
  | w :: ws' => fold_left (fun r x => RAlt r (RLit x)) ws' (RLit w)
  end.
Definition rplus (r : regex) : regex := RSeq r (RStar r).

Definition cls_digit_dot (c : ascii) : bool := is_digit c || char_is "." c.
Definition cls_colon_eq (c : ascii) : bool := char_is ":" c || char_is "=" c.
Definition cls_colon_eq_space (c : ascii) : bool := cls_colon_eq c || is_space c.
Definition cls_digit_dot_minus (c : ascii) : bool :=
  is_digit c || char_is "." c || char_is "-" c.

(** [\s*], [[\d.]+] and [\d+\.?\d*] *)
Definition r_spaces : regex := RStar (RChar is_space).
Definition r_digits_dots : regex := rplus (RChar cls_digit_dot).
Definition r_decimal : regex :=
  rseq [rplus (RChar is_digit); ROpt (RLit "."); RStar (RChar is_digit)].

(** *** parseFloat *)

Fixpoint take_digits (s : list ascii) : list ascii * list ascii :=
  match s with
  | c :: s' =>
      if is_digit c
      then let '(ds, rest) := take_digits s' in (c :: ds, rest)
      else ([], s)
  | [] => ([], [])
  end.

Definition digit_value (c : ascii) : Z := Z.of_nat (nat_of_ascii c - 48).

Definition digits_to_Z (ds : list ascii) : Z :=
  fold_left (fun acc c => (10 * acc + digit_value c)%Z) ds 0%Z.

Definition take_sign (s : list ascii) : bool * list ascii :=
  match s with
  | c :: s' =>
      if char_is "-" c then (true, s')
      else if char_is "+" c then (false, s')
      else (false, s)
  | [] => (false, [])
  end.

(** The exponent part [e[+-]digits], 0 when there is none. *)
Definition take_exponent (s : list ascii) : Z :=
  match s with
  | c :: s' =>
      if char_is "e" c || char_is "E" c then
        let '(neg, s'') := take_sign s' in
        let '(ds, _) := take_digits s'' in
        match ds with
        | [] => 0%Z
        | _ => if neg then (- digits_to_Z ds)%Z else digits_to_Z ds
        end
      else 0%Z
  | [] => 0%Z
  end.

(** [parseFloat(s)]: leading white space, then the longest prefix that is a
    decimal literal; the value is the exact decimal. *)
Definition parseFloat (str : string) : number :=
  let s := drop_while is_space (chars str) in
  let '(neg, s) := take_sign s in
  match drop_prefix Ascii.eqb (chars "Infinity") s with
  | Some _ => Infinity neg
  | None =>
      let '(ip, s) := take_digits s in
      let '(fp, s) :=
        match s with
        | c :: s' => if char_is "." c then take_digits s' else ([], s)
        | [] => ([], [])
        end in
      match ip ++ fp with
      | [] => NaN
      | ds =>
          let m := digits_to_Z ds in
          let e := (take_exponent s - Z.of_nat (length fp))%Z in
          let v := Qred (inject_Z m * Qpower 10 e) in
          Num (if neg then Qred (- v) else v)
      end
  end.

(** *** Number formatting *)

Definition zeros (n : nat) : string := text (repeat "0"%char n).

(** [x.toFixed(digits)]: the decimal of the integer nearest to
    [x * 10^digits], a half going away from zero, with the point put back. *)
Definition toFixed `{JsRuntime} (x : Q) (digits : nat) : string :=
  let s := if Qltb x 0 then "-" else "" in
  let x := if Qltb x 0 then - x else x in
  let m :=
    if Qle_bool (inject_Z (10 ^ 21)) x then rt_toString x
    else
      let n := Qfloor (x * inject_Z (10 ^ Z.of_nat digits) + 1 / 2) in
      let m := pretty n in
      if Nat.eqb digits 0 then m
      else
        let m := zeros (digits + 1 - String.length m) +:+ m in
        let k := String.length m in
        String.substring 0 (k - digits) m +:+ "." +:+ String.substring (k - digits) digits m in
  s +:+ m.

(* ===================================================================== *)
(** ** blade-utils: rulers, validation and navigation *)
(* ===================================================================== *)

Section RulerIntervals.
Context {N : Type} `{Arith N}.

Record RulerIntervals := {
  rulerIntervalCm : N;
  majorIntervalCm : N;
  minorIntervalCm : N;
  rulerIntervalPx : N;
  majorIntervalPx : N;
  minorIntervalPx : N;
  effectiveGsdCmPerPixel : N
}.

(** Calculate optimal ruler intervals based on GSD and zoom. *)
Definition calculateRulerIntervals (gsdCmPerPixel zoom scaleFactor : N)
  : RulerIntervals :=
  let effectiveGsdCmPerPixel := (gsdCmPerPixel / (scaleFactor * zoom))%js in
  (* Determine appropriate intervals based on effective scale *)
  let '(rulerIntervalCm, majorIntervalCm, minorIntervalCm) :=
    if (effectiveGsdCmPerPixel >? lit 100)%js then (lit 500, lit 1000, lit 250)
    else if (effectiveGsdCmPerPixel >? lit 50)%js then (lit 100, lit 500, lit 50)
    else if (effectiveGsdCmPerPixel >? lit 20)%js then (lit 50, lit 200, lit 25)
    else if (effectiveGsdCmPerPixel >? lit 10)%js then (lit 20, lit 100, lit 10)
    else if (effectiveGsdCmPerPixel >? lit 5)%js then (lit 10, lit 50, lit 5)
    else if (effectiveGsdCmPerPixel >? lit 1)%js then (lit 5, lit 20, lit 2)
    else (lit 1, lit 10, lit 0.5) in
  {| rulerIntervalCm := rulerIntervalCm;
     majorIntervalCm := majorIntervalCm;
     minorIntervalCm := minorIntervalCm;
     rulerIntervalPx := (rulerIntervalCm / effectiveGsdCmPerPixel)%js;
     majorIntervalPx := (majorIntervalCm / effectiveGsdCmPerPixel)%js;
     minorIntervalPx := (minorIntervalCm / effectiveGsdCmPerPixel)%js;
     effectiveGsdCmPerPixel := effectiveGsdCmPerPixel |}.

End RulerIntervals.

Arguments RulerIntervals N : clear implicits.

(** The functions below are read at exact rationals. *)

(** [img.gsd?.flight_height || 0] and [img.gsd?.gsd_cm_per_pixel || 0] *)
Definition altitudeOrZero (img : TurbineImage Q) : Q :=
  or_else (gsd_flight_height img) 0.

Definition gsdOrZero (img : TurbineImage Q) : Q :=
  or_else (option_map gsd_cm_per_pixel (gsd img)) 0.

(** [arr.reduce((a, b) => a + b, 0)] *)
Definition sumOf (l : list Q) : Q := fold_left Qplus l 0.

(** [gaps.reduce((sum, gap) => sum + gap.size, 0)] *)
Definition totalGapSizeOf (gaps : list (Gap Q)) : Q :=
  fold_left (fun sum gap => sum + gap_size gap) gaps 0.

(** [Math.max(...arr)] of an array that is not empty (of an empty one it is
    [-Infinity]; the call below is made on two entries or more). *)
Definition Math_max_spread (l : list Q) : Q :=
  match l with
  | [] => 0
  | x :: l' => fold_left Qmax l' x
  end.

(** The loop [for (let i = 1; i < altitudes.length; i++)] that pushes
    [altitudes[i] - altitudes[i - 1]]. *)
Fixpoint spacingsOf (altitudes : list Q) : list Q :=
  match altitudes with
  | prev :: (cur :: _) as rest => (cur - prev) :: spacingsOf rest
  | _ => []
  end.

(** [images.map(img => img.gsd?.gsd_cm_per_pixel || 0).filter(gsd => gsd > 0)] *)
Definition gsdValuesOf (images : list (TurbineImage Q)) : list Q :=
  List.filter (fun gsd => Qltb 0 gsd) (List.map gsdOrZero images).

Module BladeData.

Record t := {
  isValid : bool;
  warnings : list string;
  recommendations : list string;
  qualityScore : Q
}.

(** The three variables the checks of [validateBladeData] update. *)
Record Report := {
  r_warnings : list string;
  r_recommendations : list string;
  r_qualityScore : Q
}.

(** [warnings.push(w); recommendations.push(r); qualityScore -= penalty] *)
Definition warn (w r : string) (penalty : Q) (s : Report) : Report :=
  {| r_warnings := r_warnings s ++ [w];
     r_recommendations := r_recommendations s ++ [r];
     r_qualityScore := r_qualityScore s - penalty |}.

(** [qualityScore += bonus] *)
Definition reward (bonus : Q) (s : Report) : Report :=
  {| r_warnings := r_warnings s;
     r_recommendations := r_recommendations s;
     r_qualityScore := r_qualityScore s + bonus |}.

End BladeData.

Section ValidateBladeData.
Context `{JsRuntime}.
Import BladeData.

(** Check image count. *)
Definition checkImageCount (images : list (TurbineImage Q)) (s : Report) : Report :=
  if Nat.ltb (length images) 5 then
    warn "Very few images - may not provide adequate blade coverage"
      "Capture more images along the blade length for better coverage" 20 s
  else if Nat.ltb (length images) 10 then
    warn "Limited images - consider capturing more for complete coverage"
      "Add more images to improve blade analysis accuracy" 10 s
  else s.

(** Check blade length coverage. *)
Definition checkBladeLength (bladeMetrics : BladeMetrics Q) (s : Report) : Report :=
  if Qltb (lengthMeters bladeMetrics) 5 then
    warn "Blade coverage seems very short - may not represent full blade"
      "Ensure drone captures the full blade length from root to tip" 15 s
  else if Qltb (lengthMeters bladeMetrics) 20 then
    warn "Blade coverage is relatively short"
      "Consider extending coverage to capture more of the blade length" 5 s
  else s.

(** Check for coverage gaps. *)
Definition checkGaps (coverage : Coverage Q) (s : Report) : Report :=
  if Nat.ltb 0 (length (gaps coverage)) then
    let totalGapSize := totalGapSizeOf (gaps coverage) in
    warn
      (pretty (length (gaps coverage)) +:+ " coverage gaps detected (total: "
         +:+ toFixed totalGapSize 1 +:+ "m)")
      "Capture additional images to fill coverage gaps for complete inspection"
      (inject_Z (Z.of_nat (length (gaps coverage))) * 8) s
  else s.

(** Check GSD consistency. *)
Definition checkGsdConsistency (gsdValues : list Q) (s : Report) : Report :=
  if Nat.ltb 0 (length gsdValues) then
    let avgGsd := sumOf gsdValues / inject_Z (Z.of_nat (length gsdValues)) in
    let stdDev :=
      rt_sqrt
        (fold_left (fun sum gsd => sum + (gsd - avgGsd) ^ 2) gsdValues 0
         / inject_Z (Z.of_nat (length gsdValues))) in
    let variationPercent := (stdDev / avgGsd) * 100 in
    if Qltb 50 variationPercent then
      warn "Very high variation in image resolution (GSD)"
        "Maintain consistent distance to blade during capture for uniform resolution"
        20 s
    else if Qltb 30 variationPercent then
      warn "High variation in image resolution (GSD)"
        "Try to maintain more consistent distance to blade during capture" 10 s
    else s
  else s.

(** Check altitude spacing consistency. *)
Definition checkSpacing (images : list (TurbineImage Q))
    (bladeMetrics : BladeMetrics Q) (s : Report) : Report :=
  if Qltb 0 (averageSpacing bladeMetrics) then
    let altitudes := sortedAltitudes images in
    if Nat.ltb 2 (length altitudes) then
      let spacings := spacingsOf altitudes in
      let avgSpacing := sumOf spacings / inject_Z (Z.of_nat (length spacings)) in
      let maxSpacing := Math_max_spread spacings in
      if Qltb (avgSpacing * 3) maxSpacing then
        warn "Inconsistent spacing between images along blade"
          "Maintain more consistent spacing between image capture points" 5 s
      else s
    else s
  else s.

(** Bonus for good practices. *)
Definition rewardCoverage (images : list (TurbineImage Q)) (coverage : Coverage Q)
    (s : Report) : Report :=
  if Nat.leb 15 (length images) && Nat.eqb (length (gaps coverage)) 0
  then reward 5 s else s.

Definition rewardResolution (gsdValues : list Q) (s : Report) : Report :=
  if Nat.ltb 0 (length gsdValues) then
    let avgGsd := sumOf gsdValues / inject_Z (Z.of_nat (length gsdValues)) in
    if Qle_bool 0.05 avgGsd && Qle_bool avgGsd 0.5 then reward 5 s else s
  else s.

(** Validate blade data quality and provide recommendations. *)
Definition validateBladeData (images : list (TurbineImage Q)) : BladeData.t :=
  if Nat.eqb (length images) 0 then
    {| isValid := false;
       warnings := ["No images provided"];
       recommendations := ["Upload turbine blade images to begin analysis"];
       qualityScore := 0 |}
  else
    let bladeMetrics := calculateBladeMetrics_default images in
    let coverage := getBladeCoverage images in
    let s := {| r_warnings := []; r_recommendations := []; r_qualityScore := 100 |} in
    let s := checkImageCount images s in
    let s := checkBladeLength bladeMetrics s in
    let s := checkGaps coverage s in
    let gsdValues := gsdValuesOf images in
    let s := checkGsdConsistency gsdValues s in
    let s := checkSpacing images bladeMetrics s in
    let s := rewardCoverage images coverage s in
    let s := rewardResolution gsdValues s in
    {| isValid := Nat.eqb (length (r_warnings s)) 0;
       warnings := r_warnings s;
       recommendations := r_recommendations s;
       qualityScore := Qmax 0 (Qmin 100 (r_qualityScore s)) |}.

End ValidateBladeData.

Module Closest.
Record t := {
  image : TurbineImage Q;
  index : nat;
  distance : Q
}.
End Closest.

(** Find closest image to a target altitude. *)
Definition findClosestImageToAltitude
    (images : list (TurbineImage Q)) (targetAltitude : Q) : option Closest.t :=
  match images with
  | [] => None
  | first :: _ =>
      Some
        (fold_left
           (fun closest '(index, img) =>
              let altitude := altitudeOrZero img in
              let distance := Qabs (altitude - targetAltitude) in
              if Qltb distance (Closest.distance closest)
              then {| Closest.image := img; Closest.index := index;
                      Closest.distance := distance |}
              else closest)
           (combine (seq 0 (length images)) images)
           {| Closest.image := first; Closest.index := 0;
              Closest.distance := Qabs (altitudeOrZero first - targetAltitude) |})
  end.

Module GsdStats.
Record t := { min : Q; max : Q; avg : Q; median : Q; count : nat }.
End GsdStats.

Module AltitudeStats.
Record t := { min : Q; max : Q; range : Q; count : nat }.
End AltitudeStats.

Module InspectionStats.
Record t := {
  coverage : Coverage Q;
  metrics : BladeMetrics Q;
  validation : BladeData.t;
  gsdStats : GsdStats.t;
  altitudeStats : AltitudeStats.t
}.
End InspectionStats.

(** Get blade inspection statistics. *)
Definition getBladeInspectionStats `{JsRuntime} (images : list (TurbineImage Q))
  : InspectionStats.t :=
  let coverage := getBladeCoverage images in
  let metrics := calculateBladeMetrics_default images in
  let validation := validateBladeData images in
  (* GSD statistics *)
  let gsdValues := Array_sort (fun a b : Q => (a - b)%js) (gsdValuesOf images) in
  let gsdStats :=
    {| GsdStats.min :=
         if Nat.ltb 0 (length gsdValues) then at_index gsdValues 0 0 else 0;
       GsdStats.max :=
         if Nat.ltb 0 (length gsdValues)
         then at_index gsdValues (length gsdValues - 1) 0 else 0;
       GsdStats.avg :=
         if Nat.ltb 0 (length gsdValues)
         then sumOf gsdValues / inject_Z (Z.of_nat (length gsdValues)) else 0;
       GsdStats.median :=
         if Nat.ltb 0 (length gsdValues)
         then at_index gsdValues (length gsdValues / 2) 0 else 0;
       GsdStats.count := length gsdValues |} in
  (* Altitude statistics *)
  let altitudes := sortedAltitudes images in
  let altitudeStats :=
    {| AltitudeStats.min :=
         if Nat.ltb 0 (length altitudes) then at_index altitudes 0 0 else 0;
       AltitudeStats.max :=
         if Nat.ltb 0 (length altitudes)
         then at_index altitudes (length altitudes - 1) 0 else 0;
       AltitudeStats.range :=
         if Nat.ltb 0 (length altitudes)
         then at_index altitudes (length altitudes - 1) 0 - at_index altitudes 0 0
         else 0;
       AltitudeStats.count := length altitudes |} in
  {| InspectionStats.coverage := coverage;
     InspectionStats.metrics := metrics;
     InspectionStats.validation := validation;
     InspectionStats.gsdStats := gsdStats;
     InspectionStats.altitudeStats := altitudeStats |}.

(* ===================================================================== *)
(** ** Metadata bags *)
(* ===================================================================== *)

(** A value of a metadata bag, as [JSON.parse] of the extractor's output
    gives it.  List-valued tags are outside the model. *)
Inductive jsval :=
| JUndefined
| JNull
| JBool (b : bool)
| JNum (q : Q)
| JStr (s : string)
| JObject.

Definition truthy (v : jsval) : bool :=
  match v with
  | JUndefined | JNull => false
  | JBool b => b
  | JNum q => negb (Qeq_bool q 0)
  | JStr s => negb (is_empty s)
  | JObject => true
  end.

(** [a || b] *)
Definition js_or (a b : jsval) : jsval := if truthy a then a else b.

(** [exifData[field]] *)
Definition get (exifData : gmap string jsval) (field : string) : jsval :=
  default JUndefined (exifData !! field).

(** [parseFloat(v)] for any value: [v] is converted to a string first; for
    a number this gives the number back. *)
Definition parseFloat_any (v : jsval) : number :=
  match v with
  | JStr s => parseFloat s
  | JNum q => Num q
  | JUndefined | JNull | JBool _ | JObject => NaN
  end.

Record DistanceInfo := {
  distance : number;
  source : string;
  confidence : Confidence;
  raw_value : option jsval
}.

Definition not_found : DistanceInfo :=
  {| distance := Num 0; source := "not_found"; confidence := low;
     raw_value := None |}.

(** The first element of a list for which [f] answers: a [for ... of] loop
    whose body returns from the function. *)
Fixpoint first_some {A B} (f : A -> option B) (l : list A) : option B :=
  match l with
  | [] => None
  | x :: l' => or_try (f x) (first_some f l')
  end.

(* ===================================================================== *)
(** ** lib/exiftool-utils.ts *)
(* ===================================================================== *)

(** Priority order for distance fields. *)
Definition distanceFields : list (string * Confidence) :=
  [ ("UserComment", high);
    ("EXIF:UserComment", high);
    ("ImageDescription", high);
    ("XMP:Description", high);
    ("Comments", high);
    ("SubjectDistance", medium);
    ("EXIF:SubjectDistance", medium);
    ("Composite:SubjectDistance", medium);
    ("XMP:SubjectDistance", medium);
    ("FocusDistance", low);
    ("HyperfocalDistance", low) ].

(** [/(?:distance|range|dist)[:=]?\s*([\d.]+)\s*m?(?:eter)?s?/i],
    [/([\d.]+)\s*m(?:eter)?s?\s*(?:distance|range|to|away)/i],
    [/(?:blade|subject|target)[:=]?\s*([\d.]+)\s*m?/i] and
    [/^([\d.]+)\s*m$/i]. *)
Definition exifPatterns : list regex :=
  [ rseq [ralt ["distance"; "range"; "dist"]; ROpt (RChar cls_colon_eq);
          r_spaces; RGroup r_digits_dots; r_spaces;
          ROpt (RLit "m"); ROpt (RLit "eter"); ROpt (RLit "s")];
    rseq [RGroup r_digits_dots; r_spaces; RLit "m"; ROpt (RLit "eter");
          ROpt (RLit "s"); r_spaces; ralt ["distance"; "range"; "to"; "away"]];
    rseq [ralt ["blade"; "subject"; "target"]; ROpt (RChar cls_colon_eq);
          r_spaces; RGroup r_digits_dots; r_spaces; ROpt (RLit "m")];
    rseq [RBegin; RGroup r_digits_dots; r_spaces; RLit "m"; REnd] ].

Definition findDistanceInExif (exifData : gmap string jsval) : DistanceInfo :=
  (* Search text fields for distance patterns *)
  let in_text :=
    first_some
      (fun '(field, confidence) =>
         match get exifData field with
         | JStr value =>
             first_some
               (fun pattern =>
                  match String_match value pattern with
                  | Some m1 =>
                      let distance := parseFloat m1 in
                      if negb (isNaN distance) && (distance >? lit 0)%js
                         && (distance <? lit 1000)%js
                      then Some {| distance := distance; source := field;
                                   confidence := confidence;
                                   raw_value := Some (JStr value) |}
                      else None
                  | None => None
                  end)
               exifPatterns
         | _ => None
         end)
      (firstn 5 distanceFields) in
  match in_text with
  | Some r => r
  | None =>
      (* Search numeric fields *)
      let in_numbers :=
        first_some
          (fun '(field, confidence) =>
             match get exifData field with
             | JNum value =>
                 if (Num value >? lit 0)%js && (Num value <? lit 1000)%js
                 then Some {| distance := Num value; source := field;
                              confidence := confidence;
                              raw_value := Some (JNum value) |}
                 else None
             | _ => None
             end)
          (skipn 5 distanceFields) in
      match in_numbers with
      | Some r => r
      | None => not_found
      end
  end.

Record ExifValidation := {
  isValid : bool;
  issues : list string;
  suggestions : list string
}.

(** Validate ExifTool output and provide diagnostics. *)
Definition validateExifData (exifData : gmap string jsval) (filename : string)
  : ExifValidation :=
  if decide (exifData = ∅) then
    {| isValid := false; issues := ["No EXIF data found"];
       suggestions := ["Check if the file contains EXIF metadata"] |}
  else
    let missing a b := negb (truthy (get exifData a)) && negb (truthy (get exifData b)) in
    (* Check for essential fields *)
    let issues1 := if missing "Make" "EXIF:Make" then ["Camera make not found"] else [] in
    let issues2 := if missing "Model" "EXIF:Model" then ["Camera model not found"] else [] in
    let issues3 :=
      if missing "FocalLength" "EXIF:FocalLength" then ["Focal length not found"] else [] in
    (* Check for GPS data *)
    let noGps := missing "GPSLatitude" "GPS:GPSLatitude" in
    let issues4 := if noGps then ["GPS coordinates not found"] else [] in
    let suggestions4 :=
      if noGps then ["Ensure GPS was enabled during image capture"] else [] in
    (* Check for distance information *)
    let distanceInfo := findDistanceInExif exifData in
    let noDistance := n_eqb (distance distanceInfo) (Num 0) in
    let issues5 := if noDistance then ["Distance information not found"] else [] in
    let suggestions5 :=
      if noDistance
      then ["Consider adding distance info to image metadata or providing manual distance"]
      else [] in
    let issues := issues1 ++ issues2 ++ issues3 ++ issues4 ++ issues5 in
    {| isValid := Nat.eqb (length issues) 0;
       issues := issues;
       suggestions := suggestions4 ++ suggestions5 |}.

(* ===================================================================== *)
(** ** lib/image-validation.ts *)
(* ===================================================================== *)

(** [source?.toLowerCase().includes("focus")], the test by which the
    validators report an image as "using focus distance instead of blade
    distance". *)
Definition isFocusSource (source : string) : bool :=
  includes (toLowerCase source) "focus".

(** Get images that need re-processing (using focus distance). *)
Definition getImagesNeedingReprocessing {N} (images : list (TurbineImage N))
  : list (TurbineImage N) :=
  List.filter
    (fun image =>
       match gsd image with
       | Some g => isFocusSource (distance_source g)
       | None => false
       end)
    images.

(** The letter of a blade and the code of a side, as they print. *)
Definition Blade_text (b : Blade) : string :=
  match b with BladeA => "A" | BladeB => "B" | BladeC => "C" end.

Definition Side_text (s : Side) : string :=
  match s with TE => "TE" | PS => "PS" | LE => "LE" | SS => "SS" end.

(** [!image.gsd || !image.gsd.gsd_cm_per_pixel || image.gsd.gsd_cm_per_pixel <= 0],
    the test both validators start with: the [gsd] record of an image that
    passes it. *)
Definition usableGsd (image : TurbineImage Q) : option (GSDData Q) :=
  match gsd image with
  | Some g =>
      if falsy (gsd_cm_per_pixel g) || Qle_bool (gsd_cm_per_pixel g) 0
      then None else Some g
  | None => None
  end.

Module GsdRange.
Record t := { min : Q; max : Q }.
End GsdRange.

Module Statistics.
Record t := {
  totalImages : nat;
  validForMeasurement : nat;
  highConfidenceDistance : nat;
  mediumConfidenceDistance : nat;
  lowConfidenceDistance : nat;
  averageGSD : Q;
  gsdRange : GsdRange.t
}.
End Statistics.

Module ValidationResult.
Record t := {
  isValid : bool;
  warnings : list string;
  errors : list string;
  suggestions : list string;
  statistics : Statistics.t
}.
End ValidationResult.

(** The variables the [forEach] of [validateTurbineImages] updates. *)
Module Analysis.
Record t := {
  warnings : list string;
  errors : list string;
  suggestions : list string;
  validForMeasurement : nat;
  highConfidenceDistance : nat;
  mediumConfidenceDistance : nat;
  lowConfidenceDistance : nat;
  gsdValues : list Q
}.
End Analysis.

(** [Math.min(...arr)] of an array that is not empty. *)
Definition Math_min_spread (l : list Q) : Q :=
  match l with
  | [] => 0
  | x :: l' => fold_left Qmin l' x
  end.

Section ValidateTurbineImages.
Context `{JsRuntime}.

(** The body of [images.forEach((image, index) => ...)]. *)
Definition analyzeImage (s : Analysis.t) (image : TurbineImage Q) : Analysis.t :=
  let imageLabel :=
    Blade_text (blade image) +:+ "-" +:+ Side_text (side image)
      +:+ " (" +:+ name image +:+ ")" in
  (* Check if image has valid GSD *)
  match usableGsd image with
  | None =>
      {| Analysis.warnings := Analysis.warnings s;
         Analysis.errors :=
           Analysis.errors s ++ ["Image " +:+ imageLabel +:+ ": No valid GSD data"];
         Analysis.suggestions := Analysis.suggestions s;
         Analysis.validForMeasurement := Analysis.validForMeasurement s;
         Analysis.highConfidenceDistance := Analysis.highConfidenceDistance s;
         Analysis.mediumConfidenceDistance := Analysis.mediumConfidenceDistance s;
         Analysis.lowConfidenceDistance := Analysis.lowConfidenceDistance s;
         Analysis.gsdValues := Analysis.gsdValues s |}
  | Some g =>
      (* Check GSD reasonableness *)
      let gsd := gsd_cm_per_pixel g in
      let unusual := Qltb gsd 0.001 || Qltb 50 gsd in
      let warnings1 :=
        if unusual
        then ["Image " +:+ imageLabel +:+ ": Unusual GSD value ("
                +:+ toFixed gsd 4 +:+ " cm/pixel)"]
        else [] in
      (* Check distance confidence *)
      let warnings2 :=
        match distance_confidence g with
        | low => ["Image " +:+ imageLabel +:+ ": Low confidence distance measurement"]
        | _ => []
        end in
      (* Check distance source *)
      let errors1 :=
        if String.eqb (distance_source g) "XMP:FocusDistance"
           || String.eqb (distance_source g) "FocusDistance"
           || includes (toLowerCase (distance_source g)) "focus"
        then ["Image " +:+ imageLabel
                +:+ ": Using focus distance instead of blade distance (Source: "
                +:+ distance_source g +:+ ")"]
        else [] in
      (* Check distance reasonableness for blade measurement *)
      let distance := distance_to_blade g in
      let warnings3 :=
        if Qltb distance 0.5 || Qltb 100 distance
        then ["Image " +:+ imageLabel +:+ ": Distance to blade ("
                +:+ rt_toString distance
                +:+ "m) seems unusual for turbine blade inspection"]
        else [] in
      (* Check if distance source indicates proper blade distance *)
      let suggestions1 :=
        if negb (includes (toLowerCase (distance_source g)) "comment")
           && negb (includes (toLowerCase (distance_source g)) "subject")
           && negb (Confidence_eqb (distance_confidence g) high)
        then ["Image " +:+ imageLabel
                +:+ ": Consider adding explicit distance information to image metadata"]
        else [] in
      {| Analysis.warnings := Analysis.warnings s ++ warnings1 ++ warnings2 ++ warnings3;
         Analysis.errors := Analysis.errors s ++ errors1;
         Analysis.suggestions := Analysis.suggestions s ++ suggestions1;
         Analysis.validForMeasurement :=
           if unusual then Analysis.validForMeasurement s
           else S (Analysis.validForMeasurement s);
         Analysis.highConfidenceDistance :=
           match distance_confidence g with
           | high => S (Analysis.highConfidenceDistance s)
           | _ => Analysis.highConfidenceDistance s
           end;
         Analysis.mediumConfidenceDistance :=
           match distance_confidence g with
           | medium => S (Analysis.mediumConfidenceDistance s)
           | _ => Analysis.mediumConfidenceDistance s
           end;
         Analysis.lowConfidenceDistance :=
           match distance_confidence g with
           | low => S (Analysis.lowConfidenceDistance s)
           | _ => Analysis.lowConfidenceDistance s
           end;
         Analysis.gsdValues :=
           if unusual then Analysis.gsdValues s else Analysis.gsdValues s ++ [gsd] |}
  end.

(** Validate turbine images for measurement readiness.  The quotient
    [gsdRange.max / gsdRange.min] of an empty range is [0 / 0], which does
    not exceed 10 whether it is read as NaN or as 0. *)
Definition validateTurbineImages (images : list (TurbineImage Q))
  : ValidationResult.t :=
  if Nat.eqb (length images) 0 then
    {| ValidationResult.isValid := false;
       ValidationResult.warnings := [];
       ValidationResult.errors := ["No images found"];
       ValidationResult.suggestions :=
         ["Upload some turbine blade images to get started"];
       ValidationResult.statistics :=
         {| Statistics.totalImages := 0;
            Statistics.validForMeasurement := 0;
            Statistics.highConfidenceDistance := 0;
            Statistics.mediumConfidenceDistance := 0;
            Statistics.lowConfidenceDistance := 0;
            Statistics.averageGSD := 0;
            Statistics.gsdRange := {| GsdRange.min := 0; GsdRange.max := 0 |} |} |}
  else
    (* Analyze each image *)
    let s :=
      fold_left analyzeImage images
        {| Analysis.warnings := []; Analysis.errors := [];
           Analysis.suggestions := [];
           Analysis.validForMeasurement := 0;
           Analysis.highConfidenceDistance := 0;
           Analysis.mediumConfidenceDistance := 0;
           Analysis.lowConfidenceDistance := 0;
           Analysis.gsdValues := [] |} in
    let gsdValues := Analysis.gsdValues s in
    (* Calculate statistics *)
    let statistics :=
      {| Statistics.totalImages := length images;
         Statistics.validForMeasurement := Analysis.validForMeasurement s;
         Statistics.highConfidenceDistance := Analysis.highConfidenceDistance s;
         Statistics.mediumConfidenceDistance := Analysis.mediumConfidenceDistance s;
         Statistics.lowConfidenceDistance := Analysis.lowConfidenceDistance s;
         Statistics.averageGSD :=
           if Nat.ltb 0 (length gsdValues)
           then sumOf gsdValues / inject_Z (Z.of_nat (length gsdValues))
           else 0;
         Statistics.gsdRange :=
           if Nat.ltb 0 (length gsdValues)
           then {| GsdRange.min := Math_min_spread gsdValues;
                   GsdRange.max := Math_max_spread gsdValues |}
           else {| GsdRange.min := 0; GsdRange.max := 0 |} |} in
    (* Generate suggestions based on analysis *)
    let suggestions2 :=
      if Nat.ltb 0 (Analysis.lowConfidenceDistance s)
      then ["Consider re-uploading images with explicit distance-to-blade information in EXIF metadata"]
      else [] in
    let suggestions3 :=
      if Qltb (inject_Z (Z.of_nat (Analysis.validForMeasurement s)))
              (inject_Z (Z.of_nat (length images)) * 0.8)
      then ["Less than 80% of images are suitable for measurement. Check EXIF metadata quality"]
      else [] in
    let warnings4 :=
      if Qltb 10 (GsdRange.max (Statistics.gsdRange statistics)
                  / GsdRange.min (Statistics.gsdRange statistics))
      then ["Large variation in GSD values detected. This may indicate inconsistent distance measurements"]
      else [] in
    (* Check if any images are using focus distance *)
    let focusDistanceImages :=
      List.filter
        (fun img =>
           match gsd img with
           | Some g => includes (toLowerCase (distance_source g)) "focus"
           | None => false
           end)
        images in
    let errors2 :=
      if Nat.ltb 0 (length focusDistanceImages)
      then [pretty (length focusDistanceImages)
              +:+ " images are using focus distance instead of blade distance. These need to be re-processed."]
      else [] in
    let suggestions4 :=
      if Nat.ltb 0 (length focusDistanceImages)
      then ["Re-upload images with proper blade distance metadata, or add manual distance during upload"]
      else [] in
    let errors := Analysis.errors s ++ errors2 in
    {| ValidationResult.isValid :=
         Nat.eqb (length errors) 0 && Nat.ltb 0 (Analysis.validForMeasurement s);
       ValidationResult.warnings := Analysis.warnings s ++ warnings4;
       ValidationResult.errors := errors;
       ValidationResult.suggestions :=
         Analysis.suggestions s ++ suggestions2 ++ suggestions3 ++ suggestions4;
       ValidationResult.statistics := statistics |}.

End ValidateTurbineImages.

Inductive GsdQuality := excellent | good | poor | unusable.

Definition GsdQuality_eqb (a b : GsdQuality) : bool :=
  match a, b with
  | excellent, excellent | good, good | poor, poor | unusable, unusable => true
  | _, _ => false
  end.

Module SingleImage.
Record t := {
  canMeasure : bool;
  issues : list string;
  gsdQuality : GsdQuality
}.
End SingleImage.

(** Validate individual image for measurement. *)
Definition validateSingleImage `{JsRuntime} (image : TurbineImage Q) : SingleImage.t :=
  match usableGsd image with
  | None =>
      {| SingleImage.canMeasure := false;
         SingleImage.issues := ["No valid GSD data found"];
         SingleImage.gsdQuality := unusable |}
  | Some g =>
      let gsd := gsd_cm_per_pixel g in
      let distance := distance_to_blade g in
      let source := distance_source g in
      let confidence := distance_confidence g in
      (* Check distance source *)
      let issues1 :=
        if isFocusSource source
        then ["Using focus distance instead of blade distance - measurements may be inaccurate"]
        else [] in
      (* Check distance reasonableness *)
      let issues2 :=
        if Qltb distance 0.5 then ["Distance to blade seems too close (< 0.5m)"]
        else if Qltb 100 distance then ["Distance to blade seems too far (> 100m)"]
        else [] in
      (* Check GSD reasonableness *)
      let '(gsdQuality, issues3) :=
        if Qltb gsd 0.001 || Qltb 50 gsd then
          (unusable, ["Unrealistic GSD value: " +:+ toFixed gsd 4 +:+ " cm/pixel"])
        else if Qltb 10 gsd then
          (poor, ["Very low resolution for detailed measurements"])
        else if Qltb gsd 0.01 then (excellent, [])
        else if Qltb gsd 0.1 then (good, [])
        else (poor, []) in
      (* Check confidence *)
      let issues4 :=
        if Confidence_eqb confidence low
        then ["Low confidence in distance measurement"] else [] in
      let issues := issues1 ++ issues2 ++ issues3 ++ issues4 in
      let canMeasure :=
        Nat.eqb (length issues) 0
        || (negb (GsdQuality_eqb gsdQuality unusable) && negb (isFocusSource source)) in
      {| SingleImage.canMeasure := canMeasure;
         SingleImage.issues := issues;
         SingleImage.gsdQuality := gsdQuality |}
  end.

(** Filter images that are ready for measurement. *)
Definition getMeasurementReadyImages `{JsRuntime} (images : list (TurbineImage Q))
  : list (TurbineImage Q) :=
  List.filter
    (fun image =>
       let validation := validateSingleImage image in
       SingleImage.canMeasure validation
       && negb (GsdQuality_eqb (SingleImage.gsdQuality validation) unusable))
    images.


(* ===================================================================== *)
(** ** app/api/upload/route.ts *)
(* ===================================================================== *)

Definition userCommentFields : list string :=
  [ "EXIF:UserComment"; "UserComment"; "Comment"; "XMP:UserComment";
    "IPTC:SpecialInstructions"; "ImageDescription"; "XMP:Description" ].

(** With [D] standing for the decimal [\d+\.?\d{0,}], the patterns
    [/(?:distance|dist|range)[:=\s]*(D)\s*m(?:eter)?s?/i],
    [/(D)\s*m(?:eter)?s?\s*(?:distance|dist|range|to|away)/i],
    [/(?:blade|subject|target)[:=\s]*(D)\s*m/i],
    [/^(D)\s*m$/i] and
    [/(D)\s*meters?\s*(?:to|from|away)/i]. *)
Definition uploadPatterns : list regex :=
  [ rseq [ralt ["distance"; "dist"; "range"]; RStar (RChar cls_colon_eq_space);
          RGroup r_decimal; r_spaces; RLit "m"; ROpt (RLit "eter");
          ROpt (RLit "s")];
    rseq [RGroup r_decimal; r_spaces; RLit "m"; ROpt (RLit "eter");
          ROpt (RLit "s"); r_spaces;
          ralt ["distance"; "dist"; "range"; "to"; "away"]];
    rseq [ralt ["blade"; "subject"; "target"]; RStar (RChar cls_colon_eq_space);
          RGroup r_decimal; r_spaces; RLit "m"];
    rseq [RBegin; RGroup r_decimal; r_spaces; RLit "m"; REnd];
    rseq [RGroup r_decimal; r_spaces; RLit "meter"; ROpt (RLit "s"); r_spaces;
          ralt ["to"; "from"; "away"]] ].

Definition subjectDistanceFields : list string :=
  [ "EXIF:SubjectDistance"; "SubjectDistance"; "Camera:SubjectDistance" ].

Definition extractBladeDistance (exifData : gmap string jsval) : DistanceInfo :=
  (* High confidence: user comments with explicit distance patterns *)
  let in_comments :=
    first_some
      (fun field =>
         match get exifData field with
         | JStr userComment =>
             if negb (is_empty userComment) && negb (is_empty (trim userComment))
             then
               first_some
                 (fun pattern =>
                    match String_match userComment pattern with
                    | Some m1 =>
                        let distance := parseFloat m1 in
                        if negb (isNaN distance) && (distance >? lit 0.1)%js
                           && (distance <? lit 200)%js
                        then Some {| distance := distance; source := field;
                                     confidence := high;
                                     raw_value := Some (JStr userComment) |}
                        else None
                    | None => None
                    end)
                 uploadPatterns
             else None
         | _ => None
         end)
      userCommentFields in
  match in_comments with
  | Some r => r
  | None =>
      (* Medium confidence: subject distance fields *)
      let in_subject :=
        first_some
          (fun field =>
             let subjectDistance := get exifData field in
             if truthy subjectDistance
                && negb (isNaN (parseFloat_any subjectDistance))
             then
               let distance := parseFloat_any subjectDistance in
               if (distance >? lit 0.5)%js && (distance <? lit 100)%js
               then Some {| distance := distance; source := field;
                            confidence := medium;
                            raw_value := Some subjectDistance |}
               else None
             else None)
          subjectDistanceFields in
      match in_subject with
      | Some r => r
      | None => not_found
      end
  end.

Module Stats.
Record t := {
  meanDistance : number;
  medianDistance : number;
  validDistances : list number;
  confidence : Confidence
}.
End Stats.

(** [img.gsd?.distance_to_blade > 0 && img.gsd?.distance_confidence !== "low"] *)
Definition hasUsableDistance (img : TurbineImage number) : bool :=
  match gsd img with
  | Some g =>
      (distance_to_blade g >? lit 0)%js
      && negb (Confidence_eqb (distance_confidence g) low)
  | None => false
  end.

(** [img.blade === blade && img.side === side && ...], the filter of the
    same-blade images. *)
Definition matchesBladeAndSide (forBlade : Blade) (forSide : Side)
    (img : TurbineImage number) : bool :=
  Blade_eqb (blade img) forBlade
  && Side_eqb (side img) forSide
  && hasUsableDistance img.

(** [img.gsd.distance_to_blade] *)
Definition distanceOf (img : TurbineImage number) : number :=
  match gsd img with
  | Some g => distance_to_blade g
  | None => NaN
  end.

Section DistanceStatistics.
Context `{JsRuntime}.

(** The computation from [validDistances] on. *)
Definition distanceStatisticsOf (validDistances : list number) : Stats.t :=
  if Nat.eqb (length validDistances) 0 then
    {| Stats.meanDistance := Num 0; Stats.medianDistance := Num 0;
       Stats.validDistances := []; Stats.confidence := low |}
  else
    let sortedDistances := Array_sort (fun a b => (a - b)%js) validDistances in
    let meanDistance :=
      (fold_left (fun sum d => (sum + d)%js) validDistances (Num 0)
       / of_nat (length validDistances))%js in
    let medianDistance :=
      at_index sortedDistances (length sortedDistances / 2) NaN in
    let confidence :=
      if Nat.leb 5 (length validDistances) then
        let stdDev :=
          Math_sqrt
            (fold_left (fun sum d => (sum + Math_pow2 (d - meanDistance))%js)
               validDistances (Num 0)
             / of_nat (length validDistances))%js in
        if (stdDev <? meanDistance * lit 0.1)%js then high else medium
      else if Nat.ltb (length validDistances) 3 then low
      else medium in
    {| Stats.meanDistance := meanDistance;
       Stats.medianDistance := medianDistance;
       Stats.validDistances := sortedDistances;
       Stats.confidence := confidence |}.

(** Calculate statistics from existing images for interpolation. *)
Definition calculateDistanceStatistics
    (images : list (TurbineImage number)) (forBlade : Blade) (forSide : Side)
  : Stats.t :=
  (* Filter to same blade and side for better accuracy *)
  let sameBladeImages :=
    List.filter (matchesBladeAndSide forBlade forSide) images in
  (* Fall back to all images if not enough same-blade data *)
  let relevantImages :=
    if Nat.leb 3 (length sameBladeImages) then sameBladeImages
    else List.filter hasUsableDistance images in
  let validDistances := List.map distanceOf relevantImages in
  distanceStatisticsOf validDistances.

End DistanceStatistics.

(** *** Exceptions *)

(** What the route throws, one constructor for each [throw] site (the
    message is the text of the [Error]), [NotAFunction] for the [TypeError]
    of calling a string method on a value that is not a string, and
    [Rejected] for a failure of an awaited external call. *)
Inductive Thrown :=
| NoExifData
| ManualDistanceConflict
| NoDistanceAvailable
| DistanceOutsideRange (d : number)
| InvalidDistance
| UnrealisticGSD (g : number)
| NotAFunction
| Rejected (reason : string).

Inductive Result (A : Type) :=
| Ok (a : A)
| Throw (e : Thrown).
Arguments Ok {A}.
Arguments Throw {A}.

Definition bindR {A B} (c : Result A) (k : A -> Result B) : Result B :=
  match c with
  | Ok a => k a
  | Throw e => Throw e
  end.

Declare Scope result_scope.
Delimit Scope result_scope with result.
Notation "x <- c ;; k" := (bindR c (fun x => k))
  (at level 100, c at next level, right associativity) : result_scope.
Notation "'check' b 'orelse' e ;; k" := (if b then k else Throw e)
  (at level 100, b at next level, e at next level, right associativity)
  : result_scope.

(** [v.toUpperCase()] *)
Definition toUpperCase_any (v : jsval) : Result string :=
  match v with
  | JStr s => Ok (toUpperCase s)
  | _ => Throw NotAFunction
  end.

Record Specs := {
  spec_focal_length : number;
  spec_sensor_width : number;
  spec_sensor_height : number
}.

(** Get camera specifications. *)
Definition getCameraSpecs (make model : jsval) (exifData : gmap string jsval)
  : Result Specs :=
  let focalLengthRaw :=
    js_or (js_or (js_or (get exifData "EXIF:FocalLength")
                        (get exifData "FocalLength"))
                 (get exifData "Camera:FocalLength"))
          (JStr "12.29 mm") in
  let focalLength :=
    match focalLengthRaw with
    | JStr s =>
        match String_match s (RGroup r_digits_dots) with
        | Some m1 => parseFloat m1
        | None => Num 12.29
        end
    | JNum q => Num q
    | _ => Num 12.29
    end in
  (makeUpper <- toUpperCase_any make ;;
   modelUpper <- toUpperCase_any model ;;
   let specs w h :=
     {| spec_focal_length := focalLength; spec_sensor_width := Num w;
        spec_sensor_height := Num h |} in
   if includes makeUpper "DJI" then
     if includes modelUpper "M3E" || includes modelUpper "MAVIC 3 ENTERPRISE"
     then Ok (specs 17.3 13.0)
     else if includes modelUpper "M3" || includes modelUpper "MAVIC 3"
     then Ok (specs 17.3 13.0)
     else if includes modelUpper "MINI" || includes modelUpper "M2"
     then Ok (specs 6.17 4.55)
     else if includes modelUpper "AIR"
     then Ok (specs 6.4 4.8)
     else Ok (specs 17.3 13.0)
   else Ok (specs 17.3 13.0))%result.

(** [v.toString()] *)
Definition toString_any `{JsRuntime} (v : jsval) : Result string :=
  match v with
  | JStr s => Ok s
  | JNum q => Ok (rt_toString q)
  | JBool b => Ok (if b then "true" else "false")
  | JObject => Ok "[object Object]"
  | JUndefined | JNull => Throw NotAFunction
  end.

(** [s.replace(/[^\d.-]/g, "")] *)
Definition keepNumeric (s : string) : string :=
  text (List.filter cls_digit_dot_minus (chars s)).

Section GSD.
Context `{JsRuntime}.

(** Enhanced GSD calculation with interpolated distance support. *)
Definition calculateGSDForTurbine
    (exifData : gmap string jsval) (imageWidth imageHeight : number)
    (distanceToBladeMeters : number)
    (distanceSource : string) (distanceConfidence : Confidence)
  : Result (GSDData number) :=
  (let make :=
     js_or (js_or (get exifData "EXIF:Make") (get exifData "Make")) (JStr "DJI") in
   let model :=
     js_or (js_or (get exifData "EXIF:Model") (get exifData "Model")) (JStr "M3E") in
   cameraSpecs <- getCameraSpecs make model exifData ;;
   let focalLength := spec_focal_length cameraSpecs in
   let sensorWidth := spec_sensor_width cameraSpecs in
   let sensorHeight := spec_sensor_height cameraSpecs in
   (* Validate inputs *)
   check negb (distanceToBladeMeters <=? lit 0)%js orelse InvalidDistance ;;
   (* Calculate GSD *)
   let gsd_width_m_per_px :=
     ((sensorWidth * distanceToBladeMeters) / (focalLength * imageWidth))%js in
   let gsd_height_m_per_px :=
     ((sensorHeight * distanceToBladeMeters) / (focalLength * imageHeight))%js in
   let gsd_avg_m_per_px :=
     ((gsd_width_m_per_px + gsd_height_m_per_px) / lit 2)%js in
   let gsd_cm_per_pixel := (gsd_avg_m_per_px * lit 100)%js in
   (* Get altitude *)
   let altitudeData :=
     js_or (js_or (js_or (js_or (get exifData "XMP:RelativeAltitude")
                                (get exifData "RelativeAltitude"))
                         (get exifData "GPS:GPSAltitude"))
                  (get exifData "GPSAltitude"))
           (JStr "0") in
   altitudeText <- toString_any altitudeData ;;
   let altitudeAboveGround :=
     or_else (Some (parseFloat (keepNumeric altitudeText))) (lit 0) in
   Ok {| gsd_width := gsd_width_m_per_px;
         gsd_height := gsd_height_m_per_px;
         gsd_cm_per_pixel := gsd_cm_per_pixel;
         flight_height := altitudeAboveGround;
         distance_to_blade := distanceToBladeMeters;
         altitude_source :=
           if (altitudeAboveGround >? lit 0)%js then "relative_altitude"
           else "estimated";
         distance_source := distanceSource;
         distance_confidence := distanceConfidence |})%result.

End GSD.

Module Upload.
Record Metadata := {
  blade : Blade;
  side : Side;
  manualDistance : option Q
}.
End Upload.

Definition extractBladeAndSide (filename : string) (metadata : option Upload.Metadata)
  : Blade * Side :=
  match metadata with
  | Some m => (Upload.blade m, Upload.side m)
  | None =>
      let upperFilename := toUpperCase filename in
      let has a b := includes upperFilename a || includes upperFilename b in
      let blade :=
        if has "-A-" "_A_" then BladeA
        else if has "-B-" "_B_" then BladeB
        else if has "-C-" "_C_" then BladeC
        else BladeA in
      let side :=
        if has "-TE-" "_TE_" then TE
        else if has "-PS-" "_PS_" then PS
        else if has "-LE-" "_LE_" then LE
        else if has "-SS-" "_SS_" then SS
        else TE in
      (blade, side)
  end.

(** *** The upload loop *)

(** One uploaded file with what the external collaborators answer for it:
    [metadata] is the parsed [metadata_i] form field ([None] when absent or
    not JSON), [stored] the writing of the file and of its thumbnail,
    [exiftool] the extractor's first JSON object, [dimensions] the width and
    height [sharp] reports. *)
Record UploadedFile := {
  file_name : string;
  metadata : option Upload.Metadata;
  stored : Result unit;
  exiftool : Result (gmap string jsval);
  dimensions : Result (option Q * option Q)
}.

(** An entry of [interpolationLog]: the file, the distance used, the number
    of samples and their range. *)
Record LogEntry := {
  log_file : string;
  log_distance : number;
  log_samples : nat;
  log_min : number;
  log_max : number
}.

(** A computation of the loop body: it may throw, and what it pushed on
    [interpolationLog] stays pushed. *)
Definition Step (A : Type) : Type := list LogEntry -> Result A * list LogEntry.

Definition ret {A} (a : A) : Step A := fun log => (Ok a, log).
Definition throw {A} (e : Thrown) : Step A := fun log => (Throw e, log).
Definition await {A} (r : Result A) : Step A := fun log => (r, log).
Definition push_log (entry : LogEntry) : Step unit :=
  fun log => (Ok tt, log ++ [entry]).
Definition bindS {A B} (c : Step A) (k : A -> Step B) : Step B :=
  fun log =>
    match c log with
    | (Ok a, log') => k a log'
    | (Throw e, log') => (Throw e, log')
    end.

Declare Scope step_scope.
Delimit Scope step_scope with step.
Notation "x <- c ;; k" := (bindS c (fun x => k))
  (at level 100, c at next level, right associativity) : step_scope.
Notation "c ;;; k" := (bindS c (fun _ => k))
  (at level 100, right associativity) : step_scope.

(** [Math.min(...arr)] and [Math.max(...arr)] *)
Definition Math_min_all (l : list number) : number :=
  fold_left n_min l (Infinity false).
Definition Math_max_all (l : list number) : number :=
  fold_left n_max l (Infinity true).

Section Post.
Context `{JsRuntime}.

(** The body of the [try] block for one file. *)
Definition processFile (existingImages : list (TurbineImage number))
    (file : UploadedFile) : Step (TurbineImage number) :=
  (let '(blade, side) := extractBladeAndSide (file_name file) (metadata file) in
   await (stored file) ;;;
   exifData <- await (exiftool file) ;;
   (if decide (exifData = ∅) then throw NoExifData else ret tt) ;;;
   imageMetadata <- await (dimensions file) ;;
   let width := or_else (option_map Num (fst imageMetadata)) (lit 5280) in
   let height := or_else (option_map Num (snd imageMetadata)) (lit 3956) in
   (* Try to extract distance *)
   let bladeDistanceInfo := extractBladeDistance exifData in
   let finalDistance := distance bladeDistanceInfo in
   let finalDistanceSource := source bladeDistanceInfo in
   let finalDistanceConfidence := confidence bladeDistanceInfo in
   (* Use manual distance if provided *)
   let manual := metadata file ≫= Upload.manualDistance in
   final1 <-
     match manual with
     | Some m =>
         if negb (Qeq_bool m 0) && Qltb 0 m then
           if n_eqb finalDistance (Num 0)
           then ret (Num m, "manual_input", high)
           else throw ManualDistanceConflict
         else ret (finalDistance, finalDistanceSource, finalDistanceConfidence)
     | None => ret (finalDistance, finalDistanceSource, finalDistanceConfidence)
     end ;;
   let '(finalDistance, finalDistanceSource, finalDistanceConfidence) := final1 in
   (* If no distance found, use interpolation from existing images *)
   final2 <-
     (if n_eqb finalDistance (Num 0) then
        let stats := calculateDistanceStatistics existingImages blade side in
        if (Stats.meanDistance stats >? lit 0)%js then
          let finalDistance := Stats.medianDistance stats in
          push_log
            {| log_file := file_name file;
               log_distance := finalDistance;
               log_samples := length (Stats.validDistances stats);
               log_min := Math_min_all (Stats.validDistances stats);
               log_max := Math_max_all (Stats.validDistances stats) |} ;;;
          ret (finalDistance,
               "interpolated_from_"
                 +:+ pretty (length (Stats.validDistances stats)) +:+ "_images",
               if Confidence_eqb (Stats.confidence stats) high then medium else low)
        else throw NoDistanceAvailable
      else ret (finalDistance, finalDistanceSource, finalDistanceConfidence)) ;;
   let '(finalDistance, finalDistanceSource, finalDistanceConfidence) := final2 in
   (* Validate final distance *)
   (if (finalDistance <? lit 0.5)%js || (finalDistance >? lit 100)%js
    then throw (DistanceOutsideRange finalDistance) else ret tt) ;;;
   gsdData <-
     await (calculateGSDForTurbine exifData width height finalDistance
              finalDistanceSource finalDistanceConfidence) ;;
   (* Validate GSD *)
   (if (gsd_cm_per_pixel gsdData <? lit 0.001)%js
       || (gsd_cm_per_pixel gsdData >? lit 50)%js
    then throw (UnrealisticGSD (gsd_cm_per_pixel gsdData)) else ret tt) ;;;
   let make :=
     js_or (js_or (get exifData "EXIF:Make") (get exifData "Make")) (JStr "DJI") in
   let model :=
     js_or (js_or (get exifData "EXIF:Model") (get exifData "Model")) (JStr "M3E") in
   cameraSpecs <- await (getCameraSpecs make model exifData) ;;
   ret {| name := file_name file;
          width := width;
          height := height;
          blade := blade;
          side := side;
          camera :=
            Some {| make := match make with JStr s => s | _ => "" end;
                    model := match model with JStr s => s | _ => "" end;
                    focal_length := spec_focal_length cameraSpecs;
                    sensor_width := spec_sensor_width cameraSpecs;
                    sensor_height := spec_sensor_height cameraSpecs |};
          gsd := Some gsdData |})%step.

(** The three arrays the loop fills.  An entry of [errors] stands for the
    string [`${file.name}: ${error.message}`]. *)
Record Batch := {
  processedImages : list (TurbineImage number);
  errors : list (string * Thrown);
  interpolationLog : list LogEntry
}.

Definition emptyBatch : Batch :=
  {| processedImages := []; errors := []; interpolationLog := [] |}.

(** One turn of [for (let i = 0; i < files.length; i++)]: the [try] block
    and its [catch]. *)
Definition processNext (existingImages : list (TurbineImage number))
    (batch : Batch) (file : UploadedFile) : Batch :=
  match processFile existingImages file (interpolationLog batch) with
  | (Ok turbineImage, log) =>
      {| processedImages := processedImages batch ++ [turbineImage];
         errors := errors batch;
         interpolationLog := log |}
  | (Throw error, log) =>
      {| processedImages := processedImages batch;
         errors := errors batch ++ [(file_name file, error)];
         interpolationLog := log |}
  end.

Definition processFiles (existingImages : list (TurbineImage number))
    (files : list UploadedFile) : Batch :=
  fold_left (processNext existingImages) files emptyBatch.

(** The response of the route: status 400 with its [error] and [details],
    or the success body.  [existingImages] is what [loadExistingImages]
    returned; the writing of [turbine-data.json] and the status 500 of the
    outer [catch] are left out. *)
Inductive Response :=
| BadRequest (error : string) (details : list (string * Thrown))
| Success (processed total_images : nat) (errors : list (string * Thrown))
    (interpolation_log : list LogEntry).

Definition POST (existingImages : list (TurbineImage number))
    (files : list UploadedFile) : Response :=
  if Nat.eqb (length files) 0 then BadRequest "No files uploaded" []
  else
    let batch := processFiles existingImages files in
    if Nat.eqb (length (processedImages batch)) 0
    then BadRequest "No images were successfully processed" (errors batch)
    else
      Success (length (processedImages batch))
        (length existingImages + length (processedImages batch))
        (errors batch) (interpolationLog batch).

End Post.

(* ===================================================================== *)
(** ** The measurement component *)
(* ===================================================================== *)

Module CarouselMeasurement.

(** The [bladeContext] property of the component: typed [number] fields,
    computed by the carousel from the blade metrics of stored images. *)
Record BladeContext := {
  minAltitude : Q;
  maxAltitude : Q;
  currentAltitude : Q;
  bladeLength : Q
}.

Record AbsolutePosition := {
  altitude : number;
  baseAltitude : number;
  relativeHeight : number;
  bladePercentage : number
}.

Record Measured := {
  distance : number;
  distanceCm : number;
  pixelDistance : number;
  absolutePosition : option AbsolutePosition;
  valid : bool
}.

(** [safeNumber(value, fallback)]; [None] is a value that is nil or not a
    number. *)
Definition safeNumber (value : option number) (fallback : number) : number :=
  match value with
  | Some NaN | None => fallback
  | Some v => v
  end.

Section Component.
Context `{JsRuntime}.
(** The component's [gsdCmPerPixel], which is
    [safeNumber(image?.gsd?.gsd_cm_per_pixel, 0)], and its [bladeContext]. *)
Variable gsdCmPerPixel : Q.
Variable bladeContext : option BladeContext.

Definition isValidGSD : bool := Qltb 0 gsdCmPerPixel.

(** Enhanced distance calculation with absolute positioning. *)
Definition calculateDistance (start end_ : Point) : Measured :=
  if negb isValidGSD then
    {| distance := Num 0; distanceCm := Num 0; pixelDistance := Num 0;
       absolutePosition := None; valid := false |}
  else
    let gsdCmPerPixel : number := Num gsdCmPerPixel in
    let startX := safeNumber (Some (Num (px start))) (Num 0) in
    let startY := safeNumber (Some (Num (py start))) (Num 0) in
    let endX := safeNumber (Some (Num (px end_))) (Num 0) in
    let endY := safeNumber (Some (Num (py end_))) (Num 0) in
    let pixelDistance :=
      Math_sqrt (Math_pow2 (endX - startX) + Math_pow2 (endY - startY))%js in
    let realDistanceCm := (pixelDistance * gsdCmPerPixel)%js in
    let realDistanceM := (realDistanceCm / Num 100)%js in
    (* Calculate absolute position if blade context is available *)
    let absolutePosition :=
      match bladeContext with
      | Some ctx =>
          let midPointY := ((startY + endY) / Num 2)%js in
          let relativeHeightCm := (midPointY * gsdCmPerPixel)%js in
          let relativeHeightM := (relativeHeightCm / Num 100)%js in
          let currentAltitude :=
            safeNumber (Some (Num (currentAltitude ctx))) (Num 0) in
          let absoluteAltitude := (currentAltitude + relativeHeightM)%js in
          let minAltitude := safeNumber (Some (Num (minAltitude ctx))) (Num 0) in
          let bladeLength := safeNumber (Some (Num (bladeLength ctx))) (Num 1) in
          let bladePercentage :=
            (((absoluteAltitude - minAltitude) / bladeLength) * Num 100)%js in
          Some {| altitude := absoluteAltitude;
                  baseAltitude := currentAltitude;
                  relativeHeight := relativeHeightM;
                  bladePercentage :=
                    Math_max (Num 0) (Math_min (Num 100) bladePercentage) |}
      | None => None
      end in
    {| distance := realDistanceM; distanceCm := realDistanceCm;
       pixelDistance := pixelDistance; absolutePosition := absolutePosition;
       valid := (pixelDistance >? Num 2)%js |}.

End Component.

End CarouselMeasurement.

(* ===================================================================== *)
(** ** hooks/use-enhanced-turbine.ts *)
(* ===================================================================== *)

(** The pure parts of the viewer's hook: what it derives from its state
    [allImages], [currentFilter] and [currentImageIndex]. *)

Module Filter.
Record t := { blade : Blade; side : Side }.
End Filter.

(** Memoized filtered images. *)
Definition filteredImages (allImages : list (TurbineImage Q)) (currentFilter : Filter.t)
  : list (TurbineImage Q) :=
  if Nat.eqb (length allImages) 0 then []
  else
    Array_sort
      (fun a b =>
         let heightA := altitudeOrZero a in
         let heightB := altitudeOrZero b in
         heightA - heightB)
      (List.filter
         (fun img =>
            Blade_eqb (blade img) (Filter.blade currentFilter)
            && Side_eqb (side img) (Filter.side currentFilter))
         allImages).

(** [Math.max(0, Math.min(index, filteredImages.length - 1))], the index
    [navigateToImage] makes current. *)
Definition newIndex (images : list (TurbineImage Q)) (index : Z) : Z :=
  Z.max 0 (Z.min index (Z.of_nat (length images) - 1)).

(** Enhanced navigation by blade position: the index handed to
    [navigateToImage], [None] when the function returns without navigating. *)
Definition navigateToBladePosition (images : list (TurbineImage Q))
    (relativePosition : Q) : option Z :=
  if Nat.eqb (length images) 0 then None
  else
    let bladeContext := calculateBladeMetrics_default images in
    let targetAltitude :=
      minAltitude bladeContext + relativePosition * altitudeRange bladeContext in
    match findClosestImageToAltitude images targetAltitude with
    | Some result => Some (newIndex images (Z.of_nat (Closest.index result)))
    | None => None
    end.

(* ===================================================================== *)
(** ** The image carousel *)
(* ===================================================================== *)

(** Calculate blade context for absolute positioning: what the carousel
    hands to the measurement component as its [bladeContext].
    [currentImage] is [images[currentImageIndex] || null]. *)
Definition enhancedBladeContext (allImages : list (TurbineImage Q))
    (currentFilter : option Filter.t) (currentImage : option (TurbineImage Q))
  : option CarouselMeasurement.BladeContext :=
  if Nat.eqb (length allImages) 0 then None
  else
    match currentFilter with
    | None => None
    | Some currentFilter =>
        let filteredImages :=
          List.filter
            (fun img =>
               Blade_eqb (blade img) (Filter.blade currentFilter)
               && Side_eqb (side img) (Filter.side currentFilter))
            allImages in
        let bladeMetrics := calculateBladeMetrics_default filteredImages in
        let currentAltitude :=
          or_else (currentImage ≫= gsd_flight_height) (minAltitude bladeMetrics) in
        Some {| CarouselMeasurement.minAltitude := minAltitude bladeMetrics;
                CarouselMeasurement.maxAltitude := maxAltitude bladeMetrics;
                CarouselMeasurement.currentAltitude := currentAltitude;
                CarouselMeasurement.bladeLength := lengthMeters bladeMetrics |}
    end.

(* ===================================================================== *)
(** ** A runtime for running examples *)
(* ===================================================================== *)

(** The square root rounded down to nine decimals. *)
Definition sqrt_down (q : Q) : Q :=
  inject_Z (Z.sqrt ((Qnum q * 10 ^ 18) / Zpos (Qden q))) / inject_Z (10 ^ 9).

Fixpoint fraction_digits (fuel : nat) (num den : Z) : string :=
  match fuel with
  | O => ""
  | S fuel' =>
      if (num =? 0)%Z then ""
      else
        String (ascii_of_nat (48 + Z.to_nat ((num * 10) / den)))
          (fraction_digits fuel' ((num * 10) mod den) den)
  end.

(** The decimal text of a rational, cut after seventeen fractional digits. *)
Definition decimal_text (q : Q) : string :=
  let a := Z.abs (Qnum q) in
  let d := Zpos (Qden q) in
  let fraction := fraction_digits 17 (a mod d) d in
  (if (Qnum q <? 0)%Z then "-" else "")
    +:+ pretty (a / d)%Z
    +:+ (if is_empty fraction then "" else "." +:+ fraction).

Definition exampleRuntime : JsRuntime :=
  {| rt_sqrt := sqrt_down; rt_toString := decimal_text |}.

(** An image of blade A, trailing edge, taken at an altitude. *)
Definition imageAt {N} `{Arith N} (alt : Q) : TurbineImage N :=
  {| name := "image.jpg"; width := lit 5280; height := lit 3956;
     blade := BladeA; side := TE; camera := None;
     gsd := Some {| gsd_width := lit 0.0001; gsd_height := lit 0.0001;
                    gsd_cm_per_pixel := lit 0.01; flight_height := lit alt;
                    distance_to_blade := lit 10;
                    altitude_source := "relative_altitude";
                    distance_source := "EXIF:SubjectDistance";
                    distance_confidence := medium |} |}.

(** A stored image of a blade and side with a distance and its confidence. *)
Definition imageWith (b : Blade) (s : Side) (d : Q) (c : Confidence)
  : TurbineImage number :=
  {| name := "image.jpg"; width := Num 5280; height := Num 3956;
     blade := b; side := s; camera := None;
     gsd := Some {| gsd_width := Num 0.0001; gsd_height := Num 0.0001;
                    gsd_cm_per_pixel := Num 0.01; flight_height := Num 30;
                    distance_to_blade := Num d;
                    altitude_source := "relative_altitude";
                    distance_source := "EXIF:SubjectDistance";
                    distance_confidence := c |} |}.

(* ===================================================================== *)
(** ** The specification's own words *)
(* ===================================================================== *)

(** [max(altitude)] and [min(altitude)] of a set of altitudes. *)
Definition maxOf (l : list Q) : Q :=
  match l with
  | [] => 0
  | x :: l' => fold_left Qmax l' x
  end.

Definition minOf (l : list Q) : Q :=
  match l with
  | [] => 0
  | x :: l' => fold_left Qmin l' x
  end.

(** [clamp(x, lo, hi)] *)
Definition clamp (x lo hi : Q) : Q :=
  if Qltb x lo then lo else if Qltb hi x then hi else x.

(** The mapper of section 4.6: the vertical midpoint of the two points, to
    cm by the GSD, to meters, added to the image's current altitude. *)
Definition spec_absoluteAltitude (currentAltitude gsdCmPerPixel : Q)
    (start end_ : Point) : Q :=
  let midpoint_px := (py start + py end_) / 2 in
  let midpoint_cm := midpoint_px * gsdCmPerPixel in
  let midpoint_m := midpoint_cm / 100 in
  currentAltitude + midpoint_m.

Definition spec_bladePercentage (absoluteAltitude minAltitude bladeLength : Q) : Q :=
  clamp (((absoluteAltitude - minAltitude) / bladeLength) * 100) 0 100.

(** The estimator of section 4.3 over its samples: their mean, their
    standard deviation, and the confidence policy: "low" if fewer than 3
    valid samples; "high" if at least 5 samples and a standard deviation
    below 10% of the mean; otherwise "medium". *)
Definition spec_mean (samples : list number) : number :=
  (fold_left (fun sum d => sum + d) samples (Num 0) / of_nat (length samples))%js.

Definition spec_standardDeviation `{JsRuntime} (samples : list number) : number :=
  Math_sqrt
    (fold_left (fun sum d => sum + Math_pow2 (d - spec_mean samples)) samples (Num 0)
     / of_nat (length samples))%js.

Definition spec_confidence `{JsRuntime} (samples : list number) : Confidence :=
  if Nat.ltb (length samples) 3 then low
  else if Nat.leb 5 (length samples)
          && (spec_standardDeviation samples <? spec_mean samples * Num 0.1)%js
  then high
  else medium.

(* ===================================================================== *)
(** ** Notions the statements are written with *)
(* ===================================================================== *)

(** The sort of blade-utils and of the statistics, at exact rationals. *)
Definition Qsort : list Q -> list Q := Array_sort (fun a b : Q => (a - b)%js).

Definition numberSort : list number -> list number :=
  Array_sort (fun a b : number => (a - b)%js).

Definition n_le (a b : number) : Prop := n_leb a b = true.

(** The samples [calculateDistanceStatistics] works on. *)
Definition relevantDistances (images : list (TurbineImage number))
    (forBlade : Blade) (forSide : Side) : list number :=
  List.map distanceOf
    (if Nat.leb 3 (length (List.filter (matchesBladeAndSide forBlade forSide) images))
     then List.filter (matchesBladeAndSide forBlade forSide) images
     else List.filter hasUsableDistance images).

(** An image of the full population of the estimator: one with a stored
    distance above 0 whose confidence is not "low", whatever its blade and
    side. *)
Definition inPopulation (img : TurbineImage number) : Prop :=
  exists g, gsd img = Some g
            /\ (distance_to_blade g >? Num 0)%js = true
            /\ distance_confidence g <> low.

(** [d] is the distance stored with [img]. *)
Definition storedDistance (img : TurbineImage number) (d : number) : Prop :=
  exists g, gsd img = Some g /\ d = distance_to_blade g.

(** Every field either resolver consults. *)
Definition consultedFields : list string :=
  userCommentFields ++ subjectDistanceFields ++ List.map fst distanceFields.

(** A bag whose only distance-bearing entry is [field]: no other consulted
    field is present. *)
Definition onlyDistanceEntry (exifData : gmap string jsval) (field : string) : Prop :=
  forall f, In f consultedFields -> f <> field -> exifData !! f = None.

(** A computation that only appends to the log it is given. *)
Definition appendsToLog {A} (c : Step A) : Prop :=
  forall log, c log = (fst (c []), log ++ snd (c [])).

Section Outcomes.
Context `{JsRuntime}.

(** What one file comes to, on its own: its image or its error, and its
    entries of the interpolation log. *)
Definition outcome (existingImages : list (TurbineImage number)) (file : UploadedFile)
  : Result (TurbineImage number) :=
  fst (processFile existingImages file []).

Definition logged (existingImages : list (TurbineImage number)) (file : UploadedFile)
  : list LogEntry :=
  snd (processFile existingImages file []).

Definition imagesOf (existingImages : list (TurbineImage number))
    (files : list UploadedFile) : list (TurbineImage number) :=
  flat_map (fun file => match outcome existingImages file with
                        | Ok image => [image]
                        | Throw _ => []
                        end) files.

Definition errorsOf (existingImages : list (TurbineImage number))
    (files : list UploadedFile) : list (string * Thrown) :=
  flat_map (fun file => match outcome existingImages file with
                        | Ok _ => []
                        | Throw e => [(file_name file, e)]
                        end) files.

End Outcomes.

(** *** The loop body without its log *)

Section Phases.
Context `{JsRuntime}.
Local Open Scope result_scope.

(** The distance the loop body settles on for a file whose metadata bag is
    [exifData], with its source and its confidence: the steps "try to
    extract distance", "use manual distance if provided" and "if no distance
    found, use interpolation from existing images". *)
Definition settledDistance (existingImages : list (TurbineImage number))
    (file : UploadedFile) (exifData : gmap string jsval)
  : Result (number * string * Confidence) :=
  let '(blade, side) := extractBladeAndSide (file_name file) (metadata file) in
  let found := extractBladeDistance exifData in
  first <-
    match metadata file ≫= Upload.manualDistance with
    | Some m =>
        if negb (Qeq_bool m 0) && Qltb 0 m then
          if n_eqb (distance found) (Num 0)
          then Ok (Num m, "manual_input", high)
          else Throw ManualDistanceConflict
        else Ok (distance found, source found, confidence found)
    | None => Ok (distance found, source found, confidence found)
    end ;;
  let '(finalDistance, finalDistanceSource, finalDistanceConfidence) := first in
  if n_eqb finalDistance (Num 0) then
    let stats := calculateDistanceStatistics existingImages blade side in
    if (Stats.meanDistance stats >? lit 0)%js then
      Ok (Stats.medianDistance stats,
          "interpolated_from_"
            +:+ pretty (length (Stats.validDistances stats)) +:+ "_images",
          if Confidence_eqb (Stats.confidence stats) high then medium else low)
    else Throw NoDistanceAvailable
  else Ok (finalDistance, finalDistanceSource, finalDistanceConfidence).

(** The rest of the loop body: "validate final distance", the GSD and its
    validation, and the image record. *)
Definition imageFrom (file : UploadedFile) (exifData : gmap string jsval)
    (imageMetadata : option Q * option Q) (settled : number * string * Confidence)
  : Result (TurbineImage number) :=
  let '(blade, side) := extractBladeAndSide (file_name file) (metadata file) in
  let width := or_else (option_map Num (fst imageMetadata)) (lit 5280) in
  let height := or_else (option_map Num (snd imageMetadata)) (lit 3956) in
  let '(finalDistance, finalDistanceSource, finalDistanceConfidence) := settled in
  check negb ((finalDistance <? lit 0.5)%js || (finalDistance >? lit 100)%js)
    orelse DistanceOutsideRange finalDistance ;;
  gsdData <- calculateGSDForTurbine exifData width height finalDistance
               finalDistanceSource finalDistanceConfidence ;;
  check negb ((gsd_cm_per_pixel gsdData <? lit 0.001)%js
              || (gsd_cm_per_pixel gsdData >? lit 50)%js)
    orelse UnrealisticGSD (gsd_cm_per_pixel gsdData) ;;
  let make :=
    js_or (js_or (get exifData "EXIF:Make") (get exifData "Make")) (JStr "DJI") in
  let model :=
    js_or (js_or (get exifData "EXIF:Model") (get exifData "Model")) (JStr "M3E") in
  cameraSpecs <- getCameraSpecs make model exifData ;;
  Ok {| name := file_name file;
        width := width;
        height := height;
        blade := blade;
        side := side;
        camera :=
          Some {| make := match make with JStr s => s | _ => "" end;
                  model := match model with JStr s => s | _ => "" end;
                  focal_length := spec_focal_length cameraSpecs;
                  sensor_width := spec_sensor_width cameraSpecs;
                  sensor_height := spec_sensor_height cameraSpecs |};
        gsd := Some gsdData |}.

End Phases.

(** [c] is the closest to [target] of the first [k] of [images], and the
    earliest of them at its distance. *)
Definition closestAmong (images : list (TurbineImage Q)) (target : Q) (k : nat)
    (c : Closest.t) : Prop :=
  nth_error images (Closest.index c) = Some (Closest.image c)
  /\ Closest.distance c = Qabs (altitudeOrZero (Closest.image c) - target)
  /\ (forall j img, (j < k)%nat -> nth_error images j = Some img ->
        Closest.distance c <= Qabs (altitudeOrZero img - target))
  /\ (forall j img, (j < Closest.index c)%nat -> nth_error images j = Some img ->
        Closest.distance c < Qabs (altitudeOrZero img - target)).

(** A report in which every warning has its recommendation, and which
    scores 100 or more as long as it holds no warning. *)
Definition wellPaired (s : BladeData.Report) : Prop :=
  length (BladeData.r_warnings s) = length (BladeData.r_recommendations s)
  /\ (BladeData.r_warnings s = [] -> 100 <= BladeData.r_qualityScore s).

(** An image whose GSD passes the first test of the validators, and one
    whose GSD also lies between 0.001 and 50 cm per pixel. *)
Definition hasUsableGsd (image : TurbineImage Q) : bool :=
  match usableGsd image with Some _ => true | None => false end.

Definition hasPlausibleGsd (image : TurbineImage Q) : bool :=
  match usableGsd image with
  | Some g => negb (Qltb (gsd_cm_per_pixel g) 0.001 || Qltb 50 (gsd_cm_per_pixel g))
  | None => false
  end.

(** *** Sample data *)

(** A bag with make, model, focal length and position, whose only
    distance-bearing entry is [HyperfocalDistance]. *)
Definition hyperfocalOnly : gmap string jsval :=
  {[ "EXIF:Make" := JStr "DJI"; "EXIF:Model" := JStr "M3E";
     "EXIF:FocalLength" := JStr "12.3 mm"; "GPS:GPSLatitude" := JNum 55.5;
     "HyperfocalDistance" := JNum 5 ]}.

(** Two images of blade A, trailing edge, and ten of blade B. *)
Definition twoAndTen : list (TurbineImage number) :=
  [imageWith BladeA TE 10 high; imageWith BladeA TE 20 high]
    ++ repeat (imageWith BladeB TE 30 medium) 10.

(** A file that was stored and read without failure, 5280 by 3956 pixels. *)
Definition uploaded (file_name : string) (metadata : option Upload.Metadata)
    (exifData : gmap string jsval) : UploadedFile :=
  {| file_name := file_name; metadata := metadata; stored := Ok tt;
     exiftool := Ok exifData; dimensions := Ok (Some 5280, Some 3956) |}.

Definition file_good : UploadedFile :=
  uploaded "T1-A-TE-001.jpg" None
    {[ "EXIF:SubjectDistance" := JStr "30"; "XMP:RelativeAltitude" := JStr "+42.5" ]}.

Definition file_no_exif : UploadedFile := uploaded "T1-A-TE-002.jpg" None ∅.

Definition file_no_distance : UploadedFile :=
  uploaded "T1-A-TE-003.jpg" None {[ "EXIF:Make" := JStr "DJI" ]}.

Definition file_far : UploadedFile :=
  uploaded "T1-A-TE-004.jpg"
    (Some {| Upload.blade := BladeA; Upload.side := TE;
             Upload.manualDistance := Some 500 |})
    {[ "EXIF:Make" := JStr "DJI" ]}.

Definition file_no_focal_length : UploadedFile :=
  uploaded "T1-A-TE-005.jpg" None
    {[ "EXIF:SubjectDistance" := JStr "30"; "EXIF:FocalLength" := JStr "0.0 mm" ]}.

(** A batch of six files: two that go through, and four that fail, each in
    its own way. *)
Definition sixFiles : list UploadedFile :=
  [file_good; file_no_exif; file_no_distance; file_far; file_no_focal_length;
   file_good].

(** Two files of blade B, pressure side, uploaded with a manual distance of
    25 m: the bag of the first holds a subject distance, that of the second
    no distance. *)
Definition file_manual_conflict : UploadedFile :=
  uploaded "T1-B-PS-001.jpg"
    (Some {| Upload.blade := BladeB; Upload.side := PS;
             Upload.manualDistance := Some 25 |})
    {[ "EXIF:SubjectDistance" := JStr "30" ]}.

Definition file_manual : UploadedFile :=
  uploaded "T1-B-PS-002.jpg"
    (Some {| Upload.blade := BladeB; Upload.side := PS;
             Upload.manualDistance := Some 25 |})
    {[ "EXIF:Make" := JStr "DJI" ]}.

(** A file whose focal-length tag holds no digit. *)
Definition file_dot_focal_length : UploadedFile :=
  uploaded "T1-A-TE-006.jpg" None
    {[ "EXIF:SubjectDistance" := JStr "30"; "EXIF:FocalLength" := JStr "." ]}.

(* ===================================================================== *)
(** ** The model at work *)
(* ===================================================================== *)

(** The scenarios of the specification, run. *)

Example resolve_distance_42m :
  findDistanceInExif {[ "UserComment" := JStr "distance: 42m" ]}
  = {| distance := Num 42; source := "UserComment"; confidence := high;
       raw_value := Some (JStr "distance: 42m") |}
  /\ extractBladeDistance {[ "UserComment" := JStr "Blade at 12.5 meters away" ]}
     = {| distance := Num (25 # 2); source := "UserComment"; confidence := high;
          raw_value := Some (JStr "Blade at 12.5 meters away") |}.
Proof. vm_compute. split; reflexivity. Qed.

Example match_examples :
  String_match "Range=7.25 Meters" (nth 0 exifPatterns REps) = Some "7.25"
  /\ String_match "30 M" (nth 3 exifPatterns REps) = Some "30"
  /\ String_match "x30m" (nth 3 exifPatterns REps) = None
  /\ String_match "12.5.7m to" (nth 1 uploadPatterns REps) = Some "5.7"
  /\ parseFloat "  -12.50e1xyz" = Num (-125)
  /\ parseFloat "." = NaN.
Proof. vm_compute. repeat split; reflexivity. Qed.

Example metrics_10_15_50 :
  let images : list (TurbineImage Q) := [imageAt 10; imageAt 15; imageAt 50] in
  lengthMeters (calculateBladeMetrics_default images) == 40
  /\ averageSpacing (calculateBladeMetrics_default images) == 20
  /\ gaps (getBladeCoverage images) = []
  /\ qualityScore (getBladeCoverage images) == 70.
Proof. vm_compute. repeat split; reflexivity. Qed.

Example even_spacing_has_no_gap :
  gaps (getBladeCoverage (N := Q)
          (List.map (fun k => imageAt (inject_Z (Z.of_nat (5 * k)))) (seq 1 10)))
  = [].
Proof. vm_compute. reflexivity. Qed.

(* ===================================================================== *)
(** ** Comparisons on rationals *)
(* ===================================================================== *)

Lemma Qltb_lt (a b : Q) : Qltb a b = true <-> a < b.
Proof.
  unfold Qltb. rewrite negb_true_iff, <- not_true_iff_false, Qle_bool_iff.
  split; [apply Qnot_le_lt | apply Qlt_not_le].
Qed.

Lemma Qltb_ge (a b : Q) : Qltb a b = false <-> b <= a.
Proof.
  unfold Qltb. rewrite negb_false_iff. apply Qle_bool_iff.
Qed.

Lemma Qleb_gt (a b : Q) : Qle_bool a b = false <-> b < a.
Proof.
  rewrite <- not_true_iff_false, Qle_bool_iff.
  split; [apply Qnot_le_lt | apply Qlt_not_le].
Qed.

(** Case analysis on a comparison, with the fact it decides. *)
Ltac case_Qltb a b :=
  let E := fresh "E" in
  destruct (Qltb a b) eqn:E; [apply Qltb_lt in E | apply Qltb_ge in E].

Ltac case_Qleb a b :=
  let E := fresh "E" in
  destruct (Qle_bool a b) eqn:E; [apply Qle_bool_iff in E | apply Qleb_gt in E].

Lemma clamp_bounds (x lo hi : Q) : lo <= hi -> lo <= clamp x lo hi /\ clamp x lo hi <= hi.
Proof.
  intros Hlh. unfold clamp.
  case_Qltb x lo; [split; lra |].
  case_Qltb hi x; split; lra.
Qed.

Lemma Qmax_Qmin_clamp (x lo hi : Q) :
  lo <= hi -> Qmax lo (Qmin hi x) == clamp x lo hi.
Proof.
  intros Hlh. unfold clamp.
  case_Qltb x lo.
  - rewrite Q.min_r by lra. apply Q.max_l. lra.
  - case_Qltb hi x.
    + rewrite Q.min_l by lra. apply Q.max_r. lra.
    + rewrite Q.min_r by lra. apply Q.max_r. lra.
Qed.

(* ===================================================================== *)
(** ** Sorting *)
(* ===================================================================== *)

Section SortFacts.
Context {A N : Type} `{Arith N}.
Variable cmp : A -> A -> N.

Lemma sort_insert_Permutation (x : A) (l : list A) :
  Permutation (sort_insert cmp x l) (x :: l).
Proof.
  induction l as [|y l IH]; simpl; [reflexivity |].
  destruct (gtb (cmp x y) (lit 0)); [| reflexivity].
  rewrite IH. apply perm_swap.
Qed.

Lemma Array_sort_Permutation (l : list A) : Permutation (Array_sort cmp l) l.
Proof.
  induction l as [|x l IH]; simpl; [reflexivity |].
  rewrite sort_insert_Permutation. now constructor.
Qed.

Lemma Array_sort_length (l : list A) : length (Array_sort cmp l) = length l.
Proof. apply Permutation_length, Array_sort_Permutation. Qed.

Lemma Array_sort_In (x : A) (l : list A) : In x (Array_sort cmp l) <-> In x l.
Proof.
  split; apply Permutation_in;
    [| symmetry]; apply Array_sort_Permutation.
Qed.

End SortFacts.

Lemma Qsort_length (l : list Q) : length (Qsort l) = length l.
Proof. exact (Array_sort_length (N := Q) _ l). Qed.

Lemma Qsort_In (x : Q) (l : list Q) : In x (Qsort l) <-> In x l.
Proof. exact (Array_sort_In (N := Q) _ x l). Qed.

Lemma Qsort_nonempty (l : list Q) : l <> [] -> Qsort l <> [].
Proof.
  intros Hl E. apply Hl, length_zero_iff_nil.
  now rewrite <- Qsort_length, E.
Qed.

Lemma Qsort_insert_sorted (x : Q) (l : list Q) :
  StronglySorted Qle l ->
  StronglySorted Qle (sort_insert (fun a b : Q => (a - b)%js) x l).
Proof.
  induction 1 as [|y l Hs IH Hy]; simpl.
  - repeat constructor.
  - unfold gtb; cbn. case_Qltb 0 (x - y).
    + constructor; [exact IH |].
      rewrite List.Forall_forall in *. intros z Hz.
      apply (Permutation_in _ (sort_insert_Permutation _ x l)) in Hz.
      destruct Hz as [<- | Hz]; [lra | auto].
    + constructor; [now constructor |].
      constructor; [lra |].
      rewrite List.Forall_forall in *. intros z Hz.
      specialize (Hy z Hz). lra.
Qed.

Lemma Qsort_sorted (l : list Q) : StronglySorted Qle (Qsort l).
Proof.
  induction l as [|x l IH]; simpl; [constructor |].
  now apply Qsort_insert_sorted.
Qed.

Lemma sorted_first_le (l : list Q) (x d : Q) :
  StronglySorted Qle l -> In x l -> nth 0 l d <= x.
Proof.
  intros Hs Hx. destruct Hs as [|y l Hs Hy]; [contradiction |].
  simpl. destruct Hx as [<- | Hx]; [lra |].
  rewrite List.Forall_forall in Hy. auto.
Qed.

Lemma sorted_last_ge (l : list Q) (x d : Q) :
  StronglySorted Qle l -> In x l -> x <= nth (length l - 1) l d.
Proof.
  intros Hs. revert x. induction Hs as [|y l Hs IH Hy]; intros x Hx;
    [contradiction |].
  simpl length. replace (S (length l) - 1)%nat with (length l) by lia.
  destruct l as [|z l'].
  - destruct Hx as [<- | []]. simpl. lra.
  - assert (Hn : nth (length (z :: l')) (y :: z :: l') d
                 = nth (length (z :: l') - 1) (z :: l') d)
      by (simpl; now rewrite Nat.sub_0_r).
    rewrite Hn.
    destruct Hx as [<- | Hx]; [| now apply IH].
    rewrite List.Forall_forall in Hy.
    apply Qle_trans with z; [apply Hy; now left | apply IH; now left].
Qed.

Lemma nth_first_In {A} (l : list A) (d : A) : l <> [] -> In (nth 0 l d) l.
Proof. destruct l; [congruence | now left]. Qed.

Lemma nth_last_In {A} (l : list A) (d : A) :
  l <> [] -> In (nth (length l - 1) l d) l.
Proof.
  intros Hl. apply nth_In. destruct l; [congruence | simpl; lia].
Qed.

(* ===================================================================== *)
(** ** Maximum and minimum of a list *)
(* ===================================================================== *)

Lemma Qmax_cases (x y : Q) : (Qmax x y = x /\ y <= x) \/ (Qmax x y = y /\ x <= y).
Proof.
  unfold Qmax, GenericMinMax.gmax.
  destruct (Qcompare x y) eqn:E.
  - left. split; [reflexivity |]. apply Qeq_alt in E. lra.
  - right. split; [reflexivity |]. apply Qlt_alt in E. lra.
  - left. split; [reflexivity |]. apply Qgt_alt in E. lra.
Qed.

Lemma Qmin_cases (x y : Q) : (Qmin x y = x /\ x <= y) \/ (Qmin x y = y /\ y <= x).
Proof.
  unfold Qmin, GenericMinMax.gmin.
  destruct (Qcompare x y) eqn:E.
  - left. split; [reflexivity |]. apply Qeq_alt in E. lra.
  - left. split; [reflexivity |]. apply Qlt_alt in E. lra.
  - right. split; [reflexivity |]. apply Qgt_alt in E. lra.
Qed.

Lemma fold_Qmax_spec (l : list Q) (x : Q) :
  In (fold_left Qmax l x) (x :: l)
  /\ forall y, In y (x :: l) -> y <= fold_left Qmax l x.
Proof.
  revert x. induction l as [|z l IH]; intros x; simpl.
  - split; [now left |]. intros y [<- | []]. lra.
  - destruct (IH (Qmax x z)) as [Hin Hle].
    destruct (Qmax_cases x z) as [[E Hzx] | [E Hxz]]; rewrite E in *.
    + split.
      * destruct Hin as [Hin | Hin]; [left | right; right]; assumption.
      * intros y [<- | [<- | Hy]].
        -- apply Hle. now left.
        -- apply Qle_trans with x; [assumption | apply Hle; now left].
        -- apply Hle. now right.
    + split.
      * right. exact Hin.
      * intros y [<- | [<- | Hy]].
        -- apply Qle_trans with z; [assumption | apply Hle; now left].
        -- apply Hle. now left.
        -- apply Hle. now right.
Qed.

Lemma fold_Qmin_spec (l : list Q) (x : Q) :
  In (fold_left Qmin l x) (x :: l)
  /\ forall y, In y (x :: l) -> fold_left Qmin l x <= y.
Proof.
  revert x. induction l as [|z l IH]; intros x; simpl.
  - split; [now left |]. intros y [<- | []]. lra.
  - destruct (IH (Qmin x z)) as [Hin Hle].
    destruct (Qmin_cases x z) as [[E Hxz] | [E Hzx]]; rewrite E in *.
    + split.
      * destruct Hin as [Hin | Hin]; [left | right; right]; assumption.
      * intros y [<- | [<- | Hy]].
        -- apply Hle. now left.
        -- apply Qle_trans with x; [apply Hle; now left | assumption].
        -- apply Hle. now right.
    + split.
      * right. exact Hin.
      * intros y [<- | [<- | Hy]].
        -- apply Qle_trans with z; [apply Hle; now left | assumption].
        -- apply Hle. now left.
        -- apply Hle. now right.
Qed.

Lemma maxOf_In (l : list Q) : l <> [] -> In (maxOf l) l.
Proof. destruct l; [congruence | intros _; apply fold_Qmax_spec]. Qed.

Lemma maxOf_ge (l : list Q) (y : Q) : In y l -> y <= maxOf l.
Proof. destruct l; [contradiction | apply fold_Qmax_spec]. Qed.

Lemma minOf_In (l : list Q) : l <> [] -> In (minOf l) l.
Proof. destruct l; [congruence | intros _; apply fold_Qmin_spec]. Qed.

Lemma minOf_le (l : list Q) (y : Q) : In y l -> minOf l <= y.
Proof. destruct l; [contradiction | apply fold_Qmin_spec]. Qed.

(** The ends of a sorted array are the minimum and the maximum of what was
    sorted. *)
Lemma Qsort_first (l : list Q) (d : Q) : l <> [] -> nth 0 (Qsort l) d == minOf l.
Proof.
  intros Hl. pose proof (Qsort_nonempty l Hl) as Hs.
  apply Qle_antisym.
  - apply sorted_first_le; [apply Qsort_sorted |].
    apply Qsort_In. now apply minOf_In.
  - apply minOf_le. apply Qsort_In. now apply nth_first_In.
Qed.

Lemma Qsort_last (l : list Q) (d : Q) :
  l <> [] -> nth (length (Qsort l) - 1) (Qsort l) d == maxOf l.
Proof.
  intros Hl. pose proof (Qsort_nonempty l Hl) as Hs.
  apply Qle_antisym.
  - apply maxOf_ge. apply Qsort_In. now apply nth_last_In.
  - apply sorted_last_ge; [apply Qsort_sorted |].
    apply Qsort_In. now apply maxOf_In.
Qed.

(* ===================================================================== *)
(** ** Blade metrics *)
(* ===================================================================== *)

Lemma sortedAltitudes_Q (images : list (TurbineImage Q)) :
  sortedAltitudes images = Qsort (positiveAltitudes images).
Proof. reflexivity. Qed.

Lemma positiveAltitudes_images (images : list (TurbineImage Q)) :
  positiveAltitudes images <> [] -> images <> [].
Proof. intros Hp ->. now apply Hp. Qed.

Lemma sortedAltitudes_nonempty (images : list (TurbineImage Q)) :
  positiveAltitudes images <> [] -> length (sortedAltitudes images) <> 0%nat.
Proof.
  intros Hp. rewrite sortedAltitudes_Q, Qsort_length.
  now rewrite length_zero_iff_nil.
Qed.

(** With at least one positive altitude the function takes its last branch. *)
Lemma calculateBladeMetrics_main (images : list (TurbineImage Q)) (ppm : Q) :
  positiveAltitudes images <> [] ->
  let altitudes := sortedAltitudes images in
  let lo := nth 0 altitudes 0 in
  let hi := nth (length altitudes - 1) altitudes 0 in
  calculateBladeMetrics images ppm =
  {| lengthMeters := hi - lo;
     lengthPixels := Qmax 200 (Qmin 500 ((hi - lo) * ppm));
     minAltitude := lo;
     maxAltitude := hi;
     altitudeRange := hi - lo;
     totalImages := length images;
     averageSpacing :=
       if Nat.ltb 1 (length altitudes)
       then (hi - lo) / inject_Z (Z.of_nat (length altitudes - 1))
       else 0;
     pixelsPerMeter := ppm |}.
Proof.
  intros Hp. unfold calculateBladeMetrics.
  destruct (Nat.eqb_spec (length images) 0) as [E | _].
  { apply length_zero_iff_nil in E. now apply positiveAltitudes_images in Hp. }
  destruct (Nat.eqb_spec (length (sortedAltitudes images)) 0) as [E | _].
  { now apply sortedAltitudes_nonempty in Hp. }
  reflexivity.
Qed.

(** C6.  For every set of images with at least one positive altitude,
    [calculateBladeMetrics] returns [lengthMeters] equal to the maximum
    minus the minimum of the positive altitudes, and [lengthPixels] is the
    clamp of [lengthMeters * pixelsPerMeter] to [200, 500], hence within
    these bounds, whatever [pixelsPerMeter] is (3 by default). *)
Theorem calculateBladeMetrics_length_and_pixels
    (images : list (TurbineImage Q)) (ppm : Q) :
  positiveAltitudes images <> [] ->
  let m := calculateBladeMetrics images ppm in
  lengthMeters m == maxOf (positiveAltitudes images) - minOf (positiveAltitudes images)
  /\ lengthPixels m == clamp (lengthMeters m * ppm) 200 500
  /\ 200 <= lengthPixels m /\ lengthPixels m <= 500.
Proof.
  intros Hp m. subst m.
  rewrite (calculateBladeMetrics_main images ppm Hp). cbn zeta.
  cbn [lengthMeters lengthPixels].
  rewrite sortedAltitudes_Q.
  assert (Hc : Qmax 200 (Qmin 500
                 ((nth (length (Qsort (positiveAltitudes images)) - 1)
                     (Qsort (positiveAltitudes images)) 0
                   - nth 0 (Qsort (positiveAltitudes images)) 0) * ppm))
               == clamp ((nth (length (Qsort (positiveAltitudes images)) - 1)
                            (Qsort (positiveAltitudes images)) 0
                          - nth 0 (Qsort (positiveAltitudes images)) 0) * ppm)
                    200 500)
    by (apply Qmax_Qmin_clamp; lra).
  split; [| split; [exact Hc |]].
  - rewrite (Qsort_first _ 0 Hp), (Qsort_last _ 0 Hp). reflexivity.
  - rewrite Hc. apply clamp_bounds. lra.
Qed.

Lemma calculateBladeMetrics_length_and_pixels_witness :
  positiveAltitudes (N := Q) [imageAt 10; imageAt 15; imageAt 50] <> []
  /\ lengthMeters (calculateBladeMetrics (N := Q) [imageAt 10; imageAt 15; imageAt 50] 3) == 40
  /\ lengthPixels (calculateBladeMetrics (N := Q) [imageAt 10; imageAt 15; imageAt 50] 3) == 200.
Proof.
  assert (Hp : positiveAltitudes (N := Q) [imageAt 10; imageAt 15; imageAt 50] <> [])
    by (vm_compute; discriminate).
  destruct (calculateBladeMetrics_length_and_pixels
              [imageAt 10; imageAt 15; imageAt 50] 3 Hp) as (Hl & Hx & _).
  split; [exact Hp |]. split.
  - eapply Qeq_trans; [exact Hl |]. vm_compute. reflexivity.
  - eapply Qeq_trans; [exact Hx |]. vm_compute. reflexivity.
Defined.

(* ===================================================================== *)
(** ** Image position *)
(* ===================================================================== *)

(** C2 (the code does not do what the claim says).  [relativePosition] is
    returned as computed, without a clamp; only [positionPixels] is clamped.
    For the images of a blade taken at altitudes -5, 10 and 50 the metrics
    have [minAltitude = 10] and [altitudeRange = 40], and the position of the
    first image has [relativePosition = -0.375], below 0; the position of an
    image taken at altitude 100 has [relativePosition = 2.25], above 1.  The
    same runs in binary64 give the same two values. *)
Theorem calculateImagePosition_relativePosition_unclamped :
  let images := [imageAt (-5); imageAt 10; imageAt 50] in
  let metrics := calculateBladeMetrics (N := Q) images 3 in
  let inside := calculateImagePosition (imageAt (-5)) metrics in
  let outside := calculateImagePosition (imageAt 100) metrics in
  relativePosition inside == -0.375 /\ relativePosition inside < 0
  /\ relativePosition outside == 2.25 /\ 1 < relativePosition outside
  /\ positionPixels inside == 196 /\ positionPixels outside == 4
  /\ (let images := [imageAt (-5); imageAt 10; imageAt 50] in
      let metrics := calculateBladeMetrics (N := float) images (lit 3) in
      PrimFloat.eqb
        (relativePosition (calculateImagePosition (imageAt (-5)) metrics))
        (-0.375)%float = true
      /\ PrimFloat.eqb
           (relativePosition (calculateImagePosition (imageAt 100) metrics))
           2.25%float = true).
Proof. vm_compute. repeat split; reflexivity || discriminate. Qed.

(** X30.  What does hold: for an image of the set the metrics were computed
    from, taken at a positive altitude, [relativePosition] lies in [0, 1]. *)
Lemma relativePosition_of_member
    (images : list (TurbineImage Q)) (ppm : Q) (image : TurbineImage Q) (g : GSDData Q) :
  In image images -> gsd image = Some g -> 0 < flight_height g ->
  let position := calculateImagePosition image (calculateBladeMetrics images ppm) in
  0 <= relativePosition position /\ relativePosition position <= 1.
Proof.
  intros Him Hg Hpos position. subst position.
  assert (Halt : In (flight_height g) (positiveAltitudes images)).
  { unfold positiveAltitudes. apply List.filter_In. split.
    - apply List.in_map_iff. exists image. split; [| exact Him].
      unfold gsd_flight_height. rewrite Hg. cbn [option_map or_else falsy ArithQ].
      destruct (Qeq_bool (flight_height g) 0) eqn:E; [| reflexivity].
      apply Qeq_bool_iff in E. lra.
    - unfold gtb. cbn [ltb lit ArithQ]. now apply Qltb_lt. }
  assert (Hp : positiveAltitudes images <> []) by (intros E; rewrite E in Halt; contradiction).
  rewrite (calculateBladeMetrics_main images ppm Hp). cbn zeta.
  unfold calculateImagePosition, gsd_flight_height.
  cbn [relativePosition altitudeRange minAltitude].
  rewrite Hg. cbn [option_map or_else falsy ArithQ].
  destruct (Qeq_bool (flight_height g) 0) eqn:E;
    [apply Qeq_bool_iff in E; lra |].
  rewrite sortedAltitudes_Q.
  set (lo := nth 0 (Qsort (positiveAltitudes images)) 0).
  set (hi := nth (length (Qsort (positiveAltitudes images)) - 1)
               (Qsort (positiveAltitudes images)) 0).
  assert (Hlo : lo <= flight_height g)
    by (apply sorted_first_le; [apply Qsort_sorted | now apply Qsort_In]).
  assert (Hhi : flight_height g <= hi)
    by (apply sorted_last_ge; [apply Qsort_sorted | now apply Qsort_In]).
  unfold gtb. cbn [ltb lit sub div ArithQ].
  case_Qltb 0 (hi - lo); [| split; lra].
  split.
  - apply Qle_shift_div_l; [exact E0 | lra].
  - apply Qle_shift_div_r; [exact E0 | lra].
Qed.

Lemma relativePosition_of_member_witness :
  In (imageAt 15) [imageAt (N := Q) 10; imageAt 15; imageAt 50]
  /\ 0 <= relativePosition
            (calculateImagePosition (imageAt 15)
               (calculateBladeMetrics (N := Q) [imageAt 10; imageAt 15; imageAt 50] 3))
  /\ relativePosition
       (calculateImagePosition (imageAt 15)
          (calculateBladeMetrics (N := Q) [imageAt 10; imageAt 15; imageAt 50] 3))
     <= 1
  /\ relativePosition
       (calculateImagePosition (imageAt 15)
          (calculateBladeMetrics (N := Q) [imageAt 10; imageAt 15; imageAt 50] 3))
     == 0.125.
Proof.
  assert (Hin : In (imageAt 15) [imageAt (N := Q) 10; imageAt 15; imageAt 50])
    by (right; left; reflexivity).
  assert (Hpos : 0 < 15) by reflexivity.
  destruct (relativePosition_of_member [imageAt 10; imageAt 15; imageAt 50] 3
              (imageAt 15) _ Hin eq_refl Hpos) as [Hlo Hhi].
  split; [exact Hin |]. split; [exact Hlo |]. split; [exact Hhi |].
  vm_compute. reflexivity.
Defined.

(* ===================================================================== *)
(** ** Coverage: the density map *)
(* ===================================================================== *)

Lemma filter_length_split {A} (f g h : A -> bool) (l : list A) :
  (forall a, In a l -> h a = f a || g a) ->
  (forall a, In a l -> f a && g a = false) ->
  length (List.filter h l) = (length (List.filter f l) + length (List.filter g l))%nat.
Proof.
  induction l as [|a l IH]; intros Hh Hd; simpl; [reflexivity |].
  rewrite (Hh a) by now left.
  pose proof (Hd a (or_introl eq_refl)) as Hda.
  assert (E : length (List.filter h l)
              = (length (List.filter f l) + length (List.filter g l))%nat)
    by (apply IH; intros b Hb; [apply Hh | apply Hd]; now right).
  destruct (f a), (g a); simpl in *; try discriminate; lia.
Qed.

Lemma filter_length_ext {A} (f g : A -> bool) (l : list A) :
  (forall a, In a l -> f a = g a) ->
  length (List.filter f l) = length (List.filter g l).
Proof.
  induction l as [|a l IH]; intros Hfg; simpl; [reflexivity |].
  rewrite (Hfg a) by now left.
  assert (E : length (List.filter f l) = length (List.filter g l))
    by (apply IH; intros b Hb; apply Hfg; now right).
  destruct (g a); simpl; lia.
Qed.

Lemma filter_length_lt {A} (f : A -> bool) (l : list A) (x : A) :
  In x l -> f x = false -> (length (List.filter f l) < length l)%nat.
Proof.
  induction l as [|a l IH]; intros Hx Hf; [contradiction |]. simpl.
  pose proof (List.filter_length_le f l) as Hle.
  destruct Hx as [-> | Hx].
  - rewrite Hf. lia.
  - specialize (IH Hx Hf). destruct (f a); simpl; lia.
Qed.

(** The bounds of a bin at exact rationals. *)
Lemma binStart_Q (mn b : Q) (i : nat) :
  binStart mn b i = mn + inject_Z (Z.of_nat i) * b.
Proof. reflexivity. Qed.

Lemma binEnd_Q (mn b : Q) (i : nat) :
  binEnd mn b i = mn + inject_Z (Z.of_nat i) * b + b.
Proof. reflexivity. Qed.

Lemma inBin_spec (mn b : Q) (i : nat) (alt : Q) :
  inBin mn b i alt = true <-> binStart mn b i <= alt /\ alt < binEnd mn b i.
Proof.
  unfold inBin, geb. cbn [leb ltb ArithQ].
  rewrite andb_true_iff, Qle_bool_iff, Qltb_lt. reflexivity.
Qed.

Lemma inject_nat_S (k : nat) :
  inject_Z (Z.of_nat (S k)) == inject_Z (Z.of_nat k) + 1.
Proof. rewrite Nat2Z.inj_succ, <- Z.add_1_r, inject_Z_plus. reflexivity. Qed.

Lemma inject_nat_nonneg (k : nat) : 0 <= inject_Z (Z.of_nat k).
Proof. change 0 with (inject_Z 0). rewrite <- Zle_Qle. lia. Qed.

Lemma inject_nat_le (i k : nat) :
  (i <= k)%nat -> inject_Z (Z.of_nat i) <= inject_Z (Z.of_nat k).
Proof. intros Hik. rewrite <- Zle_Qle. lia. Qed.

(** The first [k] bins count what lies in [[mn, mn + k * b)]. *)
Lemma bins_count_prefix (l : list Q) (mn b : Q) (k : nat) :
  0 <= b ->
  list_sum (List.map (fun i => length (List.filter (inBin mn b i) l)) (seq 0 k))
  = length (List.filter
              (fun alt => Qle_bool mn alt && Qltb alt (mn + inject_Z (Z.of_nat k) * b))
              l).
Proof.
  intros Hb. induction k as [|k IH].
  - change (Z.of_nat 0) with 0%Z. change (inject_Z 0) with 0. simpl seq.
    transitivity (length (List.filter (fun _ : Q => false) l)).
    + induction l; simpl; auto.
    + apply filter_length_ext. intros a _.
      case_Qleb mn a; simpl; [| reflexivity].
      case_Qltb a (mn + 0 * b); [| reflexivity].
      exfalso. lra.
  - rewrite seq_S, List.map_app, list_sum_app, IH. simpl.
    rewrite Nat.add_0_r. symmetry.
    pose proof (inject_nat_S k) as HS.
    pose proof (inject_nat_nonneg k) as HK.
    assert (HKb : 0 <= inject_Z (Z.of_nat k) * b) by (apply Qmult_le_0_compat; assumption).
    assert (HSb : inject_Z (Z.of_nat (S k)) * b == inject_Z (Z.of_nat k) * b + b)
      by (rewrite HS; ring).
    apply filter_length_split; intros a _.
    + unfold inBin, geb. cbn [leb ltb ArithQ]. rewrite binStart_Q, binEnd_Q.
      case_Qleb mn a; case_Qltb a (mn + inject_Z (Z.of_nat (S k)) * b);
        case_Qltb a (mn + inject_Z (Z.of_nat k) * b);
        case_Qleb (mn + inject_Z (Z.of_nat k) * b) a;
        case_Qltb a (mn + inject_Z (Z.of_nat k) * b + b);
        simpl; try reflexivity; exfalso; lra.
    + unfold inBin, geb. cbn [leb ltb ArithQ]. rewrite binStart_Q.
      case_Qltb a (mn + inject_Z (Z.of_nat k) * b);
        case_Qleb (mn + inject_Z (Z.of_nat k) * b) a;
        rewrite ?andb_false_r, ?andb_false_l; simpl; try reflexivity.
      exfalso; lra.
Qed.

Lemma binCountOf_pos {N} (altitudes : list N) : (5 <= binCountOf altitudes)%nat.
Proof. unfold binCountOf. lia. Qed.

Lemma getBladeCoverage_densityMap (images : list (TurbineImage Q)) :
  positiveAltitudes images <> [] ->
  let altitudes := sortedAltitudes images in
  let minAltitude := nth 0 altitudes 0 in
  let maxAltitude := nth (length altitudes - 1) altitudes 0 in
  let binSize := (maxAltitude - minAltitude) / inject_Z (Z.of_nat (binCountOf altitudes)) in
  densityMap (getBladeCoverage images)
  = List.map (densityBin altitudes minAltitude binSize) (seq 0 (binCountOf altitudes)).
Proof.
  intros Hp. unfold getBladeCoverage.
  destruct (Nat.eqb_spec (length images) 0) as [E | _].
  { apply length_zero_iff_nil in E. now apply positiveAltitudes_images in Hp. }
  destruct (Nat.eqb_spec (length (sortedAltitudes images)) 0) as [E | _].
  { now apply sortedAltitudes_nonempty in Hp. }
  reflexivity.
Qed.

Lemma Qltb_proper_r (a x y : Q) : x == y -> Qltb a x = Qltb a y.
Proof. intros E. case_Qltb a x; case_Qltb a y; try reflexivity; exfalso; lra. Qed.

(** C10, read in exact arithmetic.  For every set of images whose positive
    altitudes are not all equal: bin [i] of the density map counts the
    altitudes [alt] with [binStart <= alt < binEnd]; the end of the last bin
    is the maximum altitude; an altitude equal to the maximum is in no bin;
    and the counts of the density map add up to strictly less than the
    number of positive altitudes. *)
Theorem densityMap_misses_top_altitude (images : list (TurbineImage Q)) :
  (exists a b, In a (positiveAltitudes images)
               /\ In b (positiveAltitudes images) /\ ~ a == b) ->
  let altitudes := sortedAltitudes images in
  let minAltitude := nth 0 altitudes 0 in
  let maxAltitude := nth (length altitudes - 1) altitudes 0 in
  let binCount := binCountOf altitudes in
  let binSize := (maxAltitude - minAltitude) / inject_Z (Z.of_nat binCount) in
  let bins := densityMap (getBladeCoverage images) in
  maxAltitude == maxOf (positiveAltitudes images)
  /\ List.map imageCount bins
     = List.map (fun i => length (List.filter (inBin minAltitude binSize i) altitudes))
         (seq 0 binCount)
  /\ binEnd minAltitude binSize (binCount - 1) == maxAltitude
  /\ (forall i alt, (i < binCount)%nat -> alt == maxAltitude ->
        inBin minAltitude binSize i alt = false)
  /\ (list_sum (List.map imageCount bins) < length (positiveAltitudes images))%nat.
Proof.
  intros (a0 & b0 & Ha0 & Hb0 & Hne).
  assert (Hp : positiveAltitudes images <> []) by (intros E; rewrite E in Ha0; contradiction).
  intros altitudes minAltitude maxAltitude binCount binSize bins.
  pose proof (getBladeCoverage_densityMap images Hp) as Hd. cbn zeta in Hd.
  fold altitudes minAltitude maxAltitude in Hd. fold binCount binSize in Hd.
  fold bins in Hd.
  assert (Hmin : minAltitude == minOf (positiveAltitudes images))
    by (apply (Qsort_first _ 0 Hp)).
  assert (Hmax : maxAltitude == maxOf (positiveAltitudes images))
    by (apply (Qsort_last _ 0 Hp)).
  assert (Hsorted : StronglySorted Qle altitudes) by apply Qsort_sorted.
  assert (Halt : altitudes <> []) by (apply Qsort_nonempty; exact Hp).
  assert (Hlo : forall x, In x altitudes -> minAltitude <= x)
    by (intros x Hx; apply sorted_first_le; assumption).
  assert (Hhi : forall x, In x altitudes -> x <= maxAltitude)
    by (intros x Hx; apply sorted_last_ge; assumption).
  assert (Hin_max : In maxAltitude altitudes) by (apply nth_last_In; exact Halt).
  assert (Hrange : 0 <= maxAltitude - minAltitude)
    by (specialize (Hlo _ Hin_max); lra).
  pose proof (binCountOf_pos altitudes) as HB. fold binCount in HB.
  assert (HBq : 0 < inject_Z (Z.of_nat binCount))
    by (change 0 with (inject_Z 0); rewrite <- Zlt_Qlt; lia).
  assert (Hsize : 0 <= binSize).
  { unfold binSize, Qdiv. apply Qmult_le_0_compat; [exact Hrange |].
    apply Qlt_le_weak, Qinv_lt_0_compat, HBq. }
  assert (Hfull : inject_Z (Z.of_nat binCount) * binSize == maxAltitude - minAltitude)
    by (unfold binSize; field; lra).
  assert (Hcounts :
    List.map imageCount bins
    = List.map (fun i => length (List.filter (inBin minAltitude binSize i) altitudes))
        (seq 0 binCount)).
  { rewrite Hd, List.map_map. reflexivity. }
  split; [exact Hmax |]. split; [exact Hcounts |]. split; [| split].
  - rewrite binEnd_Q.
    assert (E : inject_Z (Z.of_nat (binCount - 1)) == inject_Z (Z.of_nat binCount) - 1).
    { replace binCount with (S (binCount - 1)) at 2 by lia.
      rewrite inject_nat_S. ring. }
    rewrite E.
    transitivity (minAltitude + inject_Z (Z.of_nat binCount) * binSize); [ring |].
    rewrite Hfull. ring.
  - intros i alt Hi Halt_max.
    apply not_true_is_false. rewrite inBin_spec, binEnd_Q.
    intros [_ Hlt].
    assert (Hi1 : inject_Z (Z.of_nat i) + 1 <= inject_Z (Z.of_nat binCount)).
    { rewrite <- inject_nat_S. apply inject_nat_le. lia. }
    assert (Hmul : (inject_Z (Z.of_nat i) + 1) * binSize
                   <= inject_Z (Z.of_nat binCount) * binSize)
      by (apply Qmult_le_compat_r; assumption).
    assert (Hexp : (inject_Z (Z.of_nat i) + 1) * binSize
                   == inject_Z (Z.of_nat i) * binSize + binSize) by ring.
    lra.
  - rewrite Hcounts, bins_count_prefix by exact Hsize.
    replace (length (positiveAltitudes images)) with (length altitudes)
      by apply Qsort_length.
    apply filter_length_lt with maxAltitude; [exact Hin_max |].
    apply andb_false_iff. right. apply Qltb_ge. lra.
Qed.

Lemma densityMap_misses_top_altitude_witness :
  (exists a b, In a (positiveAltitudes (N := Q) [imageAt 0.1; imageAt 5])
               /\ In b (positiveAltitudes (N := Q) [imageAt 0.1; imageAt 5])
               /\ ~ a == b)
  /\ List.map imageCount (densityMap (getBladeCoverage (N := Q) [imageAt 0.1; imageAt 5]))
     = [1; 0; 0; 0; 0]%nat.
Proof.
  assert (H : exists a b, In a (positiveAltitudes (N := Q) [imageAt 0.1; imageAt 5])
               /\ In b (positiveAltitudes (N := Q) [imageAt 0.1; imageAt 5])
               /\ ~ a == b).
  { exists 0.1, 5. split; [now left |]. split; [right; now left |].
    intros E. vm_compute in E. discriminate. }
  split; [exact H |].
  destruct (densityMap_misses_top_altitude [imageAt 0.1; imageAt 5] H)
    as (_ & Hc & _).
  rewrite Hc. vm_compute. reflexivity.
Defined.

(** C10 (the counterexample).  In binary64 the end of the last bin,
    computed as [binStart + binSize], can pass the maximum altitude.  For
    two images taken at altitudes 0.1 and 5: the range is [5 - 0.1 = 4.9],
    the bin size [4.9 / 5 = 0.9800000000000001], the last bin starts at
    [0.1 + 4 * binSize = 4.0200000000000005] and ends at
    [4.0200000000000005 + binSize = 5.000000000000001], above 5.
    The image at the maximum altitude is counted in the last bin and the
    counts add up to 2, the number of positive altitudes. *)
Lemma densityMap_counts_top_altitude_binary64 :
  let images : list (TurbineImage float) := [imageAt 0.1; imageAt 5] in
  let altitudes := sortedAltitudes images in
  let minAltitude := nth 0 altitudes 0%float in
  let maxAltitude := nth (length altitudes - 1) altitudes 0%float in
  let binSize := ((maxAltitude - minAltitude) / of_nat (binCountOf altitudes))%js in
  positiveAltitudes images = [lit 0.1; lit 5]
  /\ (maxAltitude <? binEnd minAltitude binSize 4)%js = true
  /\ inBin minAltitude binSize 4 maxAltitude = true
  /\ List.map imageCount (densityMap (getBladeCoverage images)) = [1; 0; 0; 0; 1]%nat
  /\ list_sum (List.map imageCount (densityMap (getBladeCoverage images)))
     = length (positiveAltitudes images).
Proof. vm_compute. repeat split; reflexivity. Qed.

(* ===================================================================== *)
(** ** Order on numbers *)
(* ===================================================================== *)

Lemma Qeq_bool_refl (x : Q) : Qeq_bool x x = true.
Proof. apply Qeq_bool_iff. reflexivity. Qed.

Ltac number_cases :=
  repeat match goal with
  | s : bool |- _ => destruct s
  | H : context [Qltb ?a ?b] |- _ => case_Qltb a b
  | |- context [Qltb ?a ?b] => case_Qltb a b
  | H : context [Qeq_bool ?a ?b] |- _ =>
      let E := fresh "E" in
      destruct (Qeq_bool a b) eqn:E;
      [apply Qeq_bool_iff in E | apply Qeq_bool_neq in E]
  | |- context [Qeq_bool ?a ?b] =>
      let E := fresh "E" in
      destruct (Qeq_bool a b) eqn:E;
      [apply Qeq_bool_iff in E | apply Qeq_bool_neq in E]
  end;
  simpl in *; try reflexivity; try discriminate; try (exfalso; lra).

(** The comparator [a - b] is positive exactly when [b < a]. *)
Lemma n_sub_positive (a b : number) :
  isNaN a = false -> isNaN b = false ->
  ((a - b) >? lit 0)%js = n_ltb b a.
Proof.
  unfold gtb. cbn [ltb lit sub ArithNumber].
  destruct a as [|s|x], b as [|t|y]; simpl; try discriminate; intros _ _.
  - destruct s, t; reflexivity.
  - reflexivity.
  - destruct t; reflexivity.
  - number_cases.
Qed.

Lemma n_ltb_le (a b : number) : n_ltb a b = true -> n_le a b.
Proof. unfold n_le, n_leb. now intros ->. Qed.

Lemma n_le_total (a b : number) :
  isNaN a = false -> isNaN b = false -> n_ltb b a = false -> n_le a b.
Proof.
  unfold n_le, n_leb.
  destruct a as [|s|x], b as [|t|y]; simpl; try discriminate; intros _ _ Hlt;
    number_cases.
Qed.

Lemma n_le_trans (a b c : number) : n_le a b -> n_le b c -> n_le a c.
Proof.
  unfold n_le, n_leb.
  destruct a as [|s|x], b as [|t|y], c as [|u|z]; simpl; intros Hab Hbc;
    number_cases.
Qed.

Lemma n_le_notNaN_l (a b : number) : n_le a b -> isNaN a = false.
Proof. unfold n_le, n_leb. destruct a, b; simpl; try discriminate; reflexivity. Qed.

Lemma numberSort_length (l : list number) : length (numberSort l) = length l.
Proof. exact (Array_sort_length (N := number) _ l). Qed.

Lemma numberSort_Permutation (l : list number) : Permutation (numberSort l) l.
Proof. exact (Array_sort_Permutation (N := number) _ l). Qed.

Lemma numberSort_insert_sorted (x : number) (l : list number) :
  isNaN x = false -> Forall (fun y => isNaN y = false) l ->
  StronglySorted n_le l ->
  StronglySorted n_le (sort_insert (fun a b : number => (a - b)%js) x l).
Proof.
  intros Hx Hl Hs. induction Hs as [|y l Hs IH Hy]; cbn [sort_insert].
  - repeat constructor.
  - inversion Hl as [|? ? Hny Hl']; subst.
    cbn beta. rewrite (n_sub_positive x y Hx Hny).
    destruct (n_ltb y x) eqn:E.
    + constructor; [now apply IH |].
      rewrite List.Forall_forall in *. intros z Hz.
      apply (Permutation_in _ (sort_insert_Permutation _ x l)) in Hz.
      destruct Hz as [<- | Hz]; [now apply n_ltb_le | auto].
    + pose proof (n_le_total x y Hx Hny E) as Hxy.
      constructor; [now constructor |].
      constructor; [exact Hxy |].
      rewrite List.Forall_forall in *. intros z Hz.
      apply n_le_trans with y; auto.
Qed.

(** Sorting numbers none of which is NaN gives an ascending array. *)
Lemma numberSort_sorted (l : list number) :
  Forall (fun y => isNaN y = false) l -> StronglySorted n_le (numberSort l).
Proof.
  induction 1 as [|x l Hx Hl IH]; simpl; [constructor |].
  apply numberSort_insert_sorted; [exact Hx | | exact IH].
  rewrite List.Forall_forall in *. intros z Hz. apply Hl.
  now apply (Permutation_in _ (numberSort_Permutation l)).
Qed.

(* ===================================================================== *)
(** ** Interpolation statistics *)
(* ===================================================================== *)

Lemma sorted_nth_le (l : list number) (i j : nat) (d : number) :
  StronglySorted n_le l -> (i < j)%nat -> (j < length l)%nat ->
  n_le (nth i l d) (nth j l d).
Proof.
  intros Hs. revert i j. induction Hs as [|x l Hs IH Hx]; intros i j Hij Hj.
  - simpl in Hj. lia.
  - destruct j as [|j]; [lia |]. simpl in Hj.
    destruct i as [|i]; simpl.
    + rewrite List.Forall_forall in Hx. apply Hx, nth_In. lia.
    + apply IH; lia.
Qed.

Lemma hasUsableDistance_notNaN (img : TurbineImage number) :
  hasUsableDistance img = true -> isNaN (distanceOf img) = false.
Proof.
  unfold hasUsableDistance, distanceOf.
  destruct (gsd img) as [g|]; [| discriminate].
  rewrite andb_true_iff. intros [Hd _]. revert Hd.
  unfold gtb. cbn [ltb lit ArithNumber].
  destruct (distance_to_blade g); simpl; [discriminate | reflexivity | reflexivity].
Qed.

Lemma matchesBladeAndSide_usable (b : Blade) (s : Side) (img : TurbineImage number) :
  matchesBladeAndSide b s img = true -> hasUsableDistance img = true.
Proof. unfold matchesBladeAndSide. rewrite !andb_true_iff. tauto. Qed.

Lemma hasUsableDistance_inPopulation (img : TurbineImage number) :
  hasUsableDistance img = true <-> inPopulation img.
Proof.
  unfold hasUsableDistance, inPopulation. destruct (gsd img) as [g |].
  - rewrite andb_true_iff, negb_true_iff. split.
    + intros [Hd Hc]. exists g. split; [reflexivity |]. split; [exact Hd |].
      intros E. rewrite E in Hc. discriminate.
    + intros (g' & E & Hd & Hc). injection E as <-. split; [exact Hd |].
      destruct (distance_confidence g); try reflexivity. contradiction.
  - split; [discriminate | intros (g & E & _); discriminate].
Qed.

Lemma storedDistance_distanceOf (l : list (TurbineImage number)) :
  Forall (fun img => hasUsableDistance img = true) l ->
  Forall2 storedDistance l (List.map distanceOf l).
Proof.
  induction 1 as [| img l Himg _ IH]; simpl; constructor; [| exact IH].
  apply hasUsableDistance_inPopulation in Himg. destruct Himg as (g & E & _).
  exists g. split; [exact E |]. unfold distanceOf. now rewrite E.
Qed.

Section StatisticsFacts.
Context `{JsRuntime}.

Lemma distanceStatisticsOf_samples (ds : list number) :
  Stats.validDistances (distanceStatisticsOf ds) = numberSort ds.
Proof. destruct ds; reflexivity. Qed.

Lemma distanceStatisticsOf_median (ds : list number) :
  ds <> [] ->
  Stats.medianDistance (distanceStatisticsOf ds)
  = nth (length (numberSort ds) / 2) (numberSort ds) NaN.
Proof. destruct ds; [congruence | reflexivity]. Qed.

Lemma calculateDistanceStatistics_unfold (images : list (TurbineImage number))
    (forBlade : Blade) (forSide : Side) :
  calculateDistanceStatistics images forBlade forSide
  = distanceStatisticsOf (relevantDistances images forBlade forSide).
Proof. reflexivity. Qed.

Lemma relevantDistances_notNaN (images : list (TurbineImage number))
    (forBlade : Blade) (forSide : Side) :
  Forall (fun d => isNaN d = false) (relevantDistances images forBlade forSide).
Proof.
  unfold relevantDistances. apply List.Forall_map. rewrite List.Forall_forall.
  intros img Himg. apply hasUsableDistance_notNaN.
  destruct (Nat.leb 3 _); apply List.filter_In in Himg as [_ Hf];
    [now apply matchesBladeAndSide_usable in Hf | exact Hf].
Qed.

(** C4, as the code has it.  Whenever the estimator works on an even
    number [n > 0] of samples, [validDistances] is these samples in
    ascending order and [medianDistance] is its element at index
    [floor(n / 2) = n / 2]: of the two middle elements, at indices
    [n / 2 - 1] and [n / 2], the upper one. *)
Theorem medianDistance_is_upper_middle
    (images : list (TurbineImage number)) (forBlade : Blade) (forSide : Side) :
  let r := calculateDistanceStatistics images forBlade forSide in
  let n := length (Stats.validDistances r) in
  n <> 0%nat -> Nat.even n = true ->
  Permutation (Stats.validDistances r) (relevantDistances images forBlade forSide)
  /\ StronglySorted n_le (Stats.validDistances r)
  /\ Stats.medianDistance r = nth (n / 2) (Stats.validDistances r) NaN
  /\ (n / 2 = S (n / 2 - 1) /\ n / 2 + n / 2 = n)%nat
  /\ n_le (nth (n / 2 - 1) (Stats.validDistances r) NaN) (Stats.medianDistance r).
Proof.
  intros r n Hn Heven. subst r n.
  rewrite calculateDistanceStatistics_unfold in *.
  rewrite distanceStatisticsOf_samples in *.
  set (ds := relevantDistances images forBlade forSide) in *.
  assert (Hds : ds <> []).
  { intros E. apply Hn. now rewrite numberSort_length, E. }
  assert (Hsorted : StronglySorted n_le (numberSort ds))
    by apply numberSort_sorted, relevantDistances_notNaN.
  apply Nat.even_spec in Heven as [k Hk].
  assert (Hhalf : (length (numberSort ds) / 2 = k)%nat).
  { rewrite Hk, Nat.mul_comm. apply Nat.div_mul. lia. }
  rewrite (distanceStatisticsOf_median ds Hds), Hhalf.
  split; [apply numberSort_Permutation |].
  split; [exact Hsorted |]. split; [reflexivity |].
  split; [lia |].
  apply sorted_nth_le; [exact Hsorted | lia | lia].
Qed.

(** C5.  Whenever fewer than 3 images match the requested blade and side
    (with a positive distance whose confidence is not "low"), the estimator
    works on the full population: the images that have a stored distance
    above 0 with a confidence other than "low", whatever their blade and
    side, which are all the images when every image is such.  Its samples
    are the distances stored with these images: [validDistances] is these
    samples in ascending order, [meanDistance] their sum divided by their
    number, [medianDistance] the element at index [floor(n / 2)] of
    [validDistances], and [confidence] follows the policy of section 4.3 on
    them; without any sample the mean and the median are 0. *)
Theorem calculateDistanceStatistics_falls_back
    (images : list (TurbineImage number)) (forBlade : Blade) (forSide : Side) :
  (length (List.filter (matchesBladeAndSide forBlade forSide) images) < 3)%nat ->
  let population := List.filter hasUsableDistance images in
  let samples := List.map distanceOf population in
  let r := calculateDistanceStatistics images forBlade forSide in
  (forall img, In img population <-> In img images /\ inPopulation img)
  /\ ((forall img, In img images -> inPopulation img) -> population = images)
  /\ Forall2 storedDistance population samples
  /\ Permutation (Stats.validDistances r) samples
  /\ StronglySorted n_le (Stats.validDistances r)
  /\ Stats.confidence r = spec_confidence samples
  /\ (samples = [] ->
      Stats.meanDistance r = Num 0 /\ Stats.medianDistance r = Num 0)
  /\ (samples <> [] ->
      Stats.meanDistance r = spec_mean samples
      /\ Stats.medianDistance r
         = nth (length samples / 2) (Stats.validDistances r) NaN).
Proof.
  intros Hfew population samples r. subst r.
  assert (Hrel : relevantDistances images forBlade forSide = samples).
  { unfold relevantDistances.
    destruct (Nat.leb_spec 3
                (length (List.filter (matchesBladeAndSide forBlade forSide) images)))
      as [Hge | _]; [lia | reflexivity]. }
  pose proof (relevantDistances_notNaN images forBlade forSide) as HnotNaN.
  rewrite calculateDistanceStatistics_unfold, Hrel in *.
  split.
  { intros img. unfold population. rewrite List.filter_In.
    now rewrite hasUsableDistance_inPopulation. }
  split.
  { intros Hall. apply List.forallb_filter_id, List.forallb_forall.
    intros img Hin. now apply hasUsableDistance_inPopulation, Hall. }
  split.
  { apply storedDistance_distanceOf, List.Forall_forall.
    intros img Hin. now apply List.filter_In in Hin. }
  rewrite distanceStatisticsOf_samples.
  split; [apply numberSort_Permutation |].
  split; [now apply numberSort_sorted |].
  split.
  { unfold distanceStatisticsOf, spec_confidence, spec_standardDeviation, spec_mean.
    destruct (Nat.eqb_spec (length samples) 0) as [E | _].
    - rewrite E. reflexivity.
    - cbn [Stats.confidence].
      destruct (Nat.leb_spec 5 (length samples)), (Nat.ltb_spec (length samples) 3);
        try lia; reflexivity. }
  split.
  - intros E. rewrite E. split; reflexivity.
  - intros Hne. destruct samples as [| d l] eqn:E; [contradiction |].
    split; [reflexivity |].
    rewrite distanceStatisticsOf_median by discriminate.
    now rewrite numberSort_length.
Qed.

End StatisticsFacts.

Lemma medianDistance_is_upper_middle_witness :
  let r := calculateDistanceStatistics (H := exampleRuntime) twoAndTen BladeA TE in
  length (Stats.validDistances r) <> 0%nat
  /\ Nat.even (length (Stats.validDistances r)) = true
  /\ Stats.medianDistance r = nth 6 (Stats.validDistances r) NaN.
Proof.
  assert (Hn : length (Stats.validDistances
                 (calculateDistanceStatistics (H := exampleRuntime) twoAndTen BladeA TE))
               <> 0%nat) by (vm_compute; discriminate).
  assert (He : Nat.even (length (Stats.validDistances
                 (calculateDistanceStatistics (H := exampleRuntime) twoAndTen BladeA TE)))
               = true) by (vm_compute; reflexivity).
  destruct (medianDistance_is_upper_middle (H := exampleRuntime) twoAndTen BladeA TE Hn He)
    as (_ & _ & Hm & _).
  split; [exact Hn |]. split; [exact He |]. exact Hm.
Defined.

Lemma calculateDistanceStatistics_falls_back_witness :
  (length (List.filter (matchesBladeAndSide BladeA TE) twoAndTen) < 3)%nat
  /\ length (Stats.validDistances
               (calculateDistanceStatistics (H := exampleRuntime) twoAndTen BladeA TE))
     = 12%nat
  /\ Stats.meanDistance (calculateDistanceStatistics (H := exampleRuntime) twoAndTen BladeA TE)
     = spec_mean (List.map distanceOf twoAndTen)
  /\ Stats.confidence (calculateDistanceStatistics (H := exampleRuntime) twoAndTen BladeA TE)
     = medium.
Proof.
  assert (Hfew : (length (List.filter (matchesBladeAndSide BladeA TE) twoAndTen) < 3)%nat)
    by (vm_compute; lia).
  destruct (calculateDistanceStatistics_falls_back (H := exampleRuntime)
              twoAndTen BladeA TE Hfew)
    as (_ & Hall & _ & Hperm & _ & Hconf & _ & Hmean).
  assert (Hpopulation : List.filter hasUsableDistance twoAndTen = twoAndTen).
  { apply Hall. intros img Hin. apply hasUsableDistance_inPopulation.
    revert img Hin. apply List.Forall_forall. vm_compute.
    repeat constructor. }
  rewrite Hpopulation in Hperm, Hconf, Hmean.
  split; [exact Hfew |]. split; [| split].
  - rewrite (Permutation_length Hperm). reflexivity.
  - apply Hmean. discriminate.
  - rewrite Hconf. vm_compute. reflexivity.
Defined.

(** C4 (the counterexample).  With the two samples 10 and 20 the sorted
    array is [[10, 20]]; its lower-middle element, at index [2 / 2 - 1 = 0],
    is 10, and [medianDistance] is 20, the element at index [2 / 2 = 1]. *)
Lemma medianDistance_not_lower_middle :
  let images := [imageWith BladeA TE 10 high; imageWith BladeA TE 20 high] in
  let r := calculateDistanceStatistics (H := exampleRuntime) images BladeA TE in
  Stats.validDistances r = [Num 10; Num 20]
  /\ nth (length (Stats.validDistances r) / 2 - 1) (Stats.validDistances r) NaN = Num 10
  /\ Stats.medianDistance r = Num 20
  /\ Stats.medianDistance r
     <> nth (length (Stats.validDistances r) / 2 - 1) (Stats.validDistances r) NaN.
Proof. vm_compute. repeat split; try reflexivity. discriminate. Qed.

(* ===================================================================== *)
(** ** The distance resolvers *)
(* ===================================================================== *)

Lemma get_absent (exifData : gmap string jsval) (field f : string) :
  onlyDistanceEntry exifData field -> In f consultedFields -> f <> field ->
  get exifData f = JUndefined.
Proof. intros H Hin Hne. unfold get. now rewrite (H f Hin Hne). Qed.

Lemma get_present (exifData : gmap string jsval) (f : string) (v : jsval) :
  exifData !! f = Some v -> get exifData f = v.
Proof. intros E. unfold get. now rewrite E. Qed.

Ltac in_list := repeat (first [left; reflexivity | right]).

(** Replace the lookups of the fields that are absent. *)
Ltac absent H :=
  repeat match goal with
  | |- context [get ?bag ?f] =>
      rewrite (get_absent bag _ f H)
        by (first [solve [simpl; in_list] | discriminate])
  end.

Lemma extractBladeDistance_subject_only
    (exifData : gmap string jsval) (v : jsval) :
  onlyDistanceEntry exifData "EXIF:SubjectDistance" ->
  exifData !! "EXIF:SubjectDistance" = Some v ->
  extractBladeDistance exifData
  = if truthy v && negb (isNaN (parseFloat_any v))
       && (parseFloat_any v >? lit 0.5)%js && (parseFloat_any v <? lit 100)%js
    then {| distance := parseFloat_any v; source := "EXIF:SubjectDistance";
            confidence := medium; raw_value := Some v |}
    else not_found.
Proof.
  intros H Hv. apply get_present in Hv.
  unfold extractBladeDistance.
  cbn [first_some userCommentFields subjectDistanceFields or_try].
  rewrite Hv. absent H. cbn [or_try].
  destruct (truthy v && negb (isNaN (parseFloat_any v))); [| reflexivity].
  cbn [andb].
  destruct ((parseFloat_any v >? lit 0.5)%js && (parseFloat_any v <? lit 100)%js);
    reflexivity.
Qed.

(** The read-time resolver on a bag whose only distance-bearing entry is one
    of its six numeric fields. *)
Lemma findDistanceInExif_numeric_only
    (exifData : gmap string jsval) (field : string) (c : Confidence) (v : jsval) :
  In (field, c) (skipn 5 distanceFields) ->
  onlyDistanceEntry exifData field ->
  exifData !! field = Some v ->
  findDistanceInExif exifData
  = match v with
    | JNum q =>
        if (Num q >? lit 0)%js && (Num q <? lit 1000)%js
        then {| distance := Num q; source := field; confidence := c;
                raw_value := Some (JNum q) |}
        else not_found
    | _ => not_found
    end.
Proof.
  intros Hin H Hv. apply get_present in Hv.
  simpl in Hin.
  repeat (destruct Hin as [Hin | Hin];
          [ injection Hin as <- <-;
            unfold findDistanceInExif;
            cbn [first_some firstn skipn distanceFields or_try];
            rewrite Hv; absent H; cbn [or_try];
            destruct v as [| | |q| |]; try reflexivity;
            destruct ((Num q >? lit 0)%js && (Num q <? lit 1000)%js); reflexivity
          | ]).
  contradiction.
Qed.

(** The upload-time resolver never looks at a focus field. *)
Lemma extractBladeDistance_ignores (exifData : gmap string jsval) (field : string) :
  ~ In field (userCommentFields ++ subjectDistanceFields) ->
  onlyDistanceEntry exifData field ->
  extractBladeDistance exifData = not_found.
Proof.
  intros Hnot H.
  assert (Habs : forall f, In f (userCommentFields ++ subjectDistanceFields) ->
                           get exifData f = JUndefined).
  { intros f Hf. apply (get_absent exifData field); [exact H | | congruence].
    unfold consultedFields. rewrite List.app_assoc. apply in_or_app. now left. }
  unfold extractBladeDistance.
  cbn [first_some userCommentFields subjectDistanceFields or_try].
  repeat match goal with
  | |- context [get exifData ?f] =>
      rewrite (Habs f) by (simpl; in_list)
  end.
  reflexivity.
Qed.

(** C1 (the code does not do what the claim says).  The read-time resolver
    [findDistanceInExif] lists [FocusDistance] and [HyperfocalDistance]
    among its numeric fields: on a bag holding nothing but
    [FocusDistance: 5] (or [HyperfocalDistance: 5]) it returns the distance
    5 with that field as its source and confidence "low", not the sentinel,
    and raises no error; [validateExifData], its caller, finds a bag valid
    whose distance comes from [HyperfocalDistance] alone.  The test of the
    validators, [isFocusSource], holds of the first source and not of the
    second.  The upload-time resolver [extractBladeDistance] returns the
    sentinel on both bags. *)
Theorem findDistanceInExif_accepts_focus_distance :
  validateExifData hyperfocalOnly "T1-A-TE-001.jpg"
  = {| isValid := true; issues := []; suggestions := [] |}
  /\ findDistanceInExif {[ "FocusDistance" := JNum 5 ]}
  = {| distance := Num 5; source := "FocusDistance"; confidence := low;
       raw_value := Some (JNum 5) |}
  /\ findDistanceInExif {[ "HyperfocalDistance" := JNum 5 ]}
     = {| distance := Num 5; source := "HyperfocalDistance"; confidence := low;
          raw_value := Some (JNum 5) |}
  /\ isFocusSource "FocusDistance" = true
  /\ isFocusSource "HyperfocalDistance" = false
  /\ extractBladeDistance {[ "FocusDistance" := JNum 5 ]} = not_found
  /\ extractBladeDistance {[ "HyperfocalDistance" := JNum 5 ]} = not_found.
Proof. vm_compute. repeat split; reflexivity. Qed.

(** C3, as the code has it.  For every metadata bag whose only
    distance-bearing entry is "EXIF:SubjectDistance": when its value is the
    string "30", the upload-time resolver [extractBladeDistance] returns
    distance 30, source "EXIF:SubjectDistance", confidence "medium", and the
    read-time resolver [findDistanceInExif], which takes numeric fields of
    type number only, returns the sentinel; when its value is the number 30,
    both return distance 30, that source and confidence "medium". *)
Theorem subjectDistance_30_resolution (exifData : gmap string jsval) :
  onlyDistanceEntry exifData "EXIF:SubjectDistance" ->
  (exifData !! "EXIF:SubjectDistance" = Some (JStr "30") ->
   extractBladeDistance exifData
   = {| distance := Num 30; source := "EXIF:SubjectDistance";
        confidence := medium; raw_value := Some (JStr "30") |}
   /\ findDistanceInExif exifData = not_found)
  /\ (exifData !! "EXIF:SubjectDistance" = Some (JNum 30) ->
      extractBladeDistance exifData
      = {| distance := Num 30; source := "EXIF:SubjectDistance";
           confidence := medium; raw_value := Some (JNum 30) |}
      /\ findDistanceInExif exifData
         = {| distance := Num 30; source := "EXIF:SubjectDistance";
              confidence := medium; raw_value := Some (JNum 30) |}).
Proof.
  intros H. split; intros Hv.
  - split.
    + rewrite (extractBladeDistance_subject_only exifData _ H Hv). reflexivity.
    + rewrite (findDistanceInExif_numeric_only exifData "EXIF:SubjectDistance"
                 medium _ ltac:(simpl; in_list) H Hv).
      reflexivity.
  - split.
    + rewrite (extractBladeDistance_subject_only exifData _ H Hv). reflexivity.
    + rewrite (findDistanceInExif_numeric_only exifData "EXIF:SubjectDistance"
                 medium _ ltac:(simpl; in_list) H Hv).
      reflexivity.
Qed.

Lemma singleton_onlyDistanceEntry (field : string) (v : jsval) :
  onlyDistanceEntry {[ field := v ]} field.
Proof. intros f _ Hne. now apply lookup_singleton_ne. Qed.

Lemma subjectDistance_30_resolution_witness :
  onlyDistanceEntry {[ "EXIF:SubjectDistance" := JStr "30" ]} "EXIF:SubjectDistance"
  /\ ({[ "EXIF:SubjectDistance" := JStr "30" ]} : gmap string jsval)
       !! "EXIF:SubjectDistance" = Some (JStr "30")
  /\ distance (extractBladeDistance {[ "EXIF:SubjectDistance" := JStr "30" ]}) = Num 30.
Proof.
  pose proof (singleton_onlyDistanceEntry "EXIF:SubjectDistance" (JStr "30")) as H.
  assert (Hv : ({[ "EXIF:SubjectDistance" := JStr "30" ]} : gmap string jsval)
                 !! "EXIF:SubjectDistance" = Some (JStr "30"))
    by apply lookup_singleton_eq.
  destruct (subjectDistance_30_resolution _ H) as [Hstr _].
  destruct (Hstr Hv) as [Hup _].
  split; [exact H |]. split; [exact Hv |]. now rewrite Hup.
Defined.

(** C3 (the counterexample).  On the bag [{ "EXIF:SubjectDistance": "30" }]
    the read-time resolver returns the sentinel: distance 0, source
    "not_found", confidence "low". *)
Lemma findDistanceInExif_string_30_not_found :
  findDistanceInExif {[ "EXIF:SubjectDistance" := JStr "30" ]} = not_found
  /\ distance (findDistanceInExif {[ "EXIF:SubjectDistance" := JStr "30" ]}) <> Num 30
  /\ source (findDistanceInExif {[ "EXIF:SubjectDistance" := JStr "30" ]})
     <> "EXIF:SubjectDistance"
  /\ confidence (findDistanceInExif {[ "EXIF:SubjectDistance" := JStr "30" ]}) <> medium.
Proof. vm_compute. repeat split; try reflexivity; discriminate. Qed.

(* ===================================================================== *)
(** ** GSD *)
(* ===================================================================== *)

Section GSDFacts.
Context `{JsRuntime}.

(** The upload route's calculation refuses a distance that is not positive:
    it throws, and the error is "Invalid distance to blade: must be greater
    than 0" whenever the camera lookup before it went through. *)
Lemma calculateGSDForTurbine_invalid_distance
    (exifData : gmap string jsval) (imageWidth imageHeight distance : number)
    (distanceSource : string) (distanceConfidence : Confidence) :
  (distance <=? lit 0)%js = true ->
  (exists e, calculateGSDForTurbine exifData imageWidth imageHeight distance
               distanceSource distanceConfidence = Throw e)
  /\ forall specs,
       getCameraSpecs
         (js_or (js_or (get exifData "EXIF:Make") (get exifData "Make")) (JStr "DJI"))
         (js_or (js_or (get exifData "EXIF:Model") (get exifData "Model")) (JStr "M3E"))
         exifData = Ok specs ->
       calculateGSDForTurbine exifData imageWidth imageHeight distance
         distanceSource distanceConfidence = Throw InvalidDistance.
Proof.
  intros Hd. unfold calculateGSDForTurbine. cbn zeta.
  destruct (getCameraSpecs _ _ exifData) as [specs | e]; cbn [bindR].
  - rewrite Hd. cbn [negb]. split; [now exists InvalidDistance |].
    intros specs' _. reflexivity.
  - split; [now exists e |]. intros specs' E. discriminate.
Qed.

End GSDFacts.

(** C8 (the code does not do what the claim says).  [calculateEstimatedGSD]
    checks nothing: for a distance of 0 m (focal length 12.29 mm, sensor
    17.3 x 13.0 mm, image 5280 x 3956 px) it returns a GSD of 0 in all three
    fields, and for -10 m negative ones, in exact arithmetic and in binary64
    alike.  [calculateGSDForTurbine] throws on both distances; for a
    distance of 30 m and a focal length tag that reads ["."], which
    [parseFloat] turns into NaN, it returns a GSD of NaN in all three
    fields. *)
Theorem calculateEstimatedGSD_accepts_zero_distance :
  (let r := calculateEstimatedGSD (N := Q) 0 12.29 17.3 13.0 5280 3956 in
   gsdWidthCmPerPx r == 0 /\ gsdHeightCmPerPx r == 0 /\ gsdAvgCmPerPx r == 0)
  /\ (let r := calculateEstimatedGSD (N := Q) (-10) 12.29 17.3 13.0 5280 3956 in
      gsdWidthCmPerPx r < 0 /\ gsdHeightCmPerPx r < 0 /\ gsdAvgCmPerPx r < 0)
  /\ (let r := calculateEstimatedGSD (N := float) (lit 0) (lit 12.29) (lit 17.3)
                 (lit 13.0) (lit 5280) (lit 3956) in
      PrimFloat.is_zero (gsdWidthCmPerPx r) = true
      /\ PrimFloat.is_zero (gsdHeightCmPerPx r) = true
      /\ PrimFloat.is_zero (gsdAvgCmPerPx r) = true)
  /\ calculateGSDForTurbine (H := exampleRuntime) ∅ (Num 5280) (Num 3956) (Num 0)
       "calculated" medium = Throw InvalidDistance
  /\ calculateGSDForTurbine (H := exampleRuntime) ∅ (Num 5280) (Num 3956) (Num (-10))
       "calculated" medium = Throw InvalidDistance
  /\ (exists g,
        calculateGSDForTurbine (H := exampleRuntime)
          {[ "EXIF:FocalLength" := JStr "." ]} (Num 5280) (Num 3956) (Num 30)
          "EXIF:SubjectDistance" medium = Ok g
        /\ gsd_width g = NaN /\ gsd_height g = NaN /\ gsd_cm_per_pixel g = NaN).
Proof.
  repeat split; try (vm_compute; reflexivity).
  eexists. vm_compute. repeat split; reflexivity.
Qed.

(* ===================================================================== *)
(** ** The upload loop *)
(* ===================================================================== *)

Lemma appendsToLog_ret {A} (a : A) : appendsToLog (ret a).
Proof. intros log. unfold ret. simpl. now rewrite List.app_nil_r. Qed.

Lemma appendsToLog_throw {A} (e : Thrown) : appendsToLog (@throw A e).
Proof. intros log. unfold throw. simpl. now rewrite List.app_nil_r. Qed.

Lemma appendsToLog_await {A} (r : Result A) : appendsToLog (await r).
Proof. intros log. unfold await. simpl. now rewrite List.app_nil_r. Qed.

Lemma appendsToLog_push (entry : LogEntry) : appendsToLog (push_log entry).
Proof. intros log. reflexivity. Qed.

Lemma appendsToLog_bind {A B} (c : Step A) (k : A -> Step B) :
  appendsToLog c -> (forall a, appendsToLog (k a)) -> appendsToLog (bindS c k).
Proof.
  intros Hc Hk log. unfold bindS. rewrite (Hc log).
  destruct (c []) as [[a | e] l1]; simpl.
  - rewrite (Hk a (log ++ l1)), (Hk a l1). simpl. now rewrite List.app_assoc.
  - reflexivity.
Qed.

Ltac appends_to_log :=
  repeat first
    [ apply appendsToLog_ret
    | apply appendsToLog_throw
    | apply appendsToLog_await
    | apply appendsToLog_push
    | apply appendsToLog_bind; [| intros ? ]
    | match goal with
      | |- appendsToLog (match ?x with _ => _ end) => destruct x
      end ].

Section PostFacts.
Context `{JsRuntime}.

Lemma processFile_appendsToLog (existingImages : list (TurbineImage number))
    (file : UploadedFile) :
  appendsToLog (processFile existingImages file).
Proof. unfold processFile. appends_to_log. Qed.

Lemma processNext_outcome (existingImages : list (TurbineImage number))
    (batch : Batch) (file : UploadedFile) :
  processNext existingImages batch file
  = {| processedImages := processedImages batch ++ imagesOf existingImages [file];
       errors := errors batch ++ errorsOf existingImages [file];
       interpolationLog := interpolationLog batch ++ logged existingImages file |}.
Proof.
  unfold processNext, imagesOf, errorsOf, outcome, logged.
  rewrite (processFile_appendsToLog existingImages file (interpolationLog batch)).
  destruct (processFile existingImages file []) as [[image | e] l] eqn:E;
    simpl; rewrite ?E; simpl; now rewrite ?List.app_nil_r.
Qed.

Lemma fold_processNext (existingImages : list (TurbineImage number))
    (files : list UploadedFile) (batch : Batch) :
  fold_left (processNext existingImages) files batch
  = {| processedImages := processedImages batch ++ imagesOf existingImages files;
       errors := errors batch ++ errorsOf existingImages files;
       interpolationLog :=
         interpolationLog batch ++ flat_map (logged existingImages) files |}.
Proof.
  revert batch. induction files as [|file files IH]; intros batch; simpl.
  - rewrite !List.app_nil_r. now destruct batch.
  - rewrite IH, processNext_outcome. simpl.
    unfold imagesOf, errorsOf. simpl.
    rewrite !List.app_nil_r, <- !List.app_assoc. reflexivity.
Qed.

(** Every file is taken through the loop body, in order, and lands in
    [processedImages] or in [errors] by its own outcome. *)
Lemma processFiles_outcomes (existingImages : list (TurbineImage number))
    (files : list UploadedFile) :
  processFiles existingImages files
  = {| processedImages := imagesOf existingImages files;
       errors := errorsOf existingImages files;
       interpolationLog := flat_map (logged existingImages) files |}.
Proof. unfold processFiles. now rewrite fold_processNext. Qed.

Lemma imagesOf_errorsOf_length (existingImages : list (TurbineImage number))
    (files : list UploadedFile) :
  (length (imagesOf existingImages files) + length (errorsOf existingImages files)
   = length files)%nat.
Proof.
  induction files as [|file files IH]; [reflexivity |].
  unfold imagesOf, errorsOf in *. simpl. rewrite !List.length_app.
  destruct (outcome existingImages file); simpl; lia.
Qed.

(** C9.  When the processing of one file of a batch throws (no EXIF data, no
    distance, a distance or a GSD out of range, or anything else), the error
    is added to the batch's [errors] under the file's name, the files before
    and after it are processed as they are without it, and every file of
    the batch ends in [processedImages] or in [errors]. *)
Theorem processFiles_error_stays_local
    (existingImages : list (TurbineImage number))
    (before after : list UploadedFile) (file : UploadedFile) (error : Thrown) :
  outcome existingImages file = Throw error ->
  let batch := processFiles existingImages (before ++ file :: after) in
  processedImages batch
  = processedImages (processFiles existingImages before)
      ++ processedImages (processFiles existingImages after)
  /\ processedImages batch
     = processedImages (processFiles existingImages (before ++ after))
  /\ errors batch
     = errors (processFiles existingImages before)
         ++ (file_name file, error) :: errors (processFiles existingImages after)
  /\ (length (processedImages batch) + length (errors batch)
      = length (before ++ file :: after))%nat.
Proof.
  intros Hthrow batch. subst batch. rewrite !processFiles_outcomes. simpl.
  unfold imagesOf, errorsOf. rewrite !flat_map_app. simpl. rewrite Hthrow. simpl.
  repeat split.
  - fold (imagesOf existingImages (before ++ file :: after)).
    fold (errorsOf existingImages (before ++ file :: after)).
    rewrite <- (imagesOf_errorsOf_length existingImages (before ++ file :: after)).
    unfold imagesOf, errorsOf. rewrite !flat_map_app. simpl. rewrite Hthrow.
    reflexivity.
Qed.

End PostFacts.

Lemma processFiles_error_stays_local_witness :
  outcome (H := exampleRuntime) [] file_no_exif = Throw NoExifData
  /\ errors (processFiles (H := exampleRuntime) [] sixFiles)
     = [ ("T1-A-TE-002.jpg", NoExifData);
         ("T1-A-TE-003.jpg", NoDistanceAvailable);
         ("T1-A-TE-004.jpg", DistanceOutsideRange (Num 500));
         ("T1-A-TE-005.jpg", UnrealisticGSD (Infinity false)) ]
  /\ length (processedImages (processFiles (H := exampleRuntime) [] sixFiles)) = 2%nat.
Proof.
  assert (Hthrow : outcome (H := exampleRuntime) [] file_no_exif = Throw NoExifData)
    by (vm_compute; reflexivity).
  destruct (processFiles_error_stays_local (H := exampleRuntime) [] [file_good]
              [file_no_distance; file_far; file_no_focal_length; file_good]
              file_no_exif NoExifData Hthrow) as (Himages & _ & Herrors & _).
  split; [exact Hthrow |]. split.
  - change sixFiles
      with ([file_good] ++ file_no_exif
              :: [file_no_distance; file_far; file_no_focal_length; file_good]).
    rewrite Herrors. vm_compute. reflexivity.
  - change sixFiles
      with ([file_good] ++ file_no_exif
              :: [file_no_distance; file_far; file_no_focal_length; file_good]).
    rewrite Himages. vm_compute. reflexivity.
Defined.

(* ===================================================================== *)
(** ** What the resolvers can return *)
(* ===================================================================== *)

Lemma or_try_Some {A} (x y : option A) (a : A) :
  or_try x y = Some a -> x = Some a \/ (x = None /\ y = Some a).
Proof. destruct x; simpl; intros E; [left | right]; auto. Qed.

Lemma first_some_Some {A B} (f : A -> option B) (l : list A) (b : B) :
  first_some f l = Some b -> exists a, In a l /\ f a = Some b.
Proof.
  induction l as [|x l IH]; simpl; [discriminate |].
  intros E. apply or_try_Some in E. destruct E as [E | [_ E]].
  - exists x. auto.
  - destruct (IH E) as (a & Ha & Hf). exists a. auto.
Qed.

(** A number that is not NaN and lies strictly between two rationals is a
    rational. *)
Lemma number_between (d : number) (lo hi : Q) :
  (lit lo <? d)%js = true -> (d <? lit hi)%js = true ->
  exists q, d = Num q /\ lo < q /\ q < hi.
Proof.
  destruct d as [| s | q]; cbn [ltb lit ArithNumber n_ltb]; try discriminate.
  - destruct s; discriminate.
  - intros H1 H2. apply Qltb_lt in H1, H2. exists q. auto.
Qed.

(** The first pass of [findDistanceInExif], over the text fields. *)
Lemma findDistanceInExif_text_pass
    (exifData : gmap string jsval) (pair : string * Confidence) (r : DistanceInfo) :
  (let '(field, confidence) := pair in
   match get exifData field with
   | JStr value =>
       first_some
         (fun pattern =>
            match String_match value pattern with
            | Some m1 =>
                let distance := parseFloat m1 in
                if negb (isNaN distance) && (distance >? lit 0)%js
                   && (distance <? lit 1000)%js
                then Some {| distance := distance; source := field;
                             confidence := confidence;
                             raw_value := Some (JStr value) |}
                else None
            | None => None
            end)
         exifPatterns
   | _ => None
   end) = Some r ->
  (exists q, distance r = Num q /\ 0 < q /\ q < 1000)
  /\ (source r, confidence r) = pair
  /\ raw_value r = Some (get exifData (source r)).
Proof.
  destruct pair as [field c].
  destruct (get exifData field) as [| | | | value |] eqn:Hget; try discriminate.
  intros E. apply first_some_Some in E. destruct E as (pattern & _ & E).
  destruct (String_match value pattern) as [m1 |]; [| discriminate].
  cbn zeta in E.
  destruct (negb (isNaN (parseFloat m1)) && (parseFloat m1 >? lit 0)%js
            && (parseFloat m1 <? lit 1000)%js) eqn:Hc; [| discriminate].
  injection E as <-. cbn [distance source confidence raw_value].
  apply andb_true_iff in Hc. destruct Hc as [Hc Hhi].
  apply andb_true_iff in Hc. destruct Hc as [_ Hlo].
  split; [now apply number_between | split; [reflexivity | now rewrite Hget]].
Qed.

(** The second pass of [findDistanceInExif], over the numeric fields. *)
Lemma findDistanceInExif_numeric_pass
    (exifData : gmap string jsval) (pair : string * Confidence) (r : DistanceInfo) :
  (let '(field, confidence) := pair in
   match get exifData field with
   | JNum value =>
       if (Num value >? lit 0)%js && (Num value <? lit 1000)%js
       then Some {| distance := Num value; source := field;
                    confidence := confidence;
                    raw_value := Some (JNum value) |}
       else None
   | _ => None
   end) = Some r ->
  (exists q, distance r = Num q /\ 0 < q /\ q < 1000)
  /\ (source r, confidence r) = pair
  /\ raw_value r = Some (get exifData (source r)).
Proof.
  destruct pair as [field c].
  destruct (get exifData field) as [| | | value | |] eqn:Hget; try discriminate.
  destruct ((Num value >? lit 0)%js && (Num value <? lit 1000)%js) eqn:Hc;
    [| discriminate].
  intros E. injection E as <-. cbn [distance source confidence raw_value].
  apply andb_true_iff in Hc. destruct Hc as [Hlo Hhi].
  split; [now apply number_between | split; [reflexivity | now rewrite Hget]].
Qed.

(** The distance [findDistanceInExif] returns is the sentinel's or a rational
    above 0 and below 1000. *)
Lemma findDistanceInExif_distance (exifData : gmap string jsval) :
  findDistanceInExif exifData = not_found
  \/ exists q, distance (findDistanceInExif exifData) = Num q /\ 0 < q /\ q < 1000.
Proof.
  unfold findDistanceInExif.
  match goal with
  | |- context [match first_some ?f (firstn 5 distanceFields) with _ => _ end] =>
      destruct (first_some f (firstn 5 distanceFields)) as [r |] eqn:Etext
  end.
  - right. apply first_some_Some in Etext. destruct Etext as (pair & _ & E).
    now apply findDistanceInExif_text_pass in E.
  - match goal with
    | |- context [match first_some ?f (skipn 5 distanceFields) with _ => _ end] =>
        destruct (first_some f (skipn 5 distanceFields)) as [r |] eqn:Enum
    end; [| now left].
    right. apply first_some_Some in Enum. destruct Enum as (pair & _ & E).
    now apply findDistanceInExif_numeric_pass in E.
Qed.

(** X1.  Whatever the metadata bag, [findDistanceInExif] returns either the
    sentinel [not_found] or a distance strictly between 0 and 1000 (never
    NaN, never infinite), under the name of the field of [distanceFields]
    it was read from, with the confidence that list gives to the field and
    with the field's value as [raw_value]. *)
Theorem findDistanceInExif_in_range (exifData : gmap string jsval) :
  let r := findDistanceInExif exifData in
  r = not_found
  \/ ((exists q, distance r = Num q /\ 0 < q /\ q < 1000)
      /\ In (source r, confidence r) distanceFields
      /\ raw_value r = Some (get exifData (source r))).
Proof.
  cbn zeta. unfold findDistanceInExif.
  match goal with
  | |- context [match first_some ?f (firstn 5 distanceFields) with _ => _ end] =>
      destruct (first_some f (firstn 5 distanceFields)) as [r |] eqn:Etext
  end.
  - right. apply first_some_Some in Etext. destruct Etext as (pair & Hin & E).
    apply findDistanceInExif_text_pass in E. destruct E as (Hd & Hp & Hraw).
    split; [exact Hd | split; [| exact Hraw]].
    rewrite Hp. simpl in Hin |- *. tauto.
  - match goal with
    | |- context [match first_some ?f (skipn 5 distanceFields) with _ => _ end] =>
        destruct (first_some f (skipn 5 distanceFields)) as [r |] eqn:Enum
    end; [| now left].
    right. apply first_some_Some in Enum. destruct Enum as (pair & Hin & E).
    apply findDistanceInExif_numeric_pass in E. destruct E as (Hd & Hp & Hraw).
    split; [exact Hd | split; [| exact Hraw]].
    rewrite Hp. simpl in Hin |- *. tauto.
Qed.

(** The first pass of [extractBladeDistance], over the comment fields. *)
Lemma extractBladeDistance_comment_pass
    (exifData : gmap string jsval) (field : string) (r : DistanceInfo) :
  match get exifData field with
  | JStr userComment =>
      if negb (is_empty userComment) && negb (is_empty (trim userComment))
      then
        first_some
          (fun pattern =>
             match String_match userComment pattern with
             | Some m1 =>
                 let distance := parseFloat m1 in
                 if negb (isNaN distance) && (distance >? lit 0.1)%js
                    && (distance <? lit 200)%js
                 then Some {| distance := distance; source := field;
                              confidence := high;
                              raw_value := Some (JStr userComment) |}
                 else None
             | None => None
             end)
          uploadPatterns
      else None
  | _ => None
  end = Some r ->
  (exists q, distance r = Num q /\ 0.1 < q /\ q < 200)
  /\ source r = field /\ confidence r = high
  /\ raw_value r = Some (get exifData field)
  /\ exists text, get exifData field = JStr text.
Proof.
  destruct (get exifData field) as [| | | | value |] eqn:Hget; try discriminate.
  destruct (negb (is_empty value) && negb (is_empty (trim value))); [| discriminate].
  intros E. apply first_some_Some in E. destruct E as (pattern & _ & E).
  destruct (String_match value pattern) as [m1 |]; [| discriminate].
  cbn zeta in E.
  destruct (negb (isNaN (parseFloat m1)) && (parseFloat m1 >? lit 0.1)%js
            && (parseFloat m1 <? lit 200)%js) eqn:Hc; [| discriminate].
  injection E as <-. cbn [distance source confidence raw_value].
  apply andb_true_iff in Hc. destruct Hc as [Hc Hhi].
  apply andb_true_iff in Hc. destruct Hc as [_ Hlo].
  split; [now apply number_between |]. repeat split. now exists value.
Qed.

(** Its second pass, over the subject-distance fields. *)
Lemma extractBladeDistance_subject_pass
    (exifData : gmap string jsval) (field : string) (r : DistanceInfo) :
  (let subjectDistance := get exifData field in
   if truthy subjectDistance && negb (isNaN (parseFloat_any subjectDistance))
   then
     let distance := parseFloat_any subjectDistance in
     if (distance >? lit 0.5)%js && (distance <? lit 100)%js
     then Some {| distance := distance; source := field;
                  confidence := medium;
                  raw_value := Some subjectDistance |}
     else None
   else None) = Some r ->
  (exists q, distance r = Num q /\ 0.5 < q /\ q < 100)
  /\ source r = field /\ confidence r = medium
  /\ raw_value r = Some (get exifData field).
Proof.
  cbn zeta.
  destruct (truthy (get exifData field)
            && negb (isNaN (parseFloat_any (get exifData field)))); [| discriminate].
  destruct ((parseFloat_any (get exifData field) >? lit 0.5)%js
            && (parseFloat_any (get exifData field) <? lit 100)%js) eqn:Hc;
    [| discriminate].
  intros E. injection E as <-. cbn [distance source confidence raw_value].
  apply andb_true_iff in Hc. destruct Hc as [Hlo Hhi].
  split; [now apply number_between |]. repeat split.
Qed.

(** The two ways [extractBladeDistance] finds a distance. *)
Lemma extractBladeDistance_cases (exifData : gmap string jsval) :
  let r := extractBladeDistance exifData in
  r = not_found
  \/ ((exists q, distance r = Num q /\ 0.1 < q /\ q < 200)
      /\ In (source r) userCommentFields /\ confidence r = high
      /\ raw_value r = Some (get exifData (source r))
      /\ exists text, get exifData (source r) = JStr text)
  \/ ((exists q, distance r = Num q /\ 0.5 < q /\ q < 100)
      /\ In (source r) subjectDistanceFields /\ confidence r = medium
      /\ raw_value r = Some (get exifData (source r))).
Proof.
  cbn zeta. unfold extractBladeDistance.
  match goal with
  | |- context [match first_some ?f userCommentFields with _ => _ end] =>
      destruct (first_some f userCommentFields) as [r |] eqn:Ecomment
  end.
  - right. left. apply first_some_Some in Ecomment.
    destruct Ecomment as (field & Hin & E).
    apply extractBladeDistance_comment_pass in E.
    destruct E as (Hd & Hs & Hc & Hraw & Htext). rewrite Hs. auto.
  - match goal with
    | |- context [match first_some ?f subjectDistanceFields with _ => _ end] =>
        destruct (first_some f subjectDistanceFields) as [r |] eqn:Esubject
    end; [| now left].
    right. right. apply first_some_Some in Esubject.
    destruct Esubject as (field & Hin & E).
    apply extractBladeDistance_subject_pass in E.
    destruct E as (Hd & Hs & Hc & Hraw). rewrite Hs. auto.
Qed.

(** The distance [extractBladeDistance] returns is a rational: 0 when
    nothing was found, and otherwise above 0.1 and below 200. *)
Lemma extractBladeDistance_distance (exifData : gmap string jsval) :
  exists q, distance (extractBladeDistance exifData) = Num q
            /\ (q = 0 \/ (0.1 < q /\ q < 200)).
Proof.
  destruct (extractBladeDistance_cases exifData)
    as [E | [((q & Hq & Hlo & Hhi) & _) | ((q & Hq & Hlo & Hhi) & _)]].
  - rewrite E. exists 0. auto.
  - exists q. auto.
  - exists q. split; [exact Hq | right; lra].
Qed.

(** X2.  Whatever the metadata bag, [extractBladeDistance] returns the
    sentinel [not_found], or a distance above 0.1 and below 200 read with
    confidence [high] from the text of one of the comment fields, or a
    distance above 0.5 and below 100 read with confidence [medium] from one
    of the subject-distance fields.  It never answers with confidence [low]
    except in the sentinel, and its distance is never NaN or infinite. *)
Theorem extractBladeDistance_in_range (exifData : gmap string jsval) :
  let r := extractBladeDistance exifData in
  r = not_found
  \/ (confidence r = high /\ In (source r) userCommentFields
      /\ (exists q, distance r = Num q /\ 0.1 < q /\ q < 200)
      /\ exists text, get exifData (source r) = JStr text
                      /\ raw_value r = Some (JStr text))
  \/ (confidence r = medium /\ In (source r) subjectDistanceFields
      /\ (exists q, distance r = Num q /\ 0.5 < q /\ q < 100)
      /\ raw_value r = Some (get exifData (source r))).
Proof.
  cbn zeta.
  destruct (extractBladeDistance_cases exifData)
    as [E | [(Hd & Hs & Hc & Hraw & (text & Htext)) | (Hd & Hs & Hc & Hraw)]].
  - now left.
  - right. left. repeat split; try assumption.
    exists text. split; [exact Htext | now rewrite Hraw, Htext].
  - right. right. auto.
Qed.

(** X3.  [validateExifData] finds a bag valid exactly when the bag is not
    empty, holds a camera make, a camera model, a focal length and a GPS
    latitude (each under its plain or its group-qualified name, with a
    truthy value), and [findDistanceInExif] resolves a distance in it; a
    valid bag gets no issue and no suggestion.  The file name plays no
    part. *)
Theorem validateExifData_valid_iff (exifData : gmap string jsval) (filename : string) :
  let present a b := truthy (get exifData a) || truthy (get exifData b) in
  let v := validateExifData exifData filename in
  (isValid v = true <->
   exifData <> ∅
   /\ present "Make" "EXIF:Make" = true
   /\ present "Model" "EXIF:Model" = true
   /\ present "FocalLength" "EXIF:FocalLength" = true
   /\ present "GPSLatitude" "GPS:GPSLatitude" = true
   /\ findDistanceInExif exifData <> not_found)
  /\ (isValid v = true -> issues v = [] /\ suggestions v = []).
Proof.
  cbn zeta. unfold validateExifData.
  assert (Hfound : n_eqb (distance (findDistanceInExif exifData)) (Num 0) = false
                   <-> findDistanceInExif exifData <> not_found).
  { destruct (findDistanceInExif_distance exifData) as [E | (q & Hq & Hlo & _)].
    - rewrite E. cbn. split; [discriminate | congruence].
    - rewrite Hq. cbn [n_eqb]. split.
      + intros _ E. rewrite E in Hq. cbn in Hq. injection Hq as <-. lra.
      + intros _. apply not_true_iff_false. intros E.
        apply Qeq_bool_iff in E. lra. }
  destruct (decide (exifData = ∅)) as [Hempty | Hne].
  - cbn [isValid issues suggestions]. split; [| discriminate].
    split; [discriminate | intros (Hc & _); contradiction].
  - cbn [isValid issues suggestions]. rewrite <- !negb_orb.
    destruct (truthy (get exifData "Make") || truthy (get exifData "EXIF:Make")),
      (truthy (get exifData "Model") || truthy (get exifData "EXIF:Model")),
      (truthy (get exifData "FocalLength") || truthy (get exifData "EXIF:FocalLength")),
      (truthy (get exifData "GPSLatitude") || truthy (get exifData "GPS:GPSLatitude")),
      (n_eqb (distance (findDistanceInExif exifData)) (Num 0)) eqn:Hd;
      cbn; (split; [split; [try discriminate; intros _ |
                            try (intros (_ & ? & ? & ? & ? & ?); discriminate)]
                   | try discriminate; auto]);
      try (repeat split; try assumption; now apply Hfound).
    all: intros (_ & _ & _ & _ & _ & Hf); apply Hfound in Hf; discriminate.
Qed.

(* ===================================================================== *)
(** ** Camera specifications, blade and side *)
(* ===================================================================== *)

(** X4.  [getCameraSpecs] fails only with the [TypeError] of calling
    [toUpperCase] on a make or a model that is not a string.  For a string
    make and model it answers with one of three sensor sizes, 17.3 x 13.0,
    6.17 x 4.55 or 6.4 x 4.8 mm, and with the first whenever the make is a
    string of ASCII characters that does not contain "DJI" (in any case of
    letters); the focal length it answers with does not depend on the make
    or the model, and is 12.29 when the bag holds no focal-length tag. *)
Theorem getCameraSpecs_sensor (make model : jsval) (exifData : gmap string jsval) :
  match getCameraSpecs make model exifData with
  | Ok specs =>
      (exists a b, make = JStr a /\ model = JStr b
         /\ (isAscii a = true -> includes (toUpperCase a) "DJI" = false ->
             spec_sensor_width specs = Num 17.3 /\ spec_sensor_height specs = Num 13.0))
      /\ In (spec_sensor_width specs, spec_sensor_height specs)
           [(Num 17.3, Num 13.0); (Num 6.17, Num 4.55); (Num 6.4, Num 4.8)]
      /\ (forall a b specs',
            getCameraSpecs (JStr a) (JStr b) exifData = Ok specs' ->
            spec_focal_length specs' = spec_focal_length specs)
      /\ (get exifData "EXIF:FocalLength" = JUndefined ->
          get exifData "FocalLength" = JUndefined ->
          get exifData "Camera:FocalLength" = JUndefined ->
          spec_focal_length specs = Num 12.29)
  | Throw e =>
      e = NotAFunction
      /\ ((forall a, make <> JStr a) \/ (forall b, model <> JStr b))
  end.
Proof.
  unfold getCameraSpecs.
  destruct make as [| | | | a |]; cbn [toUpperCase_any bindR];
    try (split; [reflexivity | left; discriminate]).
  destruct model as [| | | | b |]; cbn [toUpperCase_any bindR];
    try (split; [reflexivity | right; discriminate]).
  assert (Hfocal : forall a' b' specs',
            getCameraSpecs (JStr a') (JStr b') exifData = Ok specs' ->
            spec_focal_length specs' =
            match js_or (js_or (js_or (get exifData "EXIF:FocalLength")
                                      (get exifData "FocalLength"))
                               (get exifData "Camera:FocalLength"))
                        (JStr "12.29 mm") with
            | JStr s =>
                match String_match s (RGroup r_digits_dots) with
                | Some m1 => parseFloat m1
                | None => Num 12.29
                end
            | JNum q => Num q
            | _ => Num 12.29
            end).
  { intros a' b' specs'. unfold getCameraSpecs. cbn [toUpperCase_any bindR].
    repeat match goal with
           | |- context [if ?c then _ else _] => destruct c
           end; intros E; injection E as <-; reflexivity. }
  repeat match goal with
         | |- context [if ?c then _ else _] => destruct c eqn:?
         end;
    (split; [exists a, b; split; [reflexivity | split; [reflexivity |]];
             intros _ Hmake; first [ split; reflexivity | congruence ]
            | split; [cbn [spec_sensor_width spec_sensor_height In]; tauto |]]);
    (split; [intros a' b' specs' E; rewrite (Hfocal a' b' specs' E); reflexivity |]);
    intros E1 E2 E3; cbn [spec_focal_length]; rewrite E1, E2, E3; vm_compute; reflexivity.
Qed.

Lemma upper_lower (c : ascii) : upper (lower c) = upper c.
Proof. destruct c as [[] [] [] [] [] [] [] []]; reflexivity. Qed.

Lemma chars_text (l : list ascii) : chars (text l) = l.
Proof. apply list_ascii_of_string_of_list_ascii. Qed.

Lemma toUpperCase_toLowerCase (s : string) :
  toUpperCase (toLowerCase s) = toUpperCase s.
Proof.
  unfold toUpperCase, toLowerCase. rewrite chars_text, List.map_map.
  f_equal. apply List.map_ext. intros c. apply upper_lower.
Qed.

Lemma upper_upper (c : ascii) : upper (upper c) = upper c.
Proof. destruct c as [[] [] [] [] [] [] [] []]; reflexivity. Qed.

Lemma toUpperCase_idempotent (s : string) :
  toUpperCase (toUpperCase s) = toUpperCase s.
Proof.
  unfold toUpperCase. rewrite chars_text, List.map_map.
  f_equal. apply List.map_ext. intros c. apply upper_upper.
Qed.

(** X5.  With upload metadata, [extractBladeAndSide] answers with the
    metadata's blade and side whatever the file name.  Without, it reads a
    file name of ASCII characters without regard to the case of its
    letters: the name in lower case and the name in upper case give the
    blade and side of the name as written. *)
Theorem extractBladeAndSide_ignores_case (filename : string) (m : Upload.Metadata) :
  isAscii filename = true ->
  extractBladeAndSide filename (Some m) = (Upload.blade m, Upload.side m)
  /\ extractBladeAndSide (toLowerCase filename) None = extractBladeAndSide filename None
  /\ extractBladeAndSide (toUpperCase filename) None = extractBladeAndSide filename None.
Proof.
  intros _. split; [reflexivity |]. unfold extractBladeAndSide.
  now rewrite toUpperCase_toLowerCase, toUpperCase_idempotent.
Qed.

Lemma extractBladeAndSide_ignores_case_witness :
  isAscii "WT01-b-ps-0042.jpg" = true
  /\ extractBladeAndSide "wt01-b-ps-0042.jpg" None = (BladeB, PS)
  /\ extractBladeAndSide "WT01-B-PS-0042.JPG" None = (BladeB, PS).
Proof.
  assert (Hascii : isAscii "WT01-b-ps-0042.jpg" = true) by reflexivity.
  destruct (extractBladeAndSide_ignores_case "WT01-b-ps-0042.jpg"
              {| Upload.blade := BladeA; Upload.side := TE;
                 Upload.manualDistance := None |} Hascii)
    as (_ & Hlower & Hupper).
  split; [exact Hascii |]. split.
  - change "wt01-b-ps-0042.jpg" with (toLowerCase "WT01-b-ps-0042.jpg").
    rewrite Hlower. reflexivity.
  - change "WT01-B-PS-0042.JPG" with (toUpperCase "WT01-b-ps-0042.jpg").
    rewrite Hupper. reflexivity.
Defined.

(* ===================================================================== *)
(** ** Interpolation: samples, mean and confidence *)
(* ===================================================================== *)

Lemma hasUsableDistance_positive (img : TurbineImage number) :
  hasUsableDistance img = true -> n_ltb (Num 0) (distanceOf img) = true.
Proof.
  unfold hasUsableDistance, distanceOf. destruct (gsd img) as [g |]; [| discriminate].
  intros E. apply andb_true_iff in E. exact (proj1 E).
Qed.

Lemma relevantDistances_positive (images : list (TurbineImage number))
    (forBlade : Blade) (forSide : Side) :
  Forall (fun d => n_ltb (Num 0) d = true) (relevantDistances images forBlade forSide).
Proof.
  unfold relevantDistances. apply List.Forall_forall. intros d Hd.
  apply List.in_map_iff in Hd. destruct Hd as (img & <- & Hin).
  apply hasUsableDistance_positive.
  destruct (Nat.leb 3 _); apply List.filter_In in Hin; destruct Hin as [_ Hin];
    [now apply matchesBladeAndSide_usable in Hin | exact Hin].
Qed.

(** There are samples exactly when some image has a usable distance. *)
Lemma relevantDistances_nonempty (images : list (TurbineImage number))
    (forBlade : Blade) (forSide : Side) :
  relevantDistances images forBlade forSide <> []
  <-> exists img, In img images /\ hasUsableDistance img = true.
Proof.
  unfold relevantDistances. split.
  - intros Hne.
    destruct (List.map distanceOf _) as [| d l] eqn:E; [contradiction |].
    assert (Hd : In d (d :: l)) by now left.
    rewrite <- E in Hd. apply List.in_map_iff in Hd. destruct Hd as (img & _ & Hin).
    exists img.
    destruct (Nat.leb 3 _); apply List.filter_In in Hin; destruct Hin as [Hin Hu];
      split; try exact Hin; try exact Hu.
    now apply matchesBladeAndSide_usable in Hu.
  - intros (img & Hin & Hu) E. apply List.map_eq_nil in E.
    destruct (Nat.leb 3 (length (List.filter (matchesBladeAndSide forBlade forSide) images)))
      eqn:H3.
    + rewrite E in H3. discriminate.
    + assert (Hf : In img (List.filter hasUsableDistance images))
        by (apply List.filter_In; auto).
      rewrite E in Hf. contradiction.
Qed.

Lemma sum_of_positives (l : list number) (acc : number) :
  isNaN acc = false -> n_ltb acc (Num 0) = false ->
  Forall (fun d => n_ltb (Num 0) d = true) l ->
  let total := fold_left (fun sum d => (sum + d)%js) l acc in
  isNaN total = false /\ n_ltb total (Num 0) = false
  /\ (l <> [] -> n_ltb (Num 0) total = true).
Proof.
  revert acc. induction l as [| d l IH]; intros acc Hnan Hneg Hall; cbn zeta; simpl.
  - repeat split; try assumption. congruence.
  - inversion Hall as [| ? ? Hd Hl]; subst.
    assert (Hacc : isNaN (n_add acc d) = false /\ n_ltb (n_add acc d) (Num 0) = false
                   /\ n_ltb (Num 0) (n_add acc d) = true).
    { destruct acc as [| [] | a], d as [| [] | q]; simpl in *; try discriminate;
        try (repeat split; reflexivity).
      apply Qltb_ge in Hneg. apply Qltb_lt in Hd.
      repeat split; [apply Qltb_ge | apply Qltb_lt]; lra. }
    destruct Hacc as (H1 & H2 & H3).
    destruct (IH (n_add acc d) H1 H2 Hl) as (I1 & I2 & I3).
    cbn [add ArithNumber]. repeat split; try assumption.
    intros _. destruct l as [| d' l']; [exact H3 | apply I3; discriminate].
Qed.

Section InterpolationFacts.
Context `{JsRuntime}.

Lemma meanDistance_positive (ds : list number) :
  Forall (fun d => n_ltb (Num 0) d = true) ds ->
  (Stats.meanDistance (distanceStatisticsOf ds) >? lit 0)%js
  = negb (Nat.eqb (length ds) 0).
Proof.
  intros Hall. unfold distanceStatisticsOf.
  destruct ds as [| d ds']; [reflexivity |].
  cbn [length Nat.eqb negb Stats.meanDistance].
  destruct (sum_of_positives (d :: ds') (Num 0) eq_refl eq_refl Hall) as (Hnan & _ & Hpos).
  specialize (Hpos ltac:(discriminate)). cbn zeta in Hpos, Hnan.
  set (total := fold_left (fun sum d0 : number => (sum + d0)%js) (d :: ds') (Num 0)) in *.
  unfold gtb. cbn [ltb lit div of_nat ArithNumber].
  assert (Hn : 0 < inject_Z (Z.of_nat (S (length ds')))).
  { change 0 with (inject_Z 0). rewrite <- Zlt_Qlt. lia. }
  destruct total as [| [] | t]; simpl in *; try discriminate.
  - case_Qltb (inject_Z (Z.of_nat (S (length ds')))) 0; [lra | reflexivity].
  - destruct (Qeq_bool (inject_Z (Z.of_nat (S (length ds')))) 0) eqn:E0.
    + apply Qeq_bool_iff in E0. lra.
    + simpl. apply Qltb_lt in Hpos. apply Qltb_lt.
      apply Qlt_shift_div_l; lra.
Qed.

Lemma meanDistance_positive_samples
    (images : list (TurbineImage number)) (forBlade : Blade) (forSide : Side) :
  (Stats.meanDistance (calculateDistanceStatistics images forBlade forSide) >? lit 0)%js
  = true
  <-> relevantDistances images forBlade forSide <> [].
Proof.
  rewrite calculateDistanceStatistics_unfold.
  rewrite meanDistance_positive by apply relevantDistances_positive.
  destruct (relevantDistances images forBlade forSide); simpl; split; congruence.
Qed.

(** X6.  The interpolation statistics have a positive mean exactly when some
    existing image has a usable distance (a distance above 0 whose
    confidence is not [low]), whatever its blade and side; and without any,
    the mean, the median and the samples are 0, 0 and none. *)
Theorem meanDistance_positive_iff
    (images : list (TurbineImage number)) (forBlade : Blade) (forSide : Side) :
  let r := calculateDistanceStatistics images forBlade forSide in
  ((Stats.meanDistance r >? lit 0)%js = true
   <-> exists img, In img images /\ hasUsableDistance img = true)
  /\ ((forall img, In img images -> hasUsableDistance img = false) ->
      r = {| Stats.meanDistance := Num 0; Stats.medianDistance := Num 0;
             Stats.validDistances := []; Stats.confidence := low |}).
Proof.
  cbn zeta. split.
  - rewrite meanDistance_positive_samples. apply relevantDistances_nonempty.
  - intros Hnone. rewrite calculateDistanceStatistics_unfold.
    assert (E : relevantDistances images forBlade forSide = []).
    { destruct (relevantDistances images forBlade forSide) as [| d l] eqn:E; [reflexivity |].
      assert (Hne : relevantDistances images forBlade forSide <> [])
        by (rewrite E; discriminate).
      apply relevantDistances_nonempty in Hne. destruct Hne as (img & Hin & Hu).
      rewrite (Hnone img Hin) in Hu. discriminate. }
    rewrite E. reflexivity.
Qed.

(** X7.  The confidence of the interpolation statistics follows the number
    of samples: it is [low] exactly with fewer than 3 samples, it is
    [medium] with 3 or 4, and it can be [high] only with 5 or more. *)
Theorem confidence_follows_sample_count
    (images : list (TurbineImage number)) (forBlade : Blade) (forSide : Side) :
  let r := calculateDistanceStatistics images forBlade forSide in
  let n := length (Stats.validDistances r) in
  n = length (relevantDistances images forBlade forSide)
  /\ (Stats.confidence r = low <-> (n < 3)%nat)
  /\ ((n = 3 \/ n = 4)%nat -> Stats.confidence r = medium)
  /\ (Stats.confidence r = high -> (5 <= n)%nat).
Proof.
  cbn zeta. rewrite calculateDistanceStatistics_unfold.
  rewrite distanceStatisticsOf_samples, numberSort_length.
  set (ds := relevantDistances images forBlade forSide).
  split; [reflexivity |].
  unfold distanceStatisticsOf.
  destruct (Nat.eqb (length ds) 0) eqn:E0.
  - apply Nat.eqb_eq in E0. rewrite E0. cbn [Stats.confidence].
    repeat split; try lia; try discriminate.
  - apply Nat.eqb_neq in E0. cbn [Stats.confidence].
    destruct (Nat.leb 5 (length ds)) eqn:E5.
    + apply Nat.leb_le in E5.
      match goal with |- context [if ?c then high else medium] => destruct c end;
        repeat split; try lia; try discriminate; intros; lia.
    + apply Nat.leb_gt in E5.
      destruct (Nat.ltb (length ds) 3) eqn:E3;
        [apply Nat.ltb_lt in E3 | apply Nat.ltb_ge in E3];
        repeat split; try lia; try discriminate; try reflexivity; intros; lia.
Qed.

End InterpolationFacts.
(* ===================================================================== *)
(** ** The loop body, file by file *)
(* ===================================================================== *)

Section RouteFacts.
Context `{JsRuntime}.
Local Open Scope result_scope.

Ltac loop_tail :=
  cbn [bindR];
  match goal with
  | |- context [(?d <? lit 0.5)%js || (?d >? lit 100)%js] =>
      destruct ((d <? lit 0.5)%js || (d >? lit 100)%js)
  end; cbn [negb]; [reflexivity |];
  match goal with
  | |- context [calculateGSDForTurbine ?e ?w ?h ?d ?s ?c] =>
      let g := fresh "g" in
      destruct (calculateGSDForTurbine e w h d s c) as [g |];
      cbn [bindR]; [| reflexivity];
      destruct ((gsd_cm_per_pixel g <? lit 0.001)%js
                || (gsd_cm_per_pixel g >? lit 50)%js);
      cbn [negb]; [reflexivity |]
  end;
  match goal with
  | |- context [getCameraSpecs ?a ?b ?e] => destruct (getCameraSpecs a b e)
  end; reflexivity.

(** The outcome of one file is that of its four external steps followed by
    the two phases of the loop body; the interpolation log has no part in
    it. *)
Lemma outcome_phases (existingImages : list (TurbineImage number)) (file : UploadedFile) :
  outcome existingImages file
  = (_ <- stored file ;;
     exifData <- exiftool file ;;
     if decide (exifData = ∅) then Throw NoExifData
     else
       imageMetadata <- dimensions file ;;
       settled <- settledDistance existingImages file exifData ;;
       imageFrom file exifData imageMetadata settled).
Proof.
  unfold outcome, processFile, settledDistance, imageFrom.
  destruct (extractBladeAndSide (file_name file) (metadata file)) as [b s].
  unfold bindS, await, ret, throw, push_log.
  destruct (stored file); [| reflexivity].
  destruct (exiftool file) as [exifData |]; [| reflexivity].
  cbn [bindR].
  destruct (decide (exifData = ∅)); [reflexivity |].
  destruct (dimensions file) as [dims |]; [| reflexivity].
  cbn [bindR].
  destruct (metadata file ≫= Upload.manualDistance) as [m |];
    [destruct (negb (Qeq_bool m 0) && Qltb 0 m);
     [destruct (n_eqb (distance (extractBladeDistance exifData)) (Num 0));
      [| reflexivity] |] |];
    cbn [bindR];
    match goal with
    | |- context [n_eqb ?d (Num 0)] => destruct (n_eqb d (Num 0))
    end;
    try (destruct (Stats.meanDistance (calculateDistanceStatistics existingImages b s)
                   >? lit 0)%js; [| reflexivity]);
    loop_tail.
Qed.

Lemma getCameraSpecs_Throw (make model : jsval) (exifData : gmap string jsval) (e : Thrown) :
  getCameraSpecs make model exifData = Throw e -> e = NotAFunction.
Proof.
  unfold getCameraSpecs.
  destruct make; cbn [toUpperCase_any bindR]; try (intros E; congruence).
  destruct model; cbn [toUpperCase_any bindR]; try (intros E; congruence).
  repeat match goal with
         | |- context [if ?c then _ else _] => destruct c
         end; discriminate.
Qed.

Lemma calculateGSDForTurbine_Ok
    (exifData : gmap string jsval) (w h d : number) (src : string) (c : Confidence)
    (g : GSDData number) :
  calculateGSDForTurbine exifData w h d src c = Ok g ->
  distance_to_blade g = d /\ distance_source g = src /\ distance_confidence g = c.
Proof.
  unfold calculateGSDForTurbine.
  destruct (getCameraSpecs _ _ exifData) as [specs |]; cbn [bindR]; [| discriminate].
  destruct (d <=? lit 0)%js; cbn [negb]; [discriminate |].
  destruct (toString_any _) as [t |]; cbn [bindR]; [| discriminate].
  intros E. injection E as <-. cbn. auto.
Qed.

Lemma calculateGSDForTurbine_Throw
    (exifData : gmap string jsval) (w h d : number) (src : string) (c : Confidence)
    (e : Thrown) :
  calculateGSDForTurbine exifData w h d src c = Throw e ->
  e = NotAFunction \/ e = InvalidDistance.
Proof.
  unfold calculateGSDForTurbine.
  destruct (getCameraSpecs _ _ exifData) as [specs |] eqn:Es; cbn [bindR].
  - destruct (d <=? lit 0)%js; cbn [negb]; [intros E; right; congruence |].
    match goal with
    | |- context [toString_any ?v] => destruct v
    end; cbn [toString_any bindR]; intros E; try discriminate; left; congruence.
  - intros E. injection E as <-. left. now apply getCameraSpecs_Throw in Es.
Qed.

(** What an image that came out of the second phase is made of. *)
Lemma imageFrom_Ok (file : UploadedFile) (exifData : gmap string jsval)
    (dims : option Q * option Q) (d : number) (src : string) (c : Confidence)
    (image : TurbineImage number) :
  imageFrom file exifData dims (d, src, c) = Ok image ->
  exists g, gsd image = Some g
    /\ distance_to_blade g = d /\ distance_source g = src /\ distance_confidence g = c
    /\ (d <? lit 0.5)%js = false /\ (d >? lit 100)%js = false
    /\ (gsd_cm_per_pixel g <? lit 0.001)%js = false
    /\ (gsd_cm_per_pixel g >? lit 50)%js = false
    /\ name image = file_name file
    /\ (blade image, side image) = extractBladeAndSide (file_name file) (metadata file).
Proof.
  unfold imageFrom.
  destruct (extractBladeAndSide (file_name file) (metadata file)) as [b s].
  destruct ((d <? lit 0.5)%js || (d >? lit 100)%js) eqn:Hd; cbn [negb]; [discriminate |].
  destruct (calculateGSDForTurbine exifData _ _ d src c) as [g |] eqn:Hg; cbn [bindR];
    [| discriminate].
  destruct ((gsd_cm_per_pixel g <? lit 0.001)%js || (gsd_cm_per_pixel g >? lit 50)%js)
    eqn:Hgsd; cbn [negb]; [discriminate |].
  destruct (getCameraSpecs _ _ exifData) as [specs |]; cbn [bindR]; [| discriminate].
  intros E. injection E as <-. cbn [gsd name blade side].
  apply calculateGSDForTurbine_Ok in Hg. destruct Hg as (G1 & G2 & G3).
  apply orb_false_iff in Hd, Hgsd. destruct Hd, Hgsd.
  exists g. repeat split; assumption.
Qed.

Lemma imageFrom_Throw (file : UploadedFile) (exifData : gmap string jsval)
    (dims : option Q * option Q) (settled : number * string * Confidence) (e : Thrown) :
  imageFrom file exifData dims settled = Throw e ->
  e <> NoDistanceAvailable /\ e <> ManualDistanceConflict /\ e <> NoExifData.
Proof.
  unfold imageFrom. destruct settled as [[d src] c].
  destruct (extractBladeAndSide (file_name file) (metadata file)) as [b s].
  destruct ((d <? lit 0.5)%js || (d >? lit 100)%js); cbn [negb];
    [intros E; injection E as <-; repeat split; discriminate |].
  destruct (calculateGSDForTurbine exifData _ _ d src c) as [g |] eqn:Hg; cbn [bindR].
  - destruct ((gsd_cm_per_pixel g <? lit 0.001)%js || (gsd_cm_per_pixel g >? lit 50)%js);
      cbn [negb]; [intros E; injection E as <-; repeat split; discriminate |].
    destruct (getCameraSpecs _ _ exifData) as [specs |] eqn:Es; cbn [bindR];
      [discriminate |].
    intros E. injection E as <-. apply getCameraSpecs_Throw in Es. subst.
    repeat split; discriminate.
  - intros E. injection E as <-. apply calculateGSDForTurbine_Throw in Hg.
    destruct Hg; subst; repeat split; discriminate.
Qed.

(** The median of the samples is one of them, hence above 0. *)
Lemma medianDistance_positive
    (images : list (TurbineImage number)) (forBlade : Blade) (forSide : Side) :
  relevantDistances images forBlade forSide <> [] ->
  n_ltb (Num 0)
    (Stats.medianDistance (calculateDistanceStatistics images forBlade forSide)) = true.
Proof.
  intros Hne. rewrite calculateDistanceStatistics_unfold.
  rewrite distanceStatisticsOf_median by exact Hne.
  set (ds := relevantDistances images forBlade forSide) in *.
  assert (Hlen : (length (numberSort ds) / 2 < length (numberSort ds))%nat).
  { rewrite numberSort_length. destruct ds; [contradiction |].
    apply Nat.div_lt; simpl; lia. }
  assert (Hin : In (nth (length (numberSort ds) / 2) (numberSort ds) NaN) ds).
  { eapply Permutation_in; [apply numberSort_Permutation |]. now apply nth_In. }
  pose proof (relevantDistances_positive images forBlade forSide) as Hall.
  rewrite List.Forall_forall in Hall. now apply Hall.
Qed.

Lemma extractBladeDistance_found_iff (exifData : gmap string jsval) :
  n_eqb (distance (extractBladeDistance exifData)) (Num 0) = true
  <-> extractBladeDistance exifData = not_found.
Proof.
  destruct (extractBladeDistance_cases exifData)
    as [E | [((q & Hq & Hlo & _) & _) | ((q & Hq & Hlo & _) & _)]].
  - rewrite E. cbn. tauto.
  - rewrite Hq. cbn [n_eqb]. split.
    + intros E. apply Qeq_bool_iff in E. lra.
    + intros E. rewrite E in Hq. cbn in Hq. injection Hq as <-. lra.
  - rewrite Hq. cbn [n_eqb]. split.
    + intros E. apply Qeq_bool_iff in E. lra.
    + intros E. rewrite E in Hq. cbn in Hq. injection Hq as <-. lra.
Qed.

(** The three origins of a settled distance. *)
Lemma settledDistance_Ok (existingImages : list (TurbineImage number))
    (file : UploadedFile) (exifData : gmap string jsval)
    (d : number) (src : string) (c : Confidence) :
  settledDistance existingImages file exifData = Ok (d, src, c) ->
  let found := extractBladeDistance exifData in
  let stats :=
    calculateDistanceStatistics existingImages
      (fst (extractBladeAndSide (file_name file) (metadata file)))
      (snd (extractBladeAndSide (file_name file) (metadata file))) in
  (exists m, metadata file ≫= Upload.manualDistance = Some m /\ 0 < m
             /\ found = not_found
             /\ d = Num m /\ src = "manual_input" /\ c = high)
  \/ (found <> not_found
      /\ d = distance found /\ src = source found /\ c = confidence found)
  \/ (found = not_found
      /\ (Stats.meanDistance stats >? lit 0)%js = true
      /\ d = Stats.medianDistance stats
      /\ src = "interpolated_from_"
                 +:+ pretty (length (Stats.validDistances stats)) +:+ "_images"
      /\ c = if Confidence_eqb (Stats.confidence stats) high then medium else low).
Proof.
  unfold settledDistance.
  destruct (extractBladeAndSide (file_name file) (metadata file)) as [b s].
  cbn [fst snd]. cbn zeta.
  pose proof (extractBladeDistance_found_iff exifData) as Hfound.
  assert (Hrest :
    (if n_eqb (distance (extractBladeDistance exifData)) (Num 0)
     then
       if (Stats.meanDistance (calculateDistanceStatistics existingImages b s) >? lit 0)%js
       then Ok (Stats.medianDistance (calculateDistanceStatistics existingImages b s),
                "interpolated_from_"
                  +:+ pretty (length (Stats.validDistances
                                        (calculateDistanceStatistics existingImages b s)))
                  +:+ "_images",
                if Confidence_eqb
                     (Stats.confidence (calculateDistanceStatistics existingImages b s)) high
                then medium else low)
       else Throw NoDistanceAvailable
     else Ok (distance (extractBladeDistance exifData),
              source (extractBladeDistance exifData),
              confidence (extractBladeDistance exifData))) = Ok (d, src, c) ->
    (extractBladeDistance exifData <> not_found
     /\ d = distance (extractBladeDistance exifData)
     /\ src = source (extractBladeDistance exifData)
     /\ c = confidence (extractBladeDistance exifData))
    \/ (extractBladeDistance exifData = not_found
        /\ (Stats.meanDistance (calculateDistanceStatistics existingImages b s) >? lit 0)%js
           = true
        /\ d = Stats.medianDistance (calculateDistanceStatistics existingImages b s)
        /\ src = "interpolated_from_"
                   +:+ pretty (length (Stats.validDistances
                                         (calculateDistanceStatistics existingImages b s)))
                   +:+ "_images"
        /\ c = if Confidence_eqb
                    (Stats.confidence (calculateDistanceStatistics existingImages b s)) high
               then medium else low)).
  { destruct (n_eqb (distance (extractBladeDistance exifData)) (Num 0)) eqn:E0.
    - destruct (Stats.meanDistance (calculateDistanceStatistics existingImages b s)
                >? lit 0)%js eqn:Em; [| discriminate].
      intros E. injection E as <- <- <-. right. repeat split. now apply Hfound.
    - intros E. injection E as <- <- <-. left. repeat split.
      intros E. apply Hfound in E. congruence. }
  destruct (metadata file ≫= Upload.manualDistance) as [m |]; cbn [bindR].
  - destruct (negb (Qeq_bool m 0) && Qltb 0 m) eqn:Hm; cbn [bindR].
    + apply andb_true_iff in Hm. destruct Hm as [_ Hm]. apply Qltb_lt in Hm.
      destruct (n_eqb (distance (extractBladeDistance exifData)) (Num 0)) eqn:E0;
        cbn [bindR]; [| discriminate].
      cbn [n_eqb]. destruct (Qeq_bool m 0) eqn:Em0;
        [apply Qeq_bool_iff in Em0; lra |].
      intros E. injection E as <- <- <-. left. exists m. repeat split; try assumption.
      now apply Hfound.
    + intros E. right. now apply Hrest.
  - intros E. right. now apply Hrest.
Qed.

Lemma settledDistance_notNaN (existingImages : list (TurbineImage number))
    (file : UploadedFile) (exifData : gmap string jsval)
    (d : number) (src : string) (c : Confidence) :
  settledDistance existingImages file exifData = Ok (d, src, c) -> isNaN d = false.
Proof.
  intros E. apply settledDistance_Ok in E. cbn zeta in E.
  destruct E as [(m & _ & _ & _ & -> & _) | [(_ & -> & _) | (_ & Hmean & -> & _)]].
  - reflexivity.
  - destruct (extractBladeDistance_distance exifData) as (q & -> & _). reflexivity.
  - match goal with
    | |- isNaN (Stats.medianDistance (calculateDistanceStatistics ?i ?b ?s)) = false =>
        assert (Hpos : n_ltb (Num 0)
                         (Stats.medianDistance (calculateDistanceStatistics i b s)) = true)
    end.
    { apply medianDistance_positive.
      now apply meanDistance_positive_samples. }
    now destruct (Stats.medianDistance _).
Qed.

(** The two errors of the first phase. *)
Lemma settledDistance_Throw (existingImages : list (TurbineImage number))
    (file : UploadedFile) (exifData : gmap string jsval) (e : Thrown) :
  settledDistance existingImages file exifData = Throw e ->
  (e = ManualDistanceConflict
   /\ extractBladeDistance exifData <> not_found
   /\ exists m, metadata file ≫= Upload.manualDistance = Some m /\ 0 < m)
  \/ (e = NoDistanceAvailable
      /\ extractBladeDistance exifData = not_found
      /\ (forall m, metadata file ≫= Upload.manualDistance = Some m -> m <= 0)
      /\ forall img, In img existingImages -> hasUsableDistance img = false).
Proof.
  unfold settledDistance.
  destruct (extractBladeAndSide (file_name file) (metadata file)) as [b s].
  cbn zeta.
  pose proof (extractBladeDistance_found_iff exifData) as Hfound.
  assert (Hrest : forall e,
    (if n_eqb (distance (extractBladeDistance exifData)) (Num 0)
     then
       if (Stats.meanDistance (calculateDistanceStatistics existingImages b s) >? lit 0)%js
       then Ok (Stats.medianDistance (calculateDistanceStatistics existingImages b s),
                "interpolated_from_"
                  +:+ pretty (length (Stats.validDistances
                                        (calculateDistanceStatistics existingImages b s)))
                  +:+ "_images",
                if Confidence_eqb
                     (Stats.confidence (calculateDistanceStatistics existingImages b s)) high
                then medium else low)
       else Throw NoDistanceAvailable
     else Ok (distance (extractBladeDistance exifData),
              source (extractBladeDistance exifData),
              confidence (extractBladeDistance exifData))) = Throw e ->
    e = NoDistanceAvailable /\ extractBladeDistance exifData = not_found
    /\ forall img, In img existingImages -> hasUsableDistance img = false).
  { intros e'.
    destruct (n_eqb (distance (extractBladeDistance exifData)) (Num 0)) eqn:E0;
      [| discriminate].
    destruct (Stats.meanDistance (calculateDistanceStatistics existingImages b s)
              >? lit 0)%js eqn:Em; [discriminate |].
    intros E. injection E as <-. split; [reflexivity |]. split; [now apply Hfound |].
    intros img Hin. destruct (hasUsableDistance img) eqn:Hu; [| reflexivity].
    assert (Hpos : (Stats.meanDistance (calculateDistanceStatistics existingImages b s)
                    >? lit 0)%js = true).
    { apply meanDistance_positive_samples, relevantDistances_nonempty. now exists img. }
    congruence. }
  destruct (metadata file ≫= Upload.manualDistance) as [m |]; cbn [bindR].
  - destruct (negb (Qeq_bool m 0) && Qltb 0 m) eqn:Hm; cbn [bindR].
    + apply andb_true_iff in Hm. destruct Hm as [_ Hm]. apply Qltb_lt in Hm.
      destruct (n_eqb (distance (extractBladeDistance exifData)) (Num 0)) eqn:E0;
        cbn [bindR].
      * cbn [n_eqb]. destruct (Qeq_bool m 0) eqn:Em0;
          [apply Qeq_bool_iff in Em0; lra | discriminate].
      * intros E. injection E as <-. left. split; [reflexivity |].
        split; [| now exists m].
        intros E. apply Hfound in E. congruence.
    + intros E. right. destruct (Hrest e E) as (He & Hf & Hu).
      repeat split; try assumption.
      intros m' Em'. injection Em' as <-.
      apply andb_false_iff in Hm. destruct Hm as [Hm | Hm].
      * apply negb_false_iff, Qeq_bool_iff in Hm. lra.
      * now apply Qltb_ge in Hm.
  - intros E. right. destruct (Hrest e E) as (He & Hf & Hu).
    repeat split; try assumption. discriminate.
Qed.

Lemma number_within (d : number) (lo hi : Q) :
  isNaN d = false -> (d <? lit lo)%js = false -> (d >? lit hi)%js = false ->
  exists q, d = Num q /\ lo <= q /\ q <= hi.
Proof.
  unfold gtb. cbn [ltb lit ArithNumber].
  destruct d as [| [] | q]; simpl; try discriminate.
  intros _ H1 H2. apply Qltb_ge in H1, H2. now exists q.
Qed.

(** X8.  Every image the loop body accepts carries a distance to the blade
    that is a rational between 0.5 and 100 (never NaN, never infinite),
    whether it was read from the metadata, given by hand or interpolated;
    its GSD has passed the two tests [< 0.001] and [> 50], so that it lies
    between 0.001 and 50 cm per pixel or is NaN.  The image carries the
    file's name and the blade and side [extractBladeAndSide] gives for the
    file. *)
Theorem processFile_accepts_plausible
    (existingImages : list (TurbineImage number)) (file : UploadedFile)
    (image : TurbineImage number) :
  outcome existingImages file = Ok image ->
  exists g, gsd image = Some g
    /\ (exists d, distance_to_blade g = Num d /\ 0.5 <= d /\ d <= 100)
    /\ (gsd_cm_per_pixel g = NaN
        \/ exists q, gsd_cm_per_pixel g = Num q /\ 0.001 <= q /\ q <= 50)
    /\ name image = file_name file
    /\ (blade image, side image) = extractBladeAndSide (file_name file) (metadata file).
Proof.
  rewrite outcome_phases.
  destruct (stored file); cbn [bindR]; [| discriminate].
  destruct (exiftool file) as [exifData |]; cbn [bindR]; [| discriminate].
  destruct (decide (exifData = ∅)); [discriminate |].
  destruct (dimensions file) as [dims |]; cbn [bindR]; [| discriminate].
  destruct (settledDistance existingImages file exifData) as [[[d src] c] |] eqn:Es;
    cbn [bindR]; [| discriminate].
  intros E. apply imageFrom_Ok in E.
  destruct E as (g & Hg & Hd & _ & _ & Hlo & Hhi & Hglo & Hghi & Hname & Hbs).
  apply settledDistance_notNaN in Es.
  exists g. split; [exact Hg |]. split; [| split; [| split; assumption]].
  - rewrite Hd. now apply number_within.
  - destruct (gsd_cm_per_pixel g) as [| s | q] eqn:Eg; [now left | |].
    + unfold gtb in Hghi. cbn [ltb lit ArithNumber n_ltb] in Hglo, Hghi.
      destruct s; discriminate.
    + right. apply (number_within (Num q)); [reflexivity | assumption | assumption].
Qed.

(** X9.  A file uploaded with a positive manual distance is refused whenever
    its metadata bag itself yields a distance: the loop body throws the
    error of the manual-distance branch (whose message says that no
    distance was found in the metadata), and the manual distance is not
    used. *)
Theorem manualDistance_conflict
    (existingImages : list (TurbineImage number)) (file : UploadedFile)
    (exifData : gmap string jsval) (dims : option Q * option Q) (m : Q) :
  stored file = Ok tt -> exiftool file = Ok exifData -> exifData <> ∅ ->
  dimensions file = Ok dims ->
  metadata file ≫= Upload.manualDistance = Some m -> 0 < m ->
  extractBladeDistance exifData <> not_found ->
  outcome existingImages file = Throw ManualDistanceConflict.
Proof.
  intros Hs He Hne Hd Hm Hpos Hfound. rewrite outcome_phases, Hs, He, Hd. cbn [bindR].
  destruct (decide (exifData = ∅)); [contradiction |].
  unfold settledDistance.
  destruct (extractBladeAndSide (file_name file) (metadata file)) as [b s].
  cbn zeta. rewrite Hm.
  assert (Hp : negb (Qeq_bool m 0) && Qltb 0 m = true).
  { apply andb_true_iff. split; [| now apply Qltb_lt].
    apply negb_true_iff. apply not_true_iff_false. intros E.
    apply Qeq_bool_iff in E. lra. }
  rewrite Hp.
  destruct (n_eqb (distance (extractBladeDistance exifData)) (Num 0)) eqn:E0;
    [apply extractBladeDistance_found_iff in E0; contradiction |].
  reflexivity.
Qed.

(** X10.  An accepted image of a file that came with a positive manual
    distance carries exactly that distance, with source "manual_input" and
    confidence [high]; the distance is between 0.5 and 100, and the file's
    metadata bag held no distance of its own. *)
Theorem manualDistance_adopted
    (existingImages : list (TurbineImage number)) (file : UploadedFile)
    (image : TurbineImage number) (m : Q) :
  metadata file ≫= Upload.manualDistance = Some m -> 0 < m ->
  outcome existingImages file = Ok image ->
  exists g exifData,
    gsd image = Some g
    /\ distance_to_blade g = Num m
    /\ distance_source g = "manual_input"
    /\ distance_confidence g = high
    /\ 0.5 <= m /\ m <= 100
    /\ exiftool file = Ok exifData
    /\ extractBladeDistance exifData = not_found.
Proof.
  intros Hm Hpos. rewrite outcome_phases.
  destruct (stored file); cbn [bindR]; [| discriminate].
  destruct (exiftool file) as [exifData |]; cbn [bindR]; [| discriminate].
  destruct (decide (exifData = ∅)); [discriminate |].
  destruct (dimensions file) as [dims |]; cbn [bindR]; [| discriminate].
  destruct (settledDistance existingImages file exifData) as [[[d src] c] |] eqn:Es;
    cbn [bindR]; [| discriminate].
  intros E. apply imageFrom_Ok in E.
  destruct E as (g & Hg & Hd & Hsrc & Hc & Hlo & Hhi & _).
  assert (Hs : d = Num m /\ src = "manual_input" /\ c = high
               /\ extractBladeDistance exifData = not_found).
  { unfold settledDistance in Es.
    destruct (extractBladeAndSide (file_name file) (metadata file)) as [b s].
    cbn zeta in Es. rewrite Hm in Es.
    assert (Hp : negb (Qeq_bool m 0) && Qltb 0 m = true).
    { apply andb_true_iff. split; [| now apply Qltb_lt].
      apply negb_true_iff. apply not_true_iff_false. intros E.
      apply Qeq_bool_iff in E. lra. }
    rewrite Hp in Es.
    destruct (n_eqb (distance (extractBladeDistance exifData)) (Num 0)) eqn:E0;
      cbn [bindR] in Es; [| discriminate].
    cbn [n_eqb] in Es.
    destruct (Qeq_bool m 0) eqn:Em0; [apply Qeq_bool_iff in Em0; lra |].
    injection Es as <- <- <-. repeat split. now apply extractBladeDistance_found_iff. }
  destruct Hs as (-> & -> & -> & Hnf).
  destruct (number_within (Num m) 0.5 100 eq_refl Hlo Hhi) as (q & Eq & Hq1 & Hq2).
  injection Eq as <-.
  exists g, exifData. repeat split; assumption.
Qed.

(** X11.  An accepted image of a file whose metadata bag yields no distance
    and that came without a positive manual distance carries the median of
    the interpolation samples, under a source that names their number, and
    a confidence that is one step below that of the statistics: [medium]
    when the statistics are of confidence [high], [low] otherwise, and so
    never [high]. *)
Theorem interpolated_distance_downgraded
    (existingImages : list (TurbineImage number)) (file : UploadedFile)
    (exifData : gmap string jsval) (image : TurbineImage number) :
  exiftool file = Ok exifData ->
  extractBladeDistance exifData = not_found ->
  (forall m, metadata file ≫= Upload.manualDistance = Some m -> m <= 0) ->
  outcome existingImages file = Ok image ->
  let stats := calculateDistanceStatistics existingImages (blade image) (side image) in
  exists g,
    gsd image = Some g
    /\ distance_to_blade g = Stats.medianDistance stats
    /\ distance_source g
       = "interpolated_from_"
           +:+ pretty (length (Stats.validDistances stats)) +:+ "_images"
    /\ distance_confidence g
       = (if Confidence_eqb (Stats.confidence stats) high then medium else low)
    /\ distance_confidence g <> high
    /\ (1 <= length (Stats.validDistances stats))%nat.
Proof.
  intros He Hnf Hm. rewrite outcome_phases, He.
  destruct (stored file); cbn [bindR]; [| discriminate].
  destruct (decide (exifData = ∅)); [discriminate |].
  destruct (dimensions file) as [dims |]; cbn [bindR]; [| discriminate].
  destruct (settledDistance existingImages file exifData) as [[[d src] c] |] eqn:Es;
    cbn [bindR]; [| discriminate].
  intros E. apply imageFrom_Ok in E.
  destruct E as (g & Hg & Hd & Hsrc & Hc & _ & _ & _ & _ & _ & Hbs).
  apply settledDistance_Ok in Es. cbn zeta in Es. rewrite <- Hbs in Es. cbn [fst snd] in Es.
  destruct Es as [(m & Em & Hpos & _) | [(Hf & _) | (_ & Hmean & -> & -> & ->)]].
  - specialize (Hm m Em). lra.
  - contradiction.
  - cbn zeta. exists g. repeat split; try assumption.
    + rewrite Hc. now destruct (Confidence_eqb _ high).
    + apply meanDistance_positive_samples in Hmean.
      rewrite calculateDistanceStatistics_unfold, distanceStatisticsOf_samples,
        numberSort_length.
      destruct (relevantDistances existingImages (blade image) (side image));
        [contradiction | simpl; lia].
Qed.

(** X12.  For a file that was stored, read and measured without failure and
    whose metadata bag is not empty, the loop body throws the error "no
    distance to blade found ... and no existing images available for
    interpolation" exactly when the bag yields no distance, no positive
    manual distance came with the file, and no existing image, of any blade
    and side, has a usable distance. *)
Theorem no_distance_available_iff
    (existingImages : list (TurbineImage number)) (file : UploadedFile)
    (exifData : gmap string jsval) (dims : option Q * option Q) :
  stored file = Ok tt -> exiftool file = Ok exifData -> exifData <> ∅ ->
  dimensions file = Ok dims ->
  (outcome existingImages file = Throw NoDistanceAvailable
   <-> extractBladeDistance exifData = not_found
       /\ (forall m, metadata file ≫= Upload.manualDistance = Some m -> m <= 0)
       /\ (forall img, In img existingImages -> hasUsableDistance img = false)).
Proof.
  intros Hs He Hne Hd. rewrite outcome_phases, Hs, He, Hd. cbn [bindR].
  destruct (decide (exifData = ∅)); [contradiction |].
  destruct (settledDistance existingImages file exifData) as [settled | e] eqn:Es;
    cbn [bindR].
  - split.
    + intros E. apply imageFrom_Throw in E. destruct E as (E & _). congruence.
    + intros (Hnf & Hm & Hu). exfalso.
      destruct settled as [[d src] c]. apply settledDistance_Ok in Es. cbn zeta in Es.
      destruct Es as [(m & Em & Hpos & _) | [(Hf & _) | (_ & Hmean & _)]].
      * specialize (Hm m Em). lra.
      * contradiction.
      * apply meanDistance_positive_samples, relevantDistances_nonempty in Hmean.
        destruct Hmean as (img & Hin & Husable).
        rewrite (Hu img Hin) in Husable. discriminate.
  - apply settledDistance_Throw in Es.
    destruct Es as [(-> & Hf & (m & Em & Hpos)) | (-> & Hf & Hm & Hu)].
    + split; [discriminate |]. intros (Hnf & _). contradiction.
    + split; [intros _ | reflexivity]. auto.
Qed.

End RouteFacts.


Lemma processFile_accepts_plausible_witness :
  exists image g,
    outcome (H := exampleRuntime) [] file_good = Ok image
    /\ gsd image = Some g
    /\ distance_to_blade g = Num 30
    /\ distance_source g = "EXIF:SubjectDistance"
    /\ name image = "T1-A-TE-001.jpg".
Proof.
  pose (r := outcome (H := exampleRuntime) [] file_good).
  assert (E : outcome (H := exampleRuntime) [] file_good = r) by reflexivity.
  vm_compute in r. subst r.
  destruct (processFile_accepts_plausible (H := exampleRuntime) [] file_good _ E)
    as (g & Hg & _ & _ & Hname & _).
  eexists. exists g. split; [exact E |]. split; [exact Hg |].
  cbn [gsd] in Hg. injection Hg as <-. repeat split.
Defined.

(** The GSD of an accepted image can be NaN: a focal-length tag that reads
    ["."] is parsed to NaN, and NaN passes both tests of the validation. *)
Example accepted_with_NaN_GSD :
  exists image g,
    outcome (H := exampleRuntime) [] file_dot_focal_length = Ok image
    /\ gsd image = Some g /\ gsd_cm_per_pixel g = NaN
    /\ distance_to_blade g = Num 30.
Proof. eexists. eexists. vm_compute. repeat split; reflexivity. Qed.

Lemma manualDistance_conflict_witness :
  metadata file_manual_conflict ≫= Upload.manualDistance = Some 25
  /\ distance (extractBladeDistance {[ "EXIF:SubjectDistance" := JStr "30" ]}) = Num 30
  /\ outcome (H := exampleRuntime) [] file_manual_conflict = Throw ManualDistanceConflict.
Proof.
  split; [reflexivity |]. split; [vm_compute; reflexivity |].
  apply (manualDistance_conflict (H := exampleRuntime) [] file_manual_conflict
           {[ "EXIF:SubjectDistance" := JStr "30" ]} (Some 5280, Some 3956) 25);
    try reflexivity.
  - apply insert_non_empty.
  - vm_compute. discriminate.
Defined.

Lemma manualDistance_adopted_witness :
  metadata file_manual ≫= Upload.manualDistance = Some 25
  /\ exists image g,
       outcome (H := exampleRuntime) [] file_manual = Ok image
       /\ gsd image = Some g
       /\ distance_to_blade g = Num 25
       /\ distance_source g = "manual_input"
       /\ distance_confidence g = high.
Proof.
  split; [reflexivity |].
  pose (r := outcome (H := exampleRuntime) [] file_manual).
  assert (E : outcome (H := exampleRuntime) [] file_manual = r) by reflexivity.
  vm_compute in r. subst r.
  assert (Hm : metadata file_manual ≫= Upload.manualDistance = Some 25) by reflexivity.
  assert (Hpos : 0 < 25) by reflexivity.
  destruct (manualDistance_adopted (H := exampleRuntime) [] file_manual _ 25 Hm Hpos E)
    as (g & exifData & Hg & Hd & Hs & Hc & _).
  eexists. exists g. split; [exact E |]. auto.
Defined.

Lemma interpolated_distance_downgraded_witness :
  extractBladeDistance {[ "EXIF:Make" := JStr "DJI" ]} = not_found
  /\ exists image g,
       outcome (H := exampleRuntime) twoAndTen file_no_distance = Ok image
       /\ gsd image = Some g
       /\ distance_to_blade g = Num 30
       /\ distance_source g = "interpolated_from_12_images"
       /\ distance_confidence g = low.
Proof.
  assert (Hnf : extractBladeDistance {[ "EXIF:Make" := JStr "DJI" ]} = not_found)
    by (vm_compute; reflexivity).
  split; [exact Hnf |].
  pose (r := outcome (H := exampleRuntime) twoAndTen file_no_distance).
  assert (E : outcome (H := exampleRuntime) twoAndTen file_no_distance = r) by reflexivity.
  vm_compute in r. subst r.
  assert (He : exiftool file_no_distance = Ok {[ "EXIF:Make" := JStr "DJI" ]})
    by reflexivity.
  assert (Hm : forall m, metadata file_no_distance ≫= Upload.manualDistance = Some m
                         -> m <= 0) by discriminate.
  destruct (interpolated_distance_downgraded (H := exampleRuntime) twoAndTen
              file_no_distance _ _ He Hnf Hm E) as (g & Hg & Hd & Hs & Hc & _).
  eexists. exists g. split; [exact E |]. split; [exact Hg |].
  cbn [gsd] in Hg. injection Hg as <-. repeat split.
Defined.

Lemma no_distance_available_iff_witness :
  extractBladeDistance {[ "EXIF:Make" := JStr "DJI" ]} = not_found
  /\ outcome (H := exampleRuntime) [] file_no_distance = Throw NoDistanceAvailable.
Proof.
  assert (Hnf : extractBladeDistance {[ "EXIF:Make" := JStr "DJI" ]} = not_found)
    by (vm_compute; reflexivity).
  split; [exact Hnf |].
  apply (no_distance_available_iff (H := exampleRuntime) [] file_no_distance
           {[ "EXIF:Make" := JStr "DJI" ]} (Some 5280, Some 3956));
    try reflexivity.
  - apply insert_non_empty.
  - split; [exact Hnf |]. split; [discriminate | intros img []].
Defined.

(* ===================================================================== *)
(** ** Blade metrics and positions, whatever the images *)
(* ===================================================================== *)

Lemma no_positiveAltitudes (images : list (TurbineImage Q)) :
  positiveAltitudes images = [] -> length (sortedAltitudes images) = 0%nat.
Proof. intros E. now rewrite sortedAltitudes_Q, Qsort_length, E. Qed.

Lemma sortedAltitudes_bounds (images : list (TurbineImage Q)) :
  positiveAltitudes images <> [] ->
  let altitudes := sortedAltitudes images in
  0 < nth 0 altitudes 0
  /\ nth 0 altitudes 0 <= nth (length altitudes - 1) altitudes 0.
Proof.
  intros Hp altitudes. subst altitudes. rewrite sortedAltitudes_Q.
  assert (Hne : Qsort (positiveAltitudes images) <> []) by now apply Qsort_nonempty.
  pose proof (nth_first_In (Qsort (positiveAltitudes images)) 0 Hne) as Hfirst.
  split.
  - apply (proj1 (Qsort_In _ _)) in Hfirst. unfold positiveAltitudes in Hfirst.
    apply List.filter_In in Hfirst. destruct Hfirst as [_ Hfirst].
    now apply Qltb_lt in Hfirst.
  - apply sorted_last_ge; [apply Qsort_sorted | exact Hfirst].
Qed.

Lemma calculateBladeMetrics_totalImages (images : list (TurbineImage Q)) (ppm : Q) :
  totalImages (calculateBladeMetrics images ppm) = length images.
Proof.
  unfold calculateBladeMetrics.
  destruct (Nat.eqb_spec (length images) 0) as [E | _]; [now rewrite E |].
  now destruct (Nat.eqb (length (sortedAltitudes images)) 0).
Qed.

(** X13.  The metrics of [calculateBladeMetrics] keep, whatever the images:
    [totalImages] is the number of images given, positive altitudes or not;
    the minimum altitude is at most the maximum; [lengthMeters] and
    [altitudeRange] are their difference, which is not negative; and the
    average spacing lies between 0 and that range.  When no image has a
    positive altitude every length and altitude is 0, [lengthPixels]
    included, which is then outside of its range of 200 to 500. *)
Theorem calculateBladeMetrics_invariants (images : list (TurbineImage Q)) (ppm : Q) :
  let m := calculateBladeMetrics images ppm in
  totalImages m = length images
  /\ pixelsPerMeter m = ppm
  /\ 0 <= minAltitude m /\ minAltitude m <= maxAltitude m
  /\ lengthMeters m = altitudeRange m
  /\ altitudeRange m == maxAltitude m - minAltitude m
  /\ 0 <= averageSpacing m /\ averageSpacing m <= altitudeRange m
  /\ (positiveAltitudes images = [] ->
      lengthMeters m = 0 /\ lengthPixels m = 0
      /\ minAltitude m = 0 /\ maxAltitude m = 0 /\ averageSpacing m = 0).
Proof.
  cbn zeta.
  destruct (positiveAltitudes images) as [| a l] eqn:Hp.
  - unfold calculateBladeMetrics. rewrite (no_positiveAltitudes images Hp).
    destruct (Nat.eqb_spec (length images) 0) as [E | _];
      cbn; rewrite ?E; repeat split; try lra; reflexivity.
  - assert (Hne : positiveAltitudes images <> []) by (rewrite Hp; discriminate).
    rewrite (calculateBladeMetrics_main images ppm Hne). cbn zeta.
    destruct (sortedAltitudes_bounds images Hne) as [Hlo Hhi]. cbn zeta in Hlo, Hhi.
    cbn [totalImages pixelsPerMeter minAltitude maxAltitude lengthMeters altitudeRange
         averageSpacing].
    set (lo := nth 0 (sortedAltitudes images) 0) in *.
    set (hi := nth (length (sortedAltitudes images) - 1) (sortedAltitudes images) 0) in *.
    repeat split; try lra; try reflexivity; try discriminate.
    + destruct (Nat.ltb_spec 1 (length (sortedAltitudes images))) as [Hn | _]; [| lra].
      apply Qle_shift_div_l; [| lra].
      change 0 with (inject_Z 0). rewrite <- Zlt_Qlt. lia.
    + destruct (Nat.ltb_spec 1 (length (sortedAltitudes images))) as [Hn | _]; [| lra].
      apply Qle_shift_div_r.
      * change 0 with (inject_Z 0). rewrite <- Zlt_Qlt. lia.
      * assert (H1 : 1 <= inject_Z (Z.of_nat (length (sortedAltitudes images) - 1))).
        { change 1 with (inject_Z 1). rewrite <- Zle_Qle. lia. }
        nra.
Qed.

(** X14.  Unlike [relativePosition], the [positionPixels] of an image is
    clamped: whatever the image and the metrics it is at least 4, and at
    most [lengthPixels - 4] as soon as [lengthPixels] is 8 or more, which
    is the case of the metrics of any set with a positive altitude; there
    it lies between 4 and 496. *)
Theorem positionPixels_clamped
    (image : TurbineImage Q) (metrics : BladeMetrics Q)
    (images : list (TurbineImage Q)) (ppm : Q) :
  let p := calculateImagePosition image metrics in
  4 <= positionPixels p
  /\ (8 <= lengthPixels metrics -> positionPixels p <= lengthPixels metrics - 4)
  /\ (positiveAltitudes images <> [] ->
      let q := calculateImagePosition image (calculateBladeMetrics images ppm) in
      4 <= positionPixels q /\ positionPixels q <= 496).
Proof.
  assert (Hclamp : forall track x, 4 <= Qmax 4 (Qmin (track - 4) x)
                                   /\ (8 <= track -> Qmax 4 (Qmin (track - 4) x) <= track - 4)).
  { intros track x. split; [apply Q.le_max_l |].
    intros Htrack. apply Q.max_lub; [lra | apply Q.le_min_l]. }
  cbn zeta. unfold calculateImagePosition.
  cbn [positionPixels Math_max Math_min lit sub ArithQ].
  split; [apply Hclamp |]. split; [apply Hclamp |].
  intros Hp. rewrite (calculateBladeMetrics_main images ppm Hp). cbn zeta.
  cbn [lengthPixels].
  match goal with
  | |- context [Qmax 200 (Qmin 500 ?x)] =>
      assert (Hlo : 200 <= Qmax 200 (Qmin 500 x)) by apply Q.le_max_l;
      assert (Hhi : Qmax 200 (Qmin 500 x) <= 500)
        by (apply Q.max_lub; [lra | apply Q.le_min_l]);
      set (track := Qmax 200 (Qmin 500 x)) in *
  end.
  split; [apply Hclamp |].
  eapply Qle_trans; [apply Hclamp; lra | lra].
Qed.

(* ===================================================================== *)
(** ** Coverage: bins, gaps and the quality score *)
(* ===================================================================== *)

(** With at least one positive altitude [getBladeCoverage] takes its last
    branch. *)
Lemma getBladeCoverage_main (images : list (TurbineImage Q)) :
  positiveAltitudes images <> [] ->
  let altitudes := sortedAltitudes images in
  let lo := nth 0 altitudes 0 in
  let hi := nth (length altitudes - 1) altitudes 0 in
  let found :=
    if Nat.ltb 1 (length altitudes)
    then findGaps (((hi - lo) / inject_Z (Z.of_nat (length altitudes - 1))) * 2.5) altitudes
    else [] in
  let penalty :=
    if Qltb 0 (hi - lo) then (totalGapSizeOf found / (hi - lo)) * 50 else 0 in
  let density :=
    if Qltb 0 (hi - lo) then inject_Z (Z.of_nat (length altitudes)) / (hi - lo) else 0 in
  let score1 := 100 - penalty in
  let score2 := if Qltb density 0.1 then score1 - 30 else score1 in
  let score3 := if Nat.leb 20 (length altitudes) then score2 + 10 else score2 in
  gaps (getBladeCoverage images) = found
  /\ qualityScore (getBladeCoverage images) = Qmax 0 (Qmin 100 score3)
  /\ totalCoverage (getBladeCoverage images) = (if Qltb 0 (hi - lo) then 100 else 0).
Proof.
  intros Hp. unfold getBladeCoverage.
  destruct (Nat.eqb_spec (length images) 0) as [E | _].
  { apply length_zero_iff_nil in E. now apply positiveAltitudes_images in Hp. }
  destruct (Nat.eqb_spec (length (sortedAltitudes images)) 0) as [E | _].
  { now apply sortedAltitudes_nonempty in Hp. }
  repeat split.
Qed.

Lemma totalGapSizeOf_from (l : list (Gap Q)) (acc : Q) :
  fold_left (fun sum gap => sum + gap_size gap) l acc == acc + totalGapSizeOf l.
Proof.
  unfold totalGapSizeOf. revert acc. induction l as [| g l IH]; intros acc; simpl.
  - lra.
  - rewrite IH, (IH (0 + gap_size g)). lra.
Qed.

Lemma totalGapSizeOf_app (l1 l2 : list (Gap Q)) :
  totalGapSizeOf (l1 ++ l2) == totalGapSizeOf l1 + totalGapSizeOf l2.
Proof.
  unfold totalGapSizeOf at 1. rewrite fold_left_app, totalGapSizeOf_from.
  fold (totalGapSizeOf l1). lra.
Qed.

(** The gaps found in a sorted list, for a threshold that is not negative:
    each one lies between two consecutive entries, is wider than the
    threshold, and together they are no wider than the list. *)
Lemma findGaps_sorted (threshold : Q) (l : list Q) (hi : Q) :
  0 <= threshold -> StronglySorted Qle l -> (forall x, In x l -> x <= hi) ->
  (forall gap, In gap (findGaps threshold l) ->
     gap_size gap = gap_end gap - gap_start gap
     /\ threshold < gap_size gap
     /\ In (gap_start gap) l /\ In (gap_end gap) l)
  /\ 0 <= totalGapSizeOf (findGaps threshold l)
  /\ totalGapSizeOf (findGaps threshold l) <= hi - nth 0 l hi.
Proof.
  intros Ht Hs Hhi. induction l as [| prev l IH].
  - simpl. repeat split; try contradiction; unfold totalGapSizeOf; simpl; lra.
  - destruct l as [| cur rest].
    + simpl. repeat split; try contradiction; unfold totalGapSizeOf; simpl; try lra.
      specialize (Hhi prev (or_introl eq_refl)). lra.
    + inversion Hs as [| ? ? Hs' Hall]; subst.
      destruct IH as (IHg & IH0 & IHsum); [exact Hs' | intros x Hx; apply Hhi; now right |].
      assert (Hpc : prev <= cur) by (inversion Hall; assumption).
      change (findGaps threshold (prev :: cur :: rest))
        with ((if ((cur - prev)%js >? threshold)%js
               then [{| gap_start := prev; gap_end := cur; gap_size := (cur - prev)%js |}]
               else []) ++ findGaps threshold (cur :: rest)).
      unfold gtb. cbn [ltb sub ArithQ]. cbn [nth] in *.
      case_Qltb threshold (cur - prev).
      * assert (Hone : totalGapSizeOf
                         [{| gap_start := prev; gap_end := cur; gap_size := cur - prev |}]
                       == cur - prev) by (unfold totalGapSizeOf; simpl; lra).
        split; [| rewrite totalGapSizeOf_app, Hone; split; lra].
        intros gap [<- | Hin]; cbn [gap_size gap_start gap_end].
        -- repeat split; try assumption; simpl; auto.
        -- destruct (IHg gap Hin) as (G1 & G2 & G3 & G4).
           repeat split; try assumption; now right.
      * cbn [app]. split; [| split; lra].
        intros gap Hin. destruct (IHg gap Hin) as (G1 & G2 & G3 & G4).
        repeat split; try assumption; now right.
Qed.

(** X15.  Read in exact arithmetic: for every set of images with a
    positive altitude, the gaps [getBladeCoverage] reports lie between two
    of the positive altitudes, have a positive size that is the difference
    of their two ends, and sum up to no more than the altitude range; the
    quality score is therefore between 20 and 100, and the lower clamp at 0
    never acts.  For a set without a positive altitude the score is 0.
    In binary64 each gap size and the range are rounded, and neither bound
    survives the rounding: for eight images at the altitudes 0.4 (three of
    them), 44 (three) and 90.2 (two) the two gaps, 43.600000000000001 and
    46.200000000000003, add up to 89.800000000000011, above the range
    89.799999999999997, and the score is 19.999999999999986. *)
Theorem getBladeCoverage_qualityScore (images : list (TurbineImage Q)) :
  let c := getBladeCoverage images in
  let images64 : list (TurbineImage float) :=
    List.map imageAt [0.4; 0.4; 0.4; 44; 44; 44; 90.2; 90.2] in
  let c64 := getBladeCoverage images64 in
  (positiveAltitudes images = [] ->
   qualityScore c = 0 /\ totalCoverage c = 0 /\ gaps c = [] /\ densityMap c = [])
  /\ (positiveAltitudes images <> [] ->
      (forall gap, In gap (gaps c) ->
         gap_size gap = gap_end gap - gap_start gap /\ 0 < gap_size gap
         /\ In (gap_start gap) (positiveAltitudes images)
         /\ In (gap_end gap) (positiveAltitudes images))
      /\ totalGapSizeOf (gaps c)
         <= maxAltitude (calculateBladeMetrics_default images)
            - minAltitude (calculateBladeMetrics_default images)
      /\ 20 <= qualityScore c /\ qualityScore c <= 100)
  /\ ((maxAltitude (calculateBladeMetrics_default images64)
       - minAltitude (calculateBladeMetrics_default images64)
       <? fold_left (fun sum gap => sum + gap_size gap) (gaps c64) (lit 0))%js = true
      /\ (qualityScore c64 <? lit 20)%js = true
      /\ (lit 19.9999 <? qualityScore c64)%js = true).
Proof.
  cbn zeta. split; [| split; [| vm_compute; repeat split]].
  - intros Hp. unfold getBladeCoverage. rewrite (no_positiveAltitudes images Hp).
    destruct (Nat.eqb (length images) 0); cbn; repeat split.
  - intros Hp.
    destruct (getBladeCoverage_main images Hp) as (Hgaps & Hscore & _).
    cbn zeta in Hgaps, Hscore. rewrite Hgaps, Hscore.
    unfold calculateBladeMetrics_default.
    rewrite (calculateBladeMetrics_main images (lit 3) Hp). cbn zeta.
    cbn [maxAltitude minAltitude].
    destruct (sortedAltitudes_bounds images Hp) as [Hlo Hhi]. cbn zeta in Hlo, Hhi.
    assert (Hsorted : StronglySorted Qle (sortedAltitudes images))
      by (rewrite sortedAltitudes_Q; apply Qsort_sorted).
    assert (Hle : forall x, In x (sortedAltitudes images) ->
                  x <= nth (length (sortedAltitudes images) - 1) (sortedAltitudes images) 0)
      by (intros x Hx; now apply sorted_last_ge).
    assert (Hin : forall x, In x (sortedAltitudes images) -> In x (positiveAltitudes images))
      by (intros x Hx; rewrite sortedAltitudes_Q in Hx; now apply (proj1 (Qsort_In _ _)) in Hx).
    set (altitudes := sortedAltitudes images) in *.
    set (lo := nth 0 altitudes 0) in *.
    set (hi := nth (length altitudes - 1) altitudes 0) in *.
    set (threshold := ((hi - lo) / inject_Z (Z.of_nat (length altitudes - 1))) * 2.5).
    assert (Hfacts :
      (forall gap,
         In gap (if Nat.ltb 1 (length altitudes) then findGaps threshold altitudes else []) ->
         gap_size gap = gap_end gap - gap_start gap /\ 0 < gap_size gap
         /\ In (gap_start gap) (positiveAltitudes images)
         /\ In (gap_end gap) (positiveAltitudes images))
      /\ 0 <= totalGapSizeOf
                (if Nat.ltb 1 (length altitudes) then findGaps threshold altitudes else [])
      /\ totalGapSizeOf
           (if Nat.ltb 1 (length altitudes) then findGaps threshold altitudes else [])
         <= hi - lo).
    { destruct (Nat.ltb_spec 1 (length altitudes)) as [Hn | _].
      - assert (Ht : 0 <= threshold).
        { unfold threshold.
          assert (0 <= (hi - lo) / inject_Z (Z.of_nat (length altitudes - 1))); [| lra].
          apply Qle_shift_div_l; [| lra].
          change 0 with (inject_Z 0). rewrite <- Zlt_Qlt. lia. }
        destruct (findGaps_sorted threshold altitudes hi Ht Hsorted Hle) as (Hg & H0 & Hsum).
        split; [| split; [exact H0 |]].
        + intros gap Hgap. destruct (Hg gap Hgap) as (G1 & G2 & G3 & G4).
          repeat split; auto. lra.
        + replace (nth 0 altitudes hi) with lo in Hsum; [exact Hsum |].
          subst lo. destruct altitudes; [simpl in Hn; lia | reflexivity].
      - unfold totalGapSizeOf. simpl. repeat split; try contradiction; lra. }
    destruct Hfacts as (Hg & H0 & Hsum).
    set (found := if Nat.ltb 1 (length altitudes) then findGaps threshold altitudes else [])
      in *.
    split; [exact Hg |]. split; [exact Hsum |].
    assert (Hpen : 0 <= (if Qltb 0 (hi - lo)
                         then (totalGapSizeOf found / (hi - lo)) * 50 else 0)
                   /\ (if Qltb 0 (hi - lo)
                       then (totalGapSizeOf found / (hi - lo)) * 50 else 0) <= 50).
    { case_Qltb 0 (hi - lo); [| split; lra].
      assert (0 <= totalGapSizeOf found / (hi - lo))
        by (apply Qle_shift_div_l; [exact E | lra]).
      assert (totalGapSizeOf found / (hi - lo) <= 1)
        by (apply Qle_shift_div_r; [exact E | lra]).
      split; lra. }
    set (penalty := if Qltb 0 (hi - lo)
                    then (totalGapSizeOf found / (hi - lo)) * 50 else 0) in *.
    destruct Hpen as [Hp0 Hp50].
    match goal with
    | |- context [Qmax 0 (Qmin 100 ?x)] =>
        assert (Hx : 20 <= x);
        [| set (score := x) in *;
           split; [apply Q.max_le_iff; right; apply Q.min_glb; lra
                  | apply Q.max_lub; [lra | apply Q.le_min_l]]]
    end.
    destruct (Nat.leb 20 (length altitudes));
      match goal with
      | |- context [if Qltb ?d 0.1 then _ else _] => destruct (Qltb d 0.1)
      end; lra.
Qed.



(** X17.  For every set of images with a positive altitude the density map
    of [getBladeCoverage] has [min(20, max(5, floor(n / 2)))] bins, [n]
    being the number of positive altitudes: never fewer than 5 and never
    more than 20, even for a single image.  When all positive altitudes are
    equal, as they are for a single image, the bins have no width and every
    one of them counts no image. *)
Theorem densityMap_bins (images : list (TurbineImage Q)) :
  positiveAltitudes images <> [] ->
  let bins := densityMap (getBladeCoverage images) in
  let n := length (positiveAltitudes images) in
  length bins = Nat.min 20 (Nat.max 5 (n / 2))
  /\ (5 <= length bins)%nat /\ (length bins <= 20)%nat
  /\ ((forall a b, In a (positiveAltitudes images) -> In b (positiveAltitudes images) ->
       a == b) ->
      forall bin, In bin bins -> imageCount bin = 0%nat).
Proof.
  intros Hp. cbn zeta.
  rewrite (getBladeCoverage_densityMap images Hp). cbn zeta.
  rewrite List.length_map, List.length_seq.
  assert (Hcount : binCountOf (sortedAltitudes images)
                   = Nat.min 20 (Nat.max 5 (length (positiveAltitudes images) / 2)))
    by (unfold binCountOf; now rewrite sortedAltitudes_Q, Qsort_length).
  split; [exact Hcount |]. split; [rewrite Hcount; lia |]. split; [rewrite Hcount; lia |].
  intros Heq bin Hbin. apply List.in_map_iff in Hbin.
  destruct Hbin as (i & <- & _). cbn [imageCount densityBin].
  rewrite sortedAltitudes_Q.
  set (altitudes := Qsort (positiveAltitudes images)).
  set (lo := nth 0 altitudes 0).
  set (hi := nth (length altitudes - 1) altitudes 0).
  assert (Hne : altitudes <> []) by now apply Qsort_nonempty.
  assert (Hlohi : hi == lo).
  { apply Heq; apply (proj1 (Qsort_In _ _));
      [apply nth_last_In | apply nth_first_In]; exact Hne. }
  rewrite (filter_length_ext _ (fun _ => false)).
  - clear. induction altitudes; simpl; auto.
  - intros alt _. apply not_true_iff_false. intros Hin.
    apply inBin_spec in Hin. rewrite binEnd_Q, binStart_Q in Hin.
    assert (Hsize : (hi - lo) / inject_Z (Z.of_nat (binCountOf altitudes)) == 0)
      by (rewrite Hlohi; unfold Qdiv; ring).
    rewrite Hsize in Hin. lra.
Qed.

Lemma densityMap_bins_witness :
  positiveAltitudes (N := Q) [imageAt 30] <> []
  /\ List.map imageCount (densityMap (getBladeCoverage (N := Q) [imageAt 30]))
     = [0; 0; 0; 0; 0]%nat.
Proof.
  assert (Hp : positiveAltitudes (N := Q) [imageAt 30] <> []) by (vm_compute; discriminate).
  split; [exact Hp |].
  destruct (densityMap_bins [imageAt 30] Hp) as (_ & _ & _ & Hempty).
  cbn zeta in Hempty.
  assert (Hall : forall bin,
            In bin (densityMap (getBladeCoverage (N := Q) [imageAt 30])) ->
            imageCount bin = 0%nat).
  { apply Hempty. intros a b Ha Hb. vm_compute in Ha, Hb.
    destruct Ha as [<- | []]. destruct Hb as [<- | []]. reflexivity. }
  clear Hempty.
  assert (Hlen : length (densityMap (getBladeCoverage (N := Q) [imageAt 30])) = 5%nat)
    by (vm_compute; reflexivity).
  destruct (densityMap (getBladeCoverage (N := Q) [imageAt 30]))
    as [| b1 [| b2 [| b3 [| b4 [| b5 [| b6 l]]]]]]; try discriminate.
  cbn [List.map]. 
  rewrite (Hall b1), (Hall b2), (Hall b3), (Hall b4), (Hall b5); simpl; auto 10.
Defined.
(* ===================================================================== *)
(** ** Ruler intervals *)
(* ===================================================================== *)

(** The effective GSD and the three intervals [calculateRulerIntervals]
    chooses for it. *)
Lemma calculateRulerIntervals_Q (gsdCmPerPixel zoom scaleFactor : Q) :
  let e := gsdCmPerPixel / (scaleFactor * zoom) in
  let chosen :=
    if Qltb 100 e then (500, 1000, 250)
    else if Qltb 50 e then (100, 500, 50)
    else if Qltb 20 e then (50, 200, 25)
    else if Qltb 10 e then (20, 100, 10)
    else if Qltb 5 e then (10, 50, 5)
    else if Qltb 1 e then (5, 20, 2)
    else (1, 10, 0.5) in
  calculateRulerIntervals gsdCmPerPixel zoom scaleFactor
  = {| rulerIntervalCm := fst (fst chosen);
       majorIntervalCm := snd (fst chosen);
       minorIntervalCm := snd chosen;
       rulerIntervalPx := fst (fst chosen) / e;
       majorIntervalPx := snd (fst chosen) / e;
       minorIntervalPx := snd chosen / e;
       effectiveGsdCmPerPixel := e |}.
Proof.
  cbn zeta. unfold calculateRulerIntervals, gtb. cbn [ltb lit div mul ArithQ].
  repeat match goal with
         | |- context [if Qltb ?a ?b then _ else _] => destruct (Qltb a b)
         end; reflexivity.
Qed.

(** X18.  Whatever the GSD, the zoom and the scale factor, the three
    intervals [calculateRulerIntervals] chooses are ordered: the minor one
    is positive and below the ruler interval, which is below the major one.
    When the effective GSD is positive the same order holds of the three
    intervals in pixels, and each of them times the effective GSD gives the
    interval in cm back. *)
Theorem calculateRulerIntervals_ordered (gsdCmPerPixel zoom scaleFactor : Q) :
  let r := calculateRulerIntervals gsdCmPerPixel zoom scaleFactor in
  (0 < minorIntervalCm r /\ minorIntervalCm r < rulerIntervalCm r
   /\ rulerIntervalCm r < majorIntervalCm r)
  /\ (0 < effectiveGsdCmPerPixel r ->
      0 < minorIntervalPx r /\ minorIntervalPx r < rulerIntervalPx r
      /\ rulerIntervalPx r < majorIntervalPx r
      /\ minorIntervalPx r * effectiveGsdCmPerPixel r == minorIntervalCm r
      /\ rulerIntervalPx r * effectiveGsdCmPerPixel r == rulerIntervalCm r
      /\ majorIntervalPx r * effectiveGsdCmPerPixel r == majorIntervalCm r).
Proof.
  cbn zeta. rewrite calculateRulerIntervals_Q. cbn zeta.
  set (e := gsdCmPerPixel / (scaleFactor * zoom)).
  cbn [rulerIntervalCm majorIntervalCm minorIntervalCm rulerIntervalPx majorIntervalPx
       minorIntervalPx effectiveGsdCmPerPixel].
  assert (Hdiv : forall a b, 0 < e -> a < b -> a / e < b / e).
  { intros a b He Hab. apply Qlt_shift_div_l; [exact He |].
    unfold Qdiv. rewrite <- Qmult_assoc, (Qmult_comm (/ e)), Qmult_inv_r; lra. }
  assert (Hback : forall a, 0 < e -> (a / e) * e == a)
    by (intros a He; field; lra).
  repeat match goal with
         | |- context [if Qltb ?a ?b then _ else _] => destruct (Qltb a b)
         end; cbn [fst snd];
    (split; [repeat split; reflexivity |]);
    intros He; repeat split; try (apply Hdiv; [exact He | reflexivity]);
    try (apply Hback; exact He);
    try (apply Qlt_shift_div_l; [exact He | lra]).
Qed.

(** X19.  For a positive effective GSD the ruler interval is never thinner
    than one pixel as long as the effective GSD is at most 100 cm per
    pixel, and it is thinner than five pixels as soon as the effective GSD
    exceeds 1 cm per pixel. *)
Theorem rulerIntervalPx_bounds (gsdCmPerPixel zoom scaleFactor : Q) :
  let r := calculateRulerIntervals gsdCmPerPixel zoom scaleFactor in
  0 < effectiveGsdCmPerPixel r ->
  (effectiveGsdCmPerPixel r <= 100 -> 1 <= rulerIntervalPx r)
  /\ (1 < effectiveGsdCmPerPixel r -> rulerIntervalPx r < 5).
Proof.
  cbn zeta. rewrite calculateRulerIntervals_Q. cbn zeta.
  set (e := gsdCmPerPixel / (scaleFactor * zoom)).
  cbn [rulerIntervalPx effectiveGsdCmPerPixel].
  intros He.
  repeat match goal with
         | |- context [if Qltb ?a ?b then _ else _] => case_Qltb a b
         end; cbn [fst snd]; split; intros Hb;
    try lra;
    first [ apply Qle_shift_div_l; [exact He | lra]
          | apply Qlt_shift_div_r; [exact He | lra] ].
Qed.

Lemma rulerIntervalPx_bounds_witness :
  0 < effectiveGsdCmPerPixel (calculateRulerIntervals (N := Q) 0.8 2 1)
  /\ rulerIntervalPx (calculateRulerIntervals (N := Q) 0.8 2 1) == 2.5
  /\ 1 <= rulerIntervalPx (calculateRulerIntervals (N := Q) 0.8 2 1).
Proof.
  assert (He : 0 < effectiveGsdCmPerPixel (calculateRulerIntervals (N := Q) 0.8 2 1))
    by reflexivity.
  split; [exact He |]. split; [reflexivity |].
  apply (rulerIntervalPx_bounds 0.8 2 1 He). vm_compute. discriminate.
Defined.
(* ===================================================================== *)
(** ** The closest image *)
(* ===================================================================== *)

Lemma nth_error_app_here {A} (pre suf : list A) (x : A) :
  nth_error (pre ++ x :: suf) (length pre) = Some x.
Proof. induction pre; simpl; auto. Qed.

(** The loop of [findClosestImageToAltitude], from the image of index
    [length pre] on. *)
Lemma findClosest_loop (target : Q) (suf pre : list (TurbineImage Q)) (c : Closest.t) :
  closestAmong (pre ++ suf) target (length pre) c ->
  closestAmong (pre ++ suf) target (length (pre ++ suf))
    (fold_left
       (fun closest '(index, img) =>
          let altitude := altitudeOrZero img in
          let distance := Qabs (altitude - target) in
          if Qltb distance (Closest.distance closest)
          then {| Closest.image := img; Closest.index := index;
                  Closest.distance := distance |}
          else closest)
       (combine (seq (length pre) (length suf)) suf) c).
Proof.
  revert pre c. induction suf as [| img suf IH]; intros pre c Hc.
  - simpl. now rewrite List.app_nil_r in *.
  - cbn [length seq combine fold_left].
    replace (pre ++ img :: suf) with ((pre ++ [img]) ++ suf) in *
      by (now rewrite <- List.app_assoc).
    replace (S (length pre)) with (length (pre ++ [img]))
      by (rewrite List.length_app; simpl; lia).
    apply IH.
    assert (Hhere : nth_error ((pre ++ [img]) ++ suf) (length pre) = Some img)
      by (rewrite <- List.app_assoc; apply nth_error_app_here).
    destruct Hc as (Hnth & Hdist & Hmin & Hfirst).
    cbn zeta.
    case_Qltb (Qabs (altitudeOrZero img - target)) (Closest.distance c).
    + unfold closestAmong. cbn [Closest.image Closest.index Closest.distance].
      split; [exact Hhere |]. split; [reflexivity |]. split.
      * intros j img' Hj Hj'. rewrite List.length_app in Hj. simpl in Hj.
        destruct (Nat.eq_dec j (length pre)) as [-> | Hne].
        -- rewrite Hhere in Hj'. injection Hj' as <-. lra.
        -- specialize (Hmin j img' ltac:(lia) Hj'). lra.
      * intros j img' Hj Hj'. specialize (Hmin j img' Hj Hj'). lra.
    + unfold closestAmong. split; [exact Hnth |]. split; [exact Hdist |]. split.
      * intros j img' Hj Hj'. rewrite List.length_app in Hj. simpl in Hj.
        destruct (Nat.eq_dec j (length pre)) as [-> | Hne].
        -- rewrite Hhere in Hj'. injection Hj' as <-. exact E.
        -- apply (Hmin j img'); [lia | exact Hj'].
      * exact Hfirst.
Qed.

(** Of a list that is not empty the function answers, with the closest of
    all its images. *)
Lemma findClosestImageToAltitude_Some
    (images : list (TurbineImage Q)) (targetAltitude : Q) :
  images <> [] ->
  exists r, findClosestImageToAltitude images targetAltitude = Some r
            /\ closestAmong images targetAltitude (length images) r
            /\ (Closest.index r < length images)%nat.
Proof.
  intros Hne. destruct images as [| first rest]; [contradiction |].
  unfold findClosestImageToAltitude. eexists. split; [reflexivity |].
  pose proof (findClosest_loop targetAltitude (first :: rest) []
                {| Closest.image := first; Closest.index := 0;
                   Closest.distance := Qabs (altitudeOrZero first - targetAltitude) |})
    as Hloop.
  cbn [app] in Hloop. change (length (@nil (TurbineImage Q))) with 0%nat in Hloop.
  assert (Hc : closestAmong (first :: rest) targetAltitude (length (first :: rest))
                 (fold_left
                    (fun closest '(index, img) =>
                       let altitude := altitudeOrZero img in
                       let distance := Qabs (altitude - targetAltitude) in
                       if Qltb distance (Closest.distance closest)
                       then {| Closest.image := img; Closest.index := index;
                               Closest.distance := distance |}
                       else closest)
                    (combine (seq 0 (length (first :: rest))) (first :: rest))
                    {| Closest.image := first; Closest.index := 0;
                       Closest.distance := Qabs (altitudeOrZero first - targetAltitude) |})).
  { apply Hloop. unfold closestAmong.
    cbn [Closest.image Closest.index Closest.distance].
    repeat split; try reflexivity; intros; lia. }
  split; [exact Hc |].
  destruct Hc as (Hnth & _). apply nth_error_Some. intros E.
  discriminate (eq_trans (eq_sym Hnth) E).
Qed.

(** X20.  [findClosestImageToAltitude] answers null only of an empty list.
    Of any other it answers with an image of the list together with its
    index and its distance to the target altitude (an image without
    altitude counting as at altitude 0): no image of the list is closer to
    the target, and every image before it in the list is strictly farther,
    so that of several closest images the first one is chosen. *)
Theorem findClosestImageToAltitude_closest
    (images : list (TurbineImage Q)) (targetAltitude : Q) :
  match findClosestImageToAltitude images targetAltitude with
  | None => images = []
  | Some r =>
      (Closest.index r < length images)%nat
      /\ nth_error images (Closest.index r) = Some (Closest.image r)
      /\ Closest.distance r
         = Qabs (altitudeOrZero (Closest.image r) - targetAltitude)
      /\ (forall img, In img images ->
            Closest.distance r <= Qabs (altitudeOrZero img - targetAltitude))
      /\ (forall j img, (j < Closest.index r)%nat -> nth_error images j = Some img ->
            Closest.distance r < Qabs (altitudeOrZero img - targetAltitude))
  end.
Proof.
  destruct images as [| first rest]; [reflexivity |].
  destruct (findClosestImageToAltitude_Some (first :: rest) targetAltitude)
    as (r & -> & (Hnth & Hdist & Hmin & Hfirst) & Hindex); [discriminate |].
  split; [exact Hindex |].
  split; [exact Hnth |]. split; [exact Hdist |]. split; [| exact Hfirst].
  intros img Hin. apply In_nth_error in Hin. destruct Hin as (j & Hj).
  apply (Hmin j img); [| exact Hj].
  apply nth_error_Some. rewrite Hj. discriminate.
Qed.
(* ===================================================================== *)
(** ** Validation of the blade data *)
(* ===================================================================== *)

Section BladeDataFacts.
Context `{JsRuntime}.
Import BladeData.

Lemma warn_wellPaired (w r : string) (penalty : Q) (s : Report) :
  wellPaired s -> wellPaired (warn w r penalty s).
Proof.
  intros [Hlen _]. split; cbn [warn r_warnings r_recommendations].
  - rewrite !List.length_app, Hlen. reflexivity.
  - intros E. apply List.app_eq_nil in E. destruct E as [_ E]. discriminate.
Qed.

Lemma reward_wellPaired (bonus : Q) (s : Report) :
  0 <= bonus -> wellPaired s -> wellPaired (reward bonus s).
Proof.
  intros Hb [Hlen Hscore]. split; cbn [reward r_warnings r_recommendations r_qualityScore].
  - exact Hlen.
  - intros E. specialize (Hscore E). lra.
Qed.

Lemma warn_nonempty (w r : string) (penalty : Q) (s : Report) :
  r_warnings (warn w r penalty s) <> [].
Proof.
  cbn [warn r_warnings]. intros E. apply List.app_eq_nil in E.
  destruct E as [_ E]. discriminate.
Qed.

(** A step of the validation: it keeps a report well paired and removes no
    warning. *)
Ltac validation_step :=
  intros s; split; [intros Hs | intros Hw];
  repeat match goal with
         | |- context [if ?c then _ else _] => destruct c
         end;
  first [ assumption
        | apply warn_nonempty
        | apply warn_wellPaired; assumption
        | apply reward_wellPaired; [lra | assumption] ].

Lemma checkImageCount_step (images : list (TurbineImage Q)) :
  forall s, (wellPaired s -> wellPaired (checkImageCount images s))
            /\ (r_warnings s <> [] -> r_warnings (checkImageCount images s) <> []).
Proof. unfold checkImageCount. validation_step. Qed.

Lemma checkBladeLength_step (bladeMetrics : BladeMetrics Q) :
  forall s, (wellPaired s -> wellPaired (checkBladeLength bladeMetrics s))
            /\ (r_warnings s <> [] -> r_warnings (checkBladeLength bladeMetrics s) <> []).
Proof. unfold checkBladeLength. validation_step. Qed.

Lemma checkGaps_step (coverage : Coverage Q) :
  forall s, (wellPaired s -> wellPaired (checkGaps coverage s))
            /\ (r_warnings s <> [] -> r_warnings (checkGaps coverage s) <> []).
Proof. unfold checkGaps. validation_step. Qed.

Lemma checkGsdConsistency_step (gsdValues : list Q) :
  forall s, (wellPaired s -> wellPaired (checkGsdConsistency gsdValues s))
            /\ (r_warnings s <> [] -> r_warnings (checkGsdConsistency gsdValues s) <> []).
Proof. unfold checkGsdConsistency. validation_step. Qed.

Lemma checkSpacing_step (images : list (TurbineImage Q)) (bladeMetrics : BladeMetrics Q) :
  forall s, (wellPaired s -> wellPaired (checkSpacing images bladeMetrics s))
            /\ (r_warnings s <> [] ->
                r_warnings (checkSpacing images bladeMetrics s) <> []).
Proof. unfold checkSpacing. validation_step. Qed.

Lemma rewardCoverage_step (images : list (TurbineImage Q)) (coverage : Coverage Q) :
  forall s, (wellPaired s -> wellPaired (rewardCoverage images coverage s))
            /\ (r_warnings s <> [] ->
                r_warnings (rewardCoverage images coverage s) <> []).
Proof. unfold rewardCoverage. validation_step. Qed.

Lemma rewardResolution_step (gsdValues : list Q) :
  forall s, (wellPaired s -> wellPaired (rewardResolution gsdValues s))
            /\ (r_warnings s <> [] -> r_warnings (rewardResolution gsdValues s) <> []).
Proof. unfold rewardResolution. validation_step. Qed.

(** The report [validateBladeData] ends with, for images in number. *)
Lemma validateBladeData_report (images : list (TurbineImage Q)) :
  images <> [] ->
  exists s,
    validateBladeData images
    = {| isValid := Nat.eqb (length (r_warnings s)) 0;
         warnings := r_warnings s;
         recommendations := r_recommendations s;
         qualityScore := Qmax 0 (Qmin 100 (r_qualityScore s)) |}
    /\ wellPaired s
    /\ ((length images < 10)%nat -> r_warnings s <> []).
Proof.
  intros Hne. unfold validateBladeData.
  destruct (Nat.eqb_spec (length images) 0) as [E | _];
    [apply length_zero_iff_nil in E; contradiction |].
  cbn zeta. eexists. split; [reflexivity |].
  set (s0 := {| r_warnings := []; r_recommendations := []; r_qualityScore := 100 |}).
  assert (H0 : wellPaired s0) by (split; [reflexivity | intros _; simpl; lra]).
  split.
  - apply rewardResolution_step, rewardCoverage_step, checkSpacing_step,
      checkGsdConsistency_step, checkGaps_step, checkBladeLength_step,
      checkImageCount_step, H0.
  - intros Hlen.
    apply rewardResolution_step, rewardCoverage_step, checkSpacing_step,
      checkGsdConsistency_step, checkGaps_step, checkBladeLength_step.
    unfold checkImageCount.
    destruct (Nat.ltb_spec (length images) 5); [apply warn_nonempty |].
    destruct (Nat.ltb_spec (length images) 10); [apply warn_nonempty | lia].
Qed.

(** X21.  In the answer of [validateBladeData] every warning comes with a
    recommendation: the two lists have the same length.  The quality score
    is between 0 and 100; the data are valid exactly when there is no
    warning, and valid data score 100.  Of no image at all the answer is
    invalid with a score of 0. *)
Theorem validateBladeData_paired (images : list (TurbineImage Q)) :
  let v := validateBladeData images in
  length (warnings v) = length (recommendations v)
  /\ 0 <= qualityScore v /\ qualityScore v <= 100
  /\ (isValid v = true <-> warnings v = [])
  /\ (isValid v = true -> qualityScore v == 100)
  /\ (images = [] -> isValid v = false /\ qualityScore v = 0).
Proof.
  cbn zeta. destruct images as [| image images].
  - cbn. repeat split; try lra; try discriminate.
  - destruct (validateBladeData_report (image :: images)) as (s & -> & [Hlen Hscore] & _);
      [discriminate |].
    cbn [isValid warnings recommendations qualityScore].
    split; [exact Hlen |].
    split; [apply Q.le_max_l |].
    split; [apply Q.max_lub; [lra | apply Q.le_min_l] |].
    assert (Hvalid : Nat.eqb (length (r_warnings s)) 0 = true <-> r_warnings s = [])
      by (rewrite Nat.eqb_eq; apply length_zero_iff_nil).
    split; [exact Hvalid |]. split; [| discriminate].
    intros Hv. apply Hvalid in Hv. specialize (Hscore Hv).
    rewrite (Q.min_l 100 (r_qualityScore s)) by exact Hscore.
    apply Q.max_r. lra.
Qed.

(** X22.  With fewer than 10 images [validateBladeData] never finds the data
    valid: the check of the image count always leaves a warning. *)
Theorem validateBladeData_needs_ten_images (images : list (TurbineImage Q)) :
  (length images < 10)%nat ->
  isValid (validateBladeData images) = false
  /\ warnings (validateBladeData images) <> [].
Proof.
  intros Hlen. destruct images as [| image images].
  - cbn. split; [reflexivity | discriminate].
  - destruct (validateBladeData_report (image :: images)) as (s & -> & _ & Hw);
      [discriminate |].
    specialize (Hw Hlen). cbn [isValid warnings].
    split; [| exact Hw].
    apply Nat.eqb_neq. intros E. apply length_zero_iff_nil in E. contradiction.
Qed.

End BladeDataFacts.

Lemma validateBladeData_needs_ten_images_witness :
  (length [imageAt (N := Q) 10; imageAt 15; imageAt 50] < 10)%nat
  /\ BladeData.isValid
       (validateBladeData (H := exampleRuntime) [imageAt 10; imageAt 15; imageAt 50])
     = false
  /\ BladeData.warnings
       (validateBladeData (H := exampleRuntime) [imageAt 10; imageAt 15; imageAt 50])
     = ["Very few images - may not provide adequate blade coverage"].
Proof.
  assert (Hlen : (length [imageAt (N := Q) 10; imageAt 15; imageAt 50] < 10)%nat)
    by (simpl; lia).
  split; [exact Hlen |].
  split; [| vm_compute; reflexivity].
  exact (proj1 (validateBladeData_needs_ten_images (H := exampleRuntime) _ Hlen)).
Defined.
(* ===================================================================== *)
(** ** Inspection statistics *)
(* ===================================================================== *)

Lemma sorted_nth_between (l : list Q) (i : nat) :
  StronglySorted Qle l -> (i < length l)%nat ->
  nth 0 l 0 <= nth i l 0 /\ nth i l 0 <= nth (length l - 1) l 0.
Proof.
  intros Hs Hi. assert (Hin : In (nth i l 0) l) by now apply nth_In.
  split; [now apply sorted_first_le | now apply sorted_last_ge].
Qed.

(** X23.  The statistics of [getBladeInspectionStats] agree with the
    functions they stand beside: the altitude statistics give the minimum,
    the maximum and the length of [calculateBladeMetrics] and count the
    positive altitudes, which are at most the images; the coverage and the
    validation are those of [getBladeCoverage] and [validateBladeData]; and
    of the GSD statistics the median (the entry of index [floor(n / 2)] of
    the sorted values) lies between the minimum and the maximum, all four
    being 0 when no image has a positive GSD. *)
Theorem getBladeInspectionStats_consistent `{JsRuntime} (images : list (TurbineImage Q)) :
  let s := getBladeInspectionStats images in
  let a := InspectionStats.altitudeStats s in
  let g := InspectionStats.gsdStats s in
  let m := InspectionStats.metrics s in
  (AltitudeStats.min a = minAltitude m
   /\ AltitudeStats.max a = maxAltitude m
   /\ AltitudeStats.range a = lengthMeters m
   /\ AltitudeStats.count a = length (positiveAltitudes images)
   /\ (AltitudeStats.count a <= totalImages m)%nat)
  /\ (InspectionStats.coverage s = getBladeCoverage images
      /\ InspectionStats.validation s = validateBladeData images
      /\ m = calculateBladeMetrics_default images)
  /\ (GsdStats.count g = length (gsdValuesOf images)
      /\ GsdStats.min g <= GsdStats.median g /\ GsdStats.median g <= GsdStats.max g
      /\ (GsdStats.count g = 0%nat ->
          GsdStats.min g = 0 /\ GsdStats.max g = 0 /\ GsdStats.avg g = 0
          /\ GsdStats.median g = 0)).
Proof.
  cbn zeta. unfold getBladeInspectionStats.
  cbn [InspectionStats.altitudeStats InspectionStats.gsdStats InspectionStats.metrics
       InspectionStats.coverage InspectionStats.validation].
  split; [| split; [repeat split |]].
  - cbn [AltitudeStats.min AltitudeStats.max AltitudeStats.range AltitudeStats.count].
    assert (Htotal : totalImages (calculateBladeMetrics_default images) = length images)
      by apply calculateBladeMetrics_totalImages.
    assert (Hcount : length (sortedAltitudes images) = length (positiveAltitudes images))
      by (rewrite sortedAltitudes_Q; apply Qsort_length).
    assert (Hle : (length (positiveAltitudes images) <= length images)%nat).
    { unfold positiveAltitudes.
      eapply Nat.le_trans; [apply List.filter_length_le | now rewrite List.length_map]. }
    rewrite Htotal.
    destruct (positiveAltitudes images) as [| x l] eqn:Hp.
    + unfold calculateBladeMetrics_default, calculateBladeMetrics.
      rewrite (no_positiveAltitudes images Hp). cbn [Nat.ltb Nat.leb length].
      destruct (Nat.eqb (length images) 0); cbn; repeat split; lia.
    + assert (Hne : positiveAltitudes images <> []) by (rewrite Hp; discriminate).
      unfold calculateBladeMetrics_default.
      rewrite (calculateBladeMetrics_main images (lit 3) Hne). cbn zeta.
      cbn [minAltitude maxAltitude lengthMeters].
      destruct (Nat.ltb_spec 0 (length (sortedAltitudes images))) as [_ | Hn];
        [| rewrite Hcount in Hn; simpl in Hn; lia].
      repeat split; [exact Hcount | rewrite Hcount; exact Hle].
  - cbn [GsdStats.min GsdStats.max GsdStats.avg GsdStats.median GsdStats.count].
    set (gsdValues := Array_sort (fun a b : Q => (a - b)%js) (gsdValuesOf images)).
    assert (Hlen : length gsdValues = length (gsdValuesOf images)) by apply Qsort_length.
    split; [exact Hlen |].
    destruct (Nat.ltb_spec 0 (length gsdValues)) as [Hn | Hn].
    + unfold at_index.
      destruct (sorted_nth_between gsdValues (length gsdValues / 2)) as [Hlo Hhi].
      * apply Qsort_sorted.
      * apply Nat.div_lt; lia.
      * repeat split; try assumption; lia.
    + repeat split; try lra; reflexivity.
Qed.
(* ===================================================================== *)
(** ** Measurement readiness *)
(* ===================================================================== *)

Lemma usableGsd_Some (image : TurbineImage Q) (g : GSDData Q) :
  usableGsd image = Some g <-> gsd image = Some g /\ 0 < gsd_cm_per_pixel g.
Proof.
  unfold usableGsd. destruct (gsd image) as [g' |]; [| split; [discriminate | tauto]].
  cbn [falsy ArithQ].
  destruct (Qeq_bool (gsd_cm_per_pixel g') 0) eqn:E0;
    [apply Qeq_bool_iff in E0 | apply Qeq_bool_neq in E0].
  - cbn [orb]. split; [discriminate |]. intros [E' Hpos]. injection E' as <-. lra.
  - cbn [orb]. case_Qleb (gsd_cm_per_pixel g') 0.
    + split; [discriminate |]. intros [E' Hpos]. injection E' as <-. lra.
    + split.
      * intros E'. injection E' as <-. auto.
      * intros [E' _]. exact E'.
Qed.

Section ReadinessFacts.
Context `{JsRuntime}.

(** What [validateSingleImage] answers for an image with a usable GSD. *)
Lemma validateSingleImage_usable (image : TurbineImage Q) (g : GSDData Q) :
  usableGsd image = Some g ->
  let inRange := negb (Qltb (gsd_cm_per_pixel g) 0.001 || Qltb 50 (gsd_cm_per_pixel g)) in
  SingleImage.canMeasure (validateSingleImage image)
  = inRange && negb (isFocusSource (distance_source g))
  /\ GsdQuality_eqb (SingleImage.gsdQuality (validateSingleImage image)) unusable
     = negb inRange.
Proof.
  intros Hg. cbn zeta. unfold validateSingleImage. rewrite Hg.
  destruct (isFocusSource (distance_source g));
    destruct (Qltb (gsd_cm_per_pixel g) 0.001 || Qltb 50 (gsd_cm_per_pixel g));
    cbn [negb andb];
    repeat match goal with
           | |- context [if ?c then _ else _] => destruct c
           end; split; reflexivity.
Qed.

(** An image that can be measured has a usable GSD, in range, a source that
    names no focus distance, and a quality other than "unusable". *)
Lemma validateSingleImage_measurable (image : TurbineImage Q) :
  SingleImage.canMeasure (validateSingleImage image) = true ->
  exists g, usableGsd image = Some g
    /\ Qltb (gsd_cm_per_pixel g) 0.001 || Qltb 50 (gsd_cm_per_pixel g) = false
    /\ isFocusSource (distance_source g) = false
    /\ GsdQuality_eqb (SingleImage.gsdQuality (validateSingleImage image)) unusable
       = false.
Proof.
  destruct (usableGsd image) as [g |] eqn:Hg.
  - destruct (validateSingleImage_usable image g Hg) as [Hcan Hqual].
    cbn zeta in Hcan, Hqual. rewrite Hcan, Hqual. intros E.
    apply andb_true_iff in E. destruct E as [E1 E2].
    apply negb_true_iff in E1, E2. exists g. rewrite E1. auto.
  - unfold validateSingleImage. rewrite Hg. discriminate.
Qed.

(** X24.  [validateSingleImage] lets an image be measured exactly when the
    image has a GSD between 0.001 and 50 cm per pixel and a distance source
    whose name does not contain "focus" (in any case of letters); neither
    the distance to the blade nor its confidence has a part in it, whatever
    issues they raise.  The GSD quality is "unusable" exactly when the image
    has no GSD in that range, and then the image cannot be measured. *)
Theorem validateSingleImage_canMeasure (image : TurbineImage Q) :
  let v := validateSingleImage image in
  let inRange :=
    exists g, gsd image = Some g
              /\ 0.001 <= gsd_cm_per_pixel g /\ gsd_cm_per_pixel g <= 50 in
  (SingleImage.canMeasure v = true
   <-> exists g, gsd image = Some g
                 /\ 0.001 <= gsd_cm_per_pixel g /\ gsd_cm_per_pixel g <= 50
                 /\ isFocusSource (distance_source g) = false)
  /\ (SingleImage.gsdQuality v = unusable <-> ~ inRange)
  /\ (SingleImage.gsdQuality v = unusable -> SingleImage.canMeasure v = false).
Proof.
  cbn zeta.
  assert (Hq : forall q, GsdQuality_eqb q unusable = true <-> q = unusable)
    by (intros []; simpl; split; congruence).
  destruct (usableGsd image) as [g |] eqn:Hg.
  - destruct (validateSingleImage_usable image g Hg) as [Hcan Hqual]. cbn zeta in Hcan, Hqual.
    apply usableGsd_Some in Hg. destruct Hg as [Hg Hpos].
    rewrite Hcan, <- Hq, Hqual. clear Hcan Hqual.
    case_Qltb (gsd_cm_per_pixel g) 0.001; cbn [orb negb andb].
    + split; [| split; [| reflexivity]].
      * split; [discriminate |]. intros (g' & Hg' & Hlo & _).
        rewrite Hg in Hg'. injection Hg' as <-. lra.
      * split; [| reflexivity]. intros _ (g' & Hg' & Hlo & _).
        rewrite Hg in Hg'. injection Hg' as <-. lra.
    + case_Qltb 50 (gsd_cm_per_pixel g); cbn [negb andb].
      * split; [| split; [| reflexivity]].
        -- split; [discriminate |]. intros (g' & Hg' & _ & Hhi & _).
           rewrite Hg in Hg'. injection Hg' as <-. lra.
        -- split; [| reflexivity]. intros _ (g' & Hg' & _ & Hhi).
           rewrite Hg in Hg'. injection Hg' as <-. lra.
      * split; [| split; [| discriminate]].
        -- rewrite negb_true_iff. split.
           ++ intros Hf. exists g. auto.
           ++ intros (g' & Hg' & _ & _ & Hf). rewrite Hg in Hg'. now injection Hg' as <-.
        -- split; [discriminate |]. intros Hn. exfalso. apply Hn. exists g. auto.
  - assert (Hnone : forall g, gsd image = Some g -> gsd_cm_per_pixel g <= 0).
    { intros g Hgsd. apply Qnot_lt_le. intros Hpos.
      assert (E : usableGsd image = Some g) by (apply usableGsd_Some; auto).
      congruence. }
    unfold validateSingleImage. rewrite Hg.
    cbn [SingleImage.canMeasure SingleImage.gsdQuality].
    split; [| split; [| reflexivity]].
    + split; [discriminate |]. intros (g & Hgsd & Hlo & _).
      specialize (Hnone g Hgsd). lra.
    + split; [| reflexivity]. intros _ (g & Hgsd & Hlo & _).
      specialize (Hnone g Hgsd). lra.
Qed.

(** X25.  [getMeasurementReadyImages] keeps, in their order, the images
    [validateSingleImage] lets be measured (its second test, on the GSD
    quality, removes nothing more), and none of the images it keeps is among
    those [getImagesNeedingReprocessing] returns: an image whose distance
    source names a focus distance is never ready for measurement. *)
Theorem getMeasurementReadyImages_excludes_focus (images : list (TurbineImage Q)) :
  getMeasurementReadyImages images
  = List.filter (fun image => SingleImage.canMeasure (validateSingleImage image)) images
  /\ (forall image, In image (getMeasurementReadyImages images) ->
        In image images /\ ~ In image (getImagesNeedingReprocessing images))
  /\ (forall image, In image (getImagesNeedingReprocessing images) ->
        SingleImage.canMeasure (validateSingleImage image) = false).
Proof.
  assert (Hfocus : forall image g, gsd image = Some g ->
            isFocusSource (distance_source g) = true ->
            SingleImage.canMeasure (validateSingleImage image) = false).
  { intros image g Hg Hf. apply not_true_iff_false. intros Hcan.
    apply validateSingleImage_measurable in Hcan.
    destruct Hcan as (g' & Hg' & _ & Hf' & _).
    apply usableGsd_Some in Hg'. destruct Hg' as [Hg' _]. congruence. }
  split; [| split].
  - unfold getMeasurementReadyImages. apply List.filter_ext. intros image. cbn zeta.
    destruct (SingleImage.canMeasure (validateSingleImage image)) eqn:Hcan;
      [| reflexivity].
    destruct (GsdQuality_eqb (SingleImage.gsdQuality (validateSingleImage image)) unusable)
      eqn:Hq; [| reflexivity].
    apply validateSingleImage_measurable in Hcan.
    destruct Hcan as (g & _ & _ & _ & Hq'). congruence.
  - intros image Hin. unfold getMeasurementReadyImages in Hin.
    apply List.filter_In in Hin. destruct Hin as [Hin Hready].
    split; [exact Hin |]. intros Hre.
    unfold getImagesNeedingReprocessing in Hre. apply List.filter_In in Hre.
    destruct Hre as [_ Hre]. destruct (gsd image) as [g |] eqn:Hg; [| discriminate].
    rewrite (Hfocus image g Hg Hre) in Hready. discriminate.
  - intros image Hre.
    unfold getImagesNeedingReprocessing in Hre. apply List.filter_In in Hre.
    destruct Hre as [_ Hre]. destruct (gsd image) as [g |] eqn:Hg; [| discriminate].
    exact (Hfocus image g Hg Hre).
Qed.

End ReadinessFacts.
(* ===================================================================== *)
(** ** Validation of a set of images *)
(* ===================================================================== *)

Lemma focus_test (source : string) :
  String.eqb source "XMP:FocusDistance" || String.eqb source "FocusDistance"
  || includes (toLowerCase source) "focus"
  = isFocusSource source.
Proof.
  unfold isFocusSource.
  destruct (String.eqb_spec source "XMP:FocusDistance") as [-> | _]; [reflexivity |].
  destruct (String.eqb_spec source "FocusDistance") as [-> | _]; reflexivity.
Qed.

Lemma Math_min_spread_spec (l : list Q) :
  l <> [] -> In (Math_min_spread l) l /\ forall y, In y l -> Math_min_spread l <= y.
Proof. destruct l as [| x l]; [contradiction |]. intros _. apply fold_Qmin_spec. Qed.

Lemma Math_max_spread_spec (l : list Q) :
  l <> [] -> In (Math_max_spread l) l /\ forall y, In y l -> y <= Math_max_spread l.
Proof. destruct l as [| x l]; [contradiction |]. intros _. apply fold_Qmax_spec. Qed.

Lemma filter_nil_iff {A} (f : A -> bool) (l : list A) :
  List.filter f l = [] <-> forall x, In x l -> f x = false.
Proof.
  induction l as [| a l IH]; simpl; [tauto |].
  destruct (f a) eqn:Ea.
  - split; [discriminate |]. intros Hall. specialize (Hall a (or_introl eq_refl)). congruence.
  - rewrite IH. split.
    + intros Hall x [<- | Hx]; auto.
    + intros Hall x Hx. apply Hall. now right.
Qed.

Lemma filter_positive_iff {A} (f : A -> bool) (l : list A) :
  (0 < length (List.filter f l))%nat <-> exists x, In x l /\ f x = true.
Proof.
  induction l as [| a l IH]; simpl.
  - split; [lia | intros (x & [] & _)].
  - destruct (f a) eqn:Ea.
    + split; [intros _; exists a; auto | simpl; lia].
    + rewrite IH. split.
      * intros (x & Hx & Hf). exists x. auto.
      * intros (x & [<- | Hx] & Hf); [congruence | exists x; auto].
Qed.

Section ImageSetFacts.
Context `{JsRuntime}.

(** One turn of the [forEach] of [validateTurbineImages]. *)
Lemma analyzeImage_step (s : Analysis.t) (image : TurbineImage Q) :
  let r := analyzeImage s image in
  (Analysis.highConfidenceDistance r + Analysis.mediumConfidenceDistance r
   + Analysis.lowConfidenceDistance r
   = Analysis.highConfidenceDistance s + Analysis.mediumConfidenceDistance s
     + Analysis.lowConfidenceDistance s + (if hasUsableGsd image then 1 else 0))%nat
  /\ (Analysis.validForMeasurement r
      = Analysis.validForMeasurement s + (if hasPlausibleGsd image then 1 else 0))%nat
  /\ (exists added,
        Analysis.gsdValues r = Analysis.gsdValues s ++ added
        /\ length added = (if hasPlausibleGsd image then 1 else 0)%nat
        /\ forall q, In q added -> 0.001 <= q /\ q <= 50)
  /\ (exists added,
        Analysis.errors r = Analysis.errors s ++ added
        /\ (added = [] <->
            exists g, usableGsd image = Some g
                      /\ isFocusSource (distance_source g) = false)).
Proof.
  cbn zeta. unfold analyzeImage, hasUsableGsd, hasPlausibleGsd.
  destruct (usableGsd image) as [g |] eqn:Hg.
  - cbn [Analysis.highConfidenceDistance Analysis.mediumConfidenceDistance
         Analysis.lowConfidenceDistance Analysis.validForMeasurement
         Analysis.gsdValues Analysis.errors].
    rewrite focus_test.
    split; [destruct (distance_confidence g); lia |].
    split; [destruct (Qltb (gsd_cm_per_pixel g) 0.001 || Qltb 50 (gsd_cm_per_pixel g));
            cbn [negb]; lia |].
    split.
    + destruct (Qltb (gsd_cm_per_pixel g) 0.001 || Qltb 50 (gsd_cm_per_pixel g)) eqn:Hu;
        cbn [negb].
      * exists []. rewrite List.app_nil_r. repeat split; contradiction.
      * exists [gsd_cm_per_pixel g]. split; [reflexivity |]. split; [reflexivity |].
        intros q [<- | []]. apply orb_false_iff in Hu. destruct Hu as [H1 H2].
        apply Qltb_ge in H1, H2. auto.
    + eexists. split; [reflexivity |].
      destruct (isFocusSource (distance_source g)) eqn:Hf.
      * split; [discriminate |]. intros (g' & Hg' & Hf'). congruence.
      * split; [| reflexivity]. intros _. now exists g.
  - cbn [Analysis.highConfidenceDistance Analysis.mediumConfidenceDistance
         Analysis.lowConfidenceDistance Analysis.validForMeasurement
         Analysis.gsdValues Analysis.errors].
    split; [lia |]. split; [lia |]. split.
    + exists []. rewrite List.app_nil_r. repeat split; contradiction.
    + eexists. split; [reflexivity |].
      split; [discriminate |]. intros (g & Hg' & _). discriminate.
Qed.

(** The whole [forEach]. *)
Lemma analyzeImage_loop (images : list (TurbineImage Q)) (s : Analysis.t) :
  let r := fold_left analyzeImage images s in
  (Analysis.highConfidenceDistance r + Analysis.mediumConfidenceDistance r
   + Analysis.lowConfidenceDistance r
   = Analysis.highConfidenceDistance s + Analysis.mediumConfidenceDistance s
     + Analysis.lowConfidenceDistance s + length (List.filter hasUsableGsd images))%nat
  /\ (Analysis.validForMeasurement r
      = Analysis.validForMeasurement s + length (List.filter hasPlausibleGsd images))%nat
  /\ (exists added,
        Analysis.gsdValues r = Analysis.gsdValues s ++ added
        /\ length added = length (List.filter hasPlausibleGsd images)
        /\ forall q, In q added -> 0.001 <= q /\ q <= 50)
  /\ (exists added,
        Analysis.errors r = Analysis.errors s ++ added
        /\ (added = [] <->
            forall image, In image images ->
              exists g, usableGsd image = Some g
                        /\ isFocusSource (distance_source g) = false)).
Proof.
  revert s. induction images as [| image images IH]; intros s; cbn zeta.
  - cbn [fold_left List.filter length]. split; [lia |]. split; [lia |]. split.
    + exists []. rewrite List.app_nil_r. repeat split; contradiction.
    + exists []. rewrite List.app_nil_r. split; [reflexivity |].
      split; [intros _ image [] | reflexivity].
  - cbn [fold_left].
    destruct (analyzeImage_step s image) as (S1 & S2 & (v1 & S3 & S3l & S3r) & (e1 & S4 & S4e)).
    destruct (IH (analyzeImage s image))
      as (I1 & I2 & (v2 & I3 & I3l & I3r) & (e2 & I4 & I4e)).
    cbn zeta in *. cbn [List.filter].
    split; [rewrite I1, S1; destruct (hasUsableGsd image); simpl; lia |].
    split; [rewrite I2, S2; destruct (hasPlausibleGsd image); simpl; lia |].
    split.
    + exists (v1 ++ v2). rewrite I3, S3, List.app_assoc. split; [reflexivity |]. split.
      * rewrite List.length_app, I3l, S3l. destruct (hasPlausibleGsd image); simpl; lia.
      * intros q Hq. apply List.in_app_or in Hq. destruct Hq; auto.
    + exists (e1 ++ e2). rewrite I4, S4, List.app_assoc. split; [reflexivity |]. split.
      * intros E. apply List.app_eq_nil in E. destruct E as [E1 E2].
        intros img [<- | Hin]; [now apply S4e | now apply I4e].
      * intros Hall. rewrite (proj2 S4e), (proj2 I4e); [reflexivity | |].
        -- intros img Hin. apply Hall. now right.
        -- apply Hall. now left.
Qed.

(** X26.  The statistics of [validateTurbineImages] count as follows:
    [totalImages] is the number of images; the three confidence counters
    add up to the number of images with a usable GSD (a GSD above 0);
    [validForMeasurement] is the number of images whose GSD lies between
    0.001 and 50 cm per pixel, and so at most the former.  When some image
    is valid for measurement the GSD range lies within 0.001 and 50;
    when none is, the average and the range are 0. *)
Theorem validateTurbineImages_statistics (images : list (TurbineImage Q)) :
  let st := ValidationResult.statistics (validateTurbineImages images) in
  Statistics.totalImages st = length images
  /\ (Statistics.highConfidenceDistance st + Statistics.mediumConfidenceDistance st
      + Statistics.lowConfidenceDistance st
      = length (List.filter hasUsableGsd images))%nat
  /\ Statistics.validForMeasurement st = length (List.filter hasPlausibleGsd images)
  /\ (Statistics.validForMeasurement st
      <= Statistics.highConfidenceDistance st + Statistics.mediumConfidenceDistance st
         + Statistics.lowConfidenceDistance st)%nat
  /\ (Statistics.highConfidenceDistance st + Statistics.mediumConfidenceDistance st
      + Statistics.lowConfidenceDistance st <= Statistics.totalImages st)%nat
  /\ ((0 < Statistics.validForMeasurement st)%nat ->
      0.001 <= GsdRange.min (Statistics.gsdRange st)
      /\ GsdRange.min (Statistics.gsdRange st) <= GsdRange.max (Statistics.gsdRange st)
      /\ GsdRange.max (Statistics.gsdRange st) <= 50)
  /\ (Statistics.validForMeasurement st = 0%nat ->
      Statistics.averageGSD st = 0
      /\ GsdRange.min (Statistics.gsdRange st) = 0
      /\ GsdRange.max (Statistics.gsdRange st) = 0).
Proof.
  cbn zeta.
  assert (Hsub : (length (List.filter hasPlausibleGsd images)
                  <= length (List.filter hasUsableGsd images))%nat).
  { clear. induction images as [| image images IH]; [reflexivity |].
    cbn [List.filter]. unfold hasPlausibleGsd at 1, hasUsableGsd at 1.
    destruct (usableGsd image) as [g |].
    - destruct (negb _); simpl; lia.
    - exact IH. }
  pose proof (List.filter_length_le hasUsableGsd images) as Hle.
  unfold validateTurbineImages.
  destruct (Nat.eqb_spec (length images) 0) as [E | _].
  - apply length_zero_iff_nil in E. subst images. cbn.
    repeat split; try lia; try lra.
  - cbn [ValidationResult.statistics Statistics.totalImages
         Statistics.highConfidenceDistance Statistics.mediumConfidenceDistance
         Statistics.lowConfidenceDistance Statistics.validForMeasurement
         Statistics.averageGSD Statistics.gsdRange].
    match goal with
    | |- context [fold_left analyzeImage images ?s0] =>
        destruct (analyzeImage_loop images s0) as (L1 & L2 & (added & L3 & L3l & L3r) & _);
        set (r := fold_left analyzeImage images s0) in *
    end.
    cbn zeta in L1, L2, L3. cbn in L1, L2, L3. subst added.
    rewrite L1, L2.
    split; [reflexivity |]. split; [reflexivity |]. split; [reflexivity |].
    split; [exact Hsub |]. split; [exact Hle |].
    rewrite L3l. split.
    + intros Hpos.
      destruct (Nat.ltb_spec 0 (length (List.filter hasPlausibleGsd images))) as [_ | Hn];
        [| lia].
      cbn [GsdRange.min GsdRange.max].
      assert (Hne : Analysis.gsdValues r <> [])
        by (intros E; rewrite E in L3l; simpl in L3l; lia).
      destruct (Math_min_spread_spec _ Hne) as [Hmin_in Hmin].
      destruct (Math_max_spread_spec _ Hne) as [Hmax_in Hmax].
      split; [now apply L3r |]. split; [now apply Hmin |]. now apply L3r.
    + intros Hzero. rewrite Hzero. cbn. repeat split.
Qed.

(** X27.  [validateTurbineImages] finds a set of images valid exactly when
    the set is not empty, every image of it has a usable GSD and a distance
    source whose name does not contain "focus", and at least one image has
    a GSD between 0.001 and 50 cm per pixel; a valid set gets no error.
    Warnings and suggestions have no part in it. *)
Theorem validateTurbineImages_valid_iff (images : list (TurbineImage Q)) :
  let v := validateTurbineImages images in
  (ValidationResult.isValid v = true
   <-> images <> []
       /\ (forall image, In image images ->
             exists g, usableGsd image = Some g
                       /\ isFocusSource (distance_source g) = false)
       /\ exists image, In image images /\ hasPlausibleGsd image = true)
  /\ (ValidationResult.isValid v = true -> ValidationResult.errors v = []).
Proof.
  cbn zeta. unfold validateTurbineImages.
  destruct (Nat.eqb_spec (length images) 0) as [E | Hne].
  - apply length_zero_iff_nil in E. subst images. cbn.
    split; [| discriminate]. split; [discriminate | intros (Hc & _); contradiction].
  - assert (Hne' : images <> []) by (intros ->; now apply Hne).
    cbn [ValidationResult.isValid ValidationResult.errors].
    match goal with
    | |- context [fold_left analyzeImage images ?s0] =>
        destruct (analyzeImage_loop images s0) as (_ & L2 & _ & (added & L4 & L4e));
        set (r := fold_left analyzeImage images s0) in *
    end.
    cbn zeta in L2, L4. cbn in L2, L4. subst added.
    set (focused :=
           List.filter
             (fun img => match gsd img with
                         | Some g => includes (toLowerCase (distance_source g)) "focus"
                         | None => false
                         end) images).
    assert (Hfocused : (forall image, In image images ->
                          exists g, usableGsd image = Some g
                                    /\ isFocusSource (distance_source g) = false) ->
                       focused = []).
    { intros Hall. subst focused. apply filter_nil_iff. intros img Hin.
      destruct (Hall img Hin) as (g & Hg & Hnf). apply usableGsd_Some in Hg.
      destruct Hg as [Hg _]. rewrite Hg. exact Hnf. }
    pose proof (filter_positive_iff hasPlausibleGsd images) as Hplausible.
    rewrite L2. cbn [Nat.add].
    split.
    + rewrite andb_true_iff, Nat.eqb_eq, Nat.ltb_lt, Hplausible, length_zero_iff_nil.
      split.
      * intros [Herr Hp]. apply List.app_eq_nil in Herr. destruct Herr as [Herr _].
        split; [exact Hne' |]. split; [now apply L4e | exact Hp].
      * intros (_ & Hall & Hp). split; [| exact Hp].
        rewrite (proj2 L4e Hall), (Hfocused Hall). reflexivity.
    + rewrite andb_true_iff, Nat.eqb_eq, length_zero_iff_nil. tauto.
Qed.

End ImageSetFacts.
(* ===================================================================== *)
(** ** The viewer: order of the images and navigation *)
(* ===================================================================== *)

Lemma byAltitude_insert_sorted (x : TurbineImage Q) (l : list (TurbineImage Q)) :
  StronglySorted (fun a b => altitudeOrZero a <= altitudeOrZero b) l ->
  StronglySorted (fun a b => altitudeOrZero a <= altitudeOrZero b)
    (sort_insert (fun a b => altitudeOrZero a - altitudeOrZero b) x l).
Proof.
  induction 1 as [| y l Hs IH Hy]; simpl.
  - repeat constructor.
  - unfold gtb; cbn [ltb lit ArithQ].
    case_Qltb 0 (altitudeOrZero x - altitudeOrZero y).
    + constructor; [exact IH |].
      rewrite List.Forall_forall in *. intros z Hz.
      apply (Permutation_in _ (sort_insert_Permutation _ x l)) in Hz.
      destruct Hz as [<- | Hz]; [lra | auto].
    + constructor; [now constructor |].
      constructor; [lra |].
      rewrite List.Forall_forall in *. intros z Hz.
      specialize (Hy z Hz). lra.
Qed.

(** X28.  The images the viewer shows for a filter are exactly the images
    of the filter's blade and side, each as often as it is among all
    images, in the order of their altitudes from the lowest to the highest;
    an image without altitude counts as at altitude 0 and so comes first. *)
Theorem filteredImages_sorted
    (allImages : list (TurbineImage Q)) (currentFilter : Filter.t) :
  let shown := filteredImages allImages currentFilter in
  Permutation shown
    (List.filter
       (fun img => Blade_eqb (blade img) (Filter.blade currentFilter)
                   && Side_eqb (side img) (Filter.side currentFilter))
       allImages)
  /\ (forall img, In img shown <->
        In img allImages /\ blade img = Filter.blade currentFilter
        /\ side img = Filter.side currentFilter)
  /\ StronglySorted (fun a b => altitudeOrZero a <= altitudeOrZero b) shown.
Proof.
  cbn zeta. unfold filteredImages.
  assert (Hb : forall a b, Blade_eqb a b = true <-> a = b)
    by (intros [] []; simpl; split; congruence).
  assert (Hs : forall a b, Side_eqb a b = true <-> a = b)
    by (intros [] []; simpl; split; congruence).
  destruct (Nat.eqb_spec (length allImages) 0) as [E | _].
  - apply length_zero_iff_nil in E. subst allImages. cbn [List.filter].
    split; [constructor |]. split; [| constructor].
    intros img. split; [contradiction | intros ([] & _)].
  - set (matching := List.filter _ allImages).
    split; [apply Array_sort_Permutation |]. split.
    + intros img. rewrite Array_sort_In. subst matching. rewrite List.filter_In.
      rewrite andb_true_iff, Hb, Hs. tauto.
    + unfold Array_sort. induction matching as [| x l IH]; simpl; [constructor |].
      now apply byAltitude_insert_sorted.
Qed.

(** The positive altitudes are altitudes of images. *)
Lemma positiveAltitudes_In (images : list (TurbineImage Q)) (alt : Q) :
  In alt (positiveAltitudes images) ->
  exists img, In img images /\ altitudeOrZero img = alt.
Proof.
  unfold positiveAltitudes. intros Hin. apply List.filter_In in Hin.
  destruct Hin as [Hin _]. apply List.in_map_iff in Hin.
  destruct Hin as (img & <- & Hin). now exists img.
Qed.

(** X29.  On a list of images that is not empty [navigateToBladePosition]
    always navigates, to the index of an image of the list, which the
    clamp of [navigateToImage] leaves as it is; the image is the first of
    those closest to the altitude [minAltitude + relativePosition *
    altitudeRange].  For the relative position 0 and a list with a positive
    altitude this is an image at the minimum altitude of the metrics.  On an
    empty list the function does nothing. *)
Theorem navigateToBladePosition_lands (images : list (TurbineImage Q))
    (relativePosition : Q) :
  images <> [] ->
  let metrics := calculateBladeMetrics_default images in
  let target := minAltitude metrics + relativePosition * altitudeRange metrics in
  navigateToBladePosition [] relativePosition = None
  /\ exists i image,
       navigateToBladePosition images relativePosition = Some (Z.of_nat i)
       /\ nth_error images i = Some image
       /\ (forall img, In img images ->
             Qabs (altitudeOrZero image - target) <= Qabs (altitudeOrZero img - target))
       /\ (forall j img, (j < i)%nat -> nth_error images j = Some img ->
             Qabs (altitudeOrZero image - target) < Qabs (altitudeOrZero img - target))
       /\ (relativePosition == 0 -> positiveAltitudes images <> [] ->
           altitudeOrZero image == minAltitude metrics).
Proof.
  intros Hne metrics target. split; [reflexivity |].
  unfold navigateToBladePosition.
  destruct (Nat.eqb_spec (length images) 0) as [E | _];
    [apply length_zero_iff_nil in E; contradiction |].
  cbn zeta. fold metrics. fold target.
  destruct (findClosestImageToAltitude_Some images target Hne)
    as (r & -> & (Hnth & Hdist & Hmin & Hfirst) & Hindex).
  exists (Closest.index r), (Closest.image r).
  assert (Hall : forall img, In img images ->
            Qabs (altitudeOrZero (Closest.image r) - target)
            <= Qabs (altitudeOrZero img - target)).
  { intros img Hin. rewrite <- Hdist. apply In_nth_error in Hin.
    destruct Hin as (j & Hj). apply (Hmin j img); [| exact Hj].
    apply nth_error_Some. rewrite Hj. discriminate. }
  split; [| split; [exact Hnth | split; [exact Hall | split]]].
  - f_equal. unfold newIndex. lia.
  - intros j img Hj Hjth. rewrite <- Hdist. now apply (Hfirst j img).
  - intros Hzero Hp.
    assert (Htarget : target == minAltitude metrics)
      by (unfold target; rewrite Hzero; ring).
    assert (Hin : In (minAltitude metrics) (positiveAltitudes images)).
    { unfold metrics, calculateBladeMetrics_default.
      rewrite (calculateBladeMetrics_main images (lit 3) Hp). cbn zeta.
      cbn [minAltitude]. rewrite sortedAltitudes_Q.
      apply (proj1 (Qsort_In _ _)). apply nth_first_In. now apply Qsort_nonempty. }
    apply positiveAltitudes_In in Hin. destruct Hin as (img & Himg & Halt).
    specialize (Hall img Himg). rewrite Halt in Hall.
    assert (Hz : Qabs (minAltitude metrics - target) == 0)
      by (rewrite Htarget; unfold Qminus; rewrite Qplus_opp_r; reflexivity).
    rewrite Hz in Hall.
    pose proof (Qabs_nonneg (altitudeOrZero (Closest.image r) - target)) as Hpos.
    assert (Habs : Qabs (altitudeOrZero (Closest.image r) - target) == 0) by lra.
    revert Habs. apply Qabs_case; intros Hsign Habs; lra.
Qed.

Lemma navigateToBladePosition_lands_witness :
  [imageAt (N := Q) 0; imageAt 15; imageAt 10; imageAt 50] <> []
  /\ navigateToBladePosition [imageAt 0; imageAt 15; imageAt 10; imageAt 50] 0 = Some 2%Z
  /\ exists i image,
       navigateToBladePosition [imageAt 0; imageAt 15; imageAt 10; imageAt 50] 0
       = Some (Z.of_nat i)
       /\ nth_error [imageAt (N := Q) 0; imageAt 15; imageAt 10; imageAt 50] i = Some image
       /\ altitudeOrZero image == 10.
Proof.
  assert (Hne : [imageAt (N := Q) 0; imageAt 15; imageAt 10; imageAt 50] <> [])
    by discriminate.
  split; [exact Hne |]. split; [vm_compute; reflexivity |].
  destruct (navigateToBladePosition_lands _ 0 Hne) as (_ & i & image & Hnav & Hnth & _ & _ & Hbase).
  exists i, image. split; [exact Hnav |]. split; [exact Hnth |].
  eapply Qeq_trans; [apply Hbase; [reflexivity | vm_compute; discriminate] |].
  vm_compute. reflexivity.
Defined.
(* ===================================================================== *)
(** ** The measurement mapper *)
(* ===================================================================== *)

Import CarouselMeasurement.

(** What does hold.  For every measurement drawn with a valid GSD and a
    blade context, the altitude of the absolute position is the image's
    current altitude plus the vertical midpoint of the two points, taken
    from pixels to cm by the GSD and from cm to meters.  For a blade whose
    length is not 0, [bladePercentage] is
    [((absoluteAltitude - minAltitude) / bladeLength) * 100] clamped to
    [0, 100].  For a blade of length 0 the division is by zero: the result
    is NaN when [absoluteAltitude = minAltitude], and else 0 or 100 by the
    sign of their difference. *)
Lemma calculateDistance_absolute_position `{JsRuntime}
    (gsdCmPerPixel : Q) (ctx : BladeContext) (start end_ : Point) :
  0 < gsdCmPerPixel ->
  let absoluteAltitude :=
    spec_absoluteAltitude (currentAltitude ctx) gsdCmPerPixel start end_ in
  exists position,
    absolutePosition
      (calculateDistance gsdCmPerPixel (Some ctx) start end_)
    = Some position
    /\ altitude position = Num absoluteAltitude
    /\ (~ bladeLength ctx == 0 ->
        exists percentage,
          bladePercentage position = Num percentage
          /\ percentage
             == spec_bladePercentage absoluteAltitude (minAltitude ctx) (bladeLength ctx)
          /\ 0 <= percentage /\ percentage <= 100)
    /\ (bladeLength ctx == 0 ->
        bladePercentage position
        = if Qeq_bool (absoluteAltitude - minAltitude ctx) 0 then NaN
          else if Qltb (absoluteAltitude - minAltitude ctx) 0 then Num 0
          else Num 100).
Proof.
  intros Hgsd absoluteAltitude. unfold calculateDistance, isValidGSD.
  apply Qltb_lt in Hgsd. rewrite Hgsd. cbn [negb absolutePosition].
  eexists. split; [reflexivity |]. cbn [altitude bladePercentage safeNumber].
  split; [reflexivity |].
  set (rise := absoluteAltitude - minAltitude ctx).
  match goal with
  | |- context [Math_max (Num 0) (Math_min (Num 100) ?x)] =>
      change x with (n_mul (n_div (Num rise) (Num (bladeLength ctx))) (Num 100))
  end.
  cbn [n_div]. split.
  - intros Hlen.
    assert (Hb : Qeq_bool (bladeLength ctx) 0 = false)
      by (apply not_true_iff_false; intros E; apply Hlen; now apply Qeq_bool_iff).
    rewrite Hb. unfold spec_bladePercentage, clamp. fold rise.
    cbn [n_mul Math_max Math_min ArithNumber n_max n_min isNaN orb n_ltb].
    set (v := rise / bladeLength ctx * 100).
    case_Qltb v 100.
    + cbn [n_max isNaN orb n_ltb].
      case_Qltb 0 v; eexists; (split; [reflexivity |]);
        case_Qltb v 0; case_Qltb 100 v; split; lra.
    + cbn [n_max isNaN orb n_ltb]. change (Qltb 0 100) with true. cbn iota.
      eexists; (split; [reflexivity |]);
        case_Qltb v 0; case_Qltb 100 v; split; lra.
  - intros Hlen. apply Qeq_bool_iff in Hlen. rewrite Hlen.
    destruct (Qeq_bool rise 0); [reflexivity |].
    destruct (Qltb rise 0) eqn:Hs; unfold Qsign_neg; rewrite Hs; reflexivity.
Qed.

(** C7 (the code does not do what the claim says).  A blade side with a
    single stored image, taken at 10 m: the carousel computes its blade
    context from [calculateBladeMetrics], whose [lengthMeters] is
    [maxAltitude - minAltitude = 0], and [safeNumber(bladeLength, 1)] lets
    the 0 through.  A measurement drawn along the top edge of the image,
    from (100, 0) to (400, 0), is valid (300 px) and its [bladePercentage]
    is [Math.max(0, Math.min(100, (0 / 0) * 100))], which is NaN and not a
    value of [0, 100]; a measurement drawn anywhere lower gets 100.
    [calculateImagePosition] guards the same quotient
    ([altitudeRange > 0 ? ... : 0]) and answers 0 for that image. *)
Theorem calculateDistance_zero_length_blade :
  let image : TurbineImage Q := imageAt 10 in
  let bladeContext :=
    enhancedBladeContext [image]
      (Some {| Filter.blade := BladeA; Filter.side := TE |}) (Some image) in
  let alongTopEdge :=
    calculateDistance (H := exampleRuntime) 0.01 bladeContext
      {| px := 100; py := 0 |} {| px := 400; py := 0 |} in
  let lower :=
    calculateDistance (H := exampleRuntime) 0.01 bladeContext
      {| px := 100; py := 1000 |} {| px := 400; py := 3000 |} in
  bladeContext = Some {| minAltitude := 10; maxAltitude := 10;
                         currentAltitude := 10; bladeLength := 0 |}
  /\ valid alongTopEdge = true
  /\ option_map bladePercentage (absolutePosition alongTopEdge) = Some NaN
  /\ valid lower = true
  /\ option_map bladePercentage (absolutePosition lower) = Some (Num 100)
  /\ percentageFromBase
       (calculateImagePosition image (calculateBladeMetrics_default [image])) = 0.
Proof. vm_compute. repeat split. Qed.
